(** * Exercise-form validators: push-up, chin-up and plank

    A shallow embedding of the repetition-counting engine of the fitness
    game (services/ExerciseValidator.ts, PushUpValidator.ts,
    ChinUpValidator.ts, PlankValidator.ts and utils/FormChecker.ts) and the
    properties of its specification; then of what the engine feeds
    (services/GameManager.ts, AnimalRescueManager.ts, the pose handling of
    AppService.ts, WorkoutSessionManager.ts, with utils/constants.ts and
    utils/helpers.ts) and further properties of the whole.

    Conventions of the embedding.

    - A JavaScript [number] that carries a coordinate, an angle or a score
      is an exact rational ([Q]): rounding, infinities and NaN are outside
      this idealisation, and a quotient by 0, which JavaScript makes an
      infinity or a NaN, is 0.  Where a property is about NaN or about
      rounding itself the function is given again over IEEE binary64
      numbers, in [Binary64].
    - [Math.sqrt], [Math.acos] and [Math.PI] have no rational counterpart:
      they are the fields of a record [JSMath] that the geometry takes as
      an argument.
    - Times are integers of milliseconds ([Z]); [repCount] is a [Z].
    - Every method that mutates [this] takes the object and returns the new
      object, next to its result.
    - [Date.now()] is the only thing the validators read from outside.  A
      call of [validate] receives a [Clock]: [clk 0] is what the first call
      of [Date.now()] made during that call returns, [clk 1] what the
      second one returns.
    - The managers take the date they read, and what [localStorage] holds
      for them, as arguments; a write to the storage comes with a flag that
      tells whether it went through. *)

From Stdlib Require Import QArith Qminmax Qabs Qround ZArith List String Bool.
From Stdlib Require Import Lia Lqa DecimalString Sorted.
From Stdlib Require Floats.
Import ListNotations.

Local Open Scope string_scope.
Local Open Scope list_scope.
Local Open Scope Z_scope.
Local Open Scope Q_scope.

(** ** Numbers *)

Definition Qltb (a b : Q) : bool := negb (Qle_bool b a).

Notation "a <? b" := (Qltb a b) (at level 70, no associativity) : Q_scope.
Notation "a <=? b" := (Qle_bool a b) (at level 70, no associativity) : Q_scope.
Notation "a >? b" := (Qltb b a) (at level 70, no associativity) : Q_scope.
Notation "a >=? b" := (Qle_bool b a) (at level 70, no associativity) : Q_scope.

(** The part of the global [Math] object that leaves the rationals. *)
Record JSMath : Type := {
  sqrt : Q -> Q;
  acos : Q -> Q;
  PI : Q
}.

(** A number inside a template literal: the validators print integers only. *)
Definition show (n : Z) : string := NilZero.string_of_int (Z.to_int n).

(** [String.prototype.padStart(targetLength, padString)]: [padString]
    repeated, and cut, in front of a string shorter than [targetLength]. *)
Fixpoint padding (n : nat) (padString rest : string) : string :=
  match n with
  | O => EmptyString
  | S n' =>
      match rest with
      | String c rest' => String c (padding n' padString rest')
      | EmptyString =>
          match padString with
          | String c rest' => String c (padding n' padString rest')
          | EmptyString => EmptyString
          end
      end
  end.

Definition padStart (targetLength : nat) (padString s : string) : string :=
  (padding (targetLength - String.length s) padString padString ++ s)%string.

(** The readings [Date.now()] returns during one call of [validate], in
    the order of the calls. *)
Definition Clock : Type := nat -> Z.

(** ** types/index.ts *)

Record Landmark3D : Type := {
  x : Q;
  y : Q;
  z : Q;
  visibility : option Q
}.

Record PoseResult : Type := {
  landmarks : list Landmark3D;
  worldLandmarks : list Landmark3D;
  confidence : Q;
  timestamp : Z
}.

Record ExerciseValidation : Type := {
  isValid : bool;
  feedback : list string;
  completedRep : bool;
  formScore : Q
}.

(** MediaPipe pose landmark indices (the [POSE_LANDMARKS] tables). *)
Module POSE_LANDMARKS.
Definition NOSE : nat := 0.
Definition LEFT_SHOULDER : nat := 11.
Definition RIGHT_SHOULDER : nat := 12.
Definition LEFT_ELBOW : nat := 13.
Definition RIGHT_ELBOW : nat := 14.
Definition LEFT_WRIST : nat := 15.
Definition RIGHT_WRIST : nat := 16.
Definition LEFT_HIP : nat := 23.
Definition RIGHT_HIP : nat := 24.
Definition LEFT_KNEE : nat := 25.
Definition RIGHT_KNEE : nat := 26.
Definition LEFT_ANKLE : nat := 27.
Definition RIGHT_ANKLE : nat := 28.
End POSE_LANDMARKS.

(** The result both rejection paths of every validator return. *)
Definition rejected (message : string) : ExerciseValidation :=
  {| isValid := false; feedback := [message];
     completedRep := false; formScore := 0 |}.

(** ** services/ExerciseValidator.ts: the base class *)

Module ExerciseValidator.

Record t : Type := mk {
  repCount : Z;
  isInPosition : bool;
  lastValidationTime : Z;
  validationHistory : list bool
}.

Definition historySize : nat := 5.

(** The field initialisers of the class. *)
Definition init : t :=
  {| repCount := 0; isInPosition := false;
     lastValidationTime := 0; validationHistory := [] |}.

Definition reset (this : t) : t :=
  {| repCount := 0; isInPosition := false;
     lastValidationTime := 0; validationHistory := [] |}.

Definition getRepCount (this : t) : Z := repCount this.

Definition set_repCount (n : Z) (this : t) : t :=
  {| repCount := n; isInPosition := isInPosition this;
     lastValidationTime := lastValidationTime this;
     validationHistory := validationHistory this |}.

Definition set_lastValidationTime (n : Z) (this : t) : t :=
  {| repCount := repCount this; isInPosition := isInPosition this;
     lastValidationTime := n;
     validationHistory := validationHistory this |}.

Definition set_validationHistory (h : list bool) (this : t) : t :=
  {| repCount := repCount this; isInPosition := isInPosition this;
     lastValidationTime := lastValidationTime this;
     validationHistory := h |}.

(** [calculateAngle]: the angle at the vertex [b], in degrees, from the
    x and y coordinates.  The quotient goes to [Math.acos] as it is. *)
Definition calculateAngle (Math : JSMath) (a b c : Landmark3D) : Q :=
  let ba_x := x a - x b in
  let ba_y := y a - y b in
  let bc_x := x c - x b in
  let bc_y := y c - y b in
  let dotProduct := ba_x * bc_x + ba_y * bc_y in
  let magnitudeBA := sqrt Math (ba_x * ba_x + ba_y * ba_y) in
  let magnitudeBC := sqrt Math (bc_x * bc_x + bc_y * bc_y) in
  let angleRad := acos Math (dotProduct / (magnitudeBA * magnitudeBC)) in
  angleRad * (180 / PI Math).

Definition calculateDistance (Math : JSMath) (a b : Landmark3D) : Q :=
  let dx := x a - x b in
  let dy := y a - y b in
  let dz := z a - z b in
  sqrt Math (dx * dx + dy * dy + dz * dz).

(** [isLandmarkReliable(landmark, minVisibility = 0.5)]. *)
Definition isLandmarkReliableAt (minVisibility : Q)
    (landmark : option Landmark3D) : bool :=
  match landmark with
  | None => false
  | Some l =>
      match visibility l with
      | None => false
      | Some v => v >=? minVisibility
      end
  end.

Definition isLandmarkReliable : option Landmark3D -> bool :=
  isLandmarkReliableAt 0.5.

(** [addToValidationHistory]: push, drop the oldest entry beyond
    [historySize], and vote. *)
Definition addToValidationHistory (isValid : bool) (this : t) : t * bool :=
  let pushed := validationHistory this ++ [isValid] in
  let history :=
    if (historySize <? List.length pushed)%nat then tl pushed else pushed in
  let validCount := List.length (filter (fun v => v) history) in
  (set_validationHistory history this,
   (Z.of_nat validCount >=?
      Qceiling (inject_Z (Z.of_nat historySize) * 0.6))%Z).

(** [hasEnoughTimePassed(minInterval)], [now] being the reading of
    [Date.now()] the method takes. *)
Definition hasEnoughTimePassed (now : Z) (minInterval : Z) (this : t)
    : t * bool :=
  let timePassed := (now - lastValidationTime this)%Z in
  if (timePassed >=? minInterval)%Z
  then (set_lastValidationTime now this, true)
  else (this, false).

(** [getLandmark]: [undefined] outside the array; an index is a [nat],
    so the test [index < 0] has no counterpart. *)
Definition getLandmark (poseResult : PoseResult) (index : nat)
    : option Landmark3D :=
  nth_error (landmarks poseResult) index.

Definition calculateFormScore (criteria : list bool) : Q :=
  if (List.length criteria =? 0)%nat then 0
  else
    let validCriteria := List.length (filter (fun c => c) criteria) in
    inject_Z (Z.of_nat validCriteria)
      / inject_Z (Z.of_nat (List.length criteria)).

End ExerciseValidator.

(** The object literal [{x: (a.x + b.x) / 2, y: ..., z: ...}] the validators
    build for the centre of two landmarks; it has no visibility. *)
Definition center (a b : Landmark3D) : Landmark3D :=
  {| x := (x a + x b) / 2;
     y := (y a + y b) / 2;
     z := (z a + z b) / 2;
     visibility := None |}.

(** ** services/PushUpValidator.ts *)

Module PushUpValidator.

Record t : Type := mk {
  super : ExerciseValidator.t;
  isInDownPosition : bool;
  isInUpPosition : bool
}.

Definition minArmAngle : Q := 70.
Definition maxArmAngle : Q := 160.
Definition bodyAlignmentThreshold : Q := 0.1.

Definition init : t :=
  {| super := ExerciseValidator.init;
     isInDownPosition := false; isInUpPosition := false |}.

Definition reset (this : t) : t :=
  {| super := ExerciseValidator.reset (super this);
     isInDownPosition := false; isInUpPosition := false |}.

Definition getRepCount (this : t) : Z :=
  ExerciseValidator.getRepCount (super this).

Definition getCurrentPhase (this : t) : string :=
  if isInDownPosition this then "Down Position"
  else if isInUpPosition this then "Up Position"
  else "Transitioning".

Definition checkBodyAlignment
    (leftShoulder rightShoulder leftHip rightHip : Landmark3D) : Q :=
  let shoulderCenter := center leftShoulder rightShoulder in
  let hipCenter := center leftHip rightHip in
  let verticalDifference := Qabs (y shoulderCenter - y hipCenter) in
  let alignmentScore :=
    Qmax 0 (1 - verticalDifference / bodyAlignmentThreshold) in
  Qmin 1 alignmentScore.

Definition checkArmSymmetry (leftArmAngle rightArmAngle : Q) : Q :=
  let angleDifference := Qabs (leftArmAngle - rightArmAngle) in
  let maxAllowedDifference := 30 in
  let symmetryScore := Qmax 0 (1 - angleDifference / maxAllowedDifference) in
  Qmin 1 symmetryScore.

(** The array [formCriteria] of [validate]. *)
Definition formCriteria (leftArmAngle rightArmAngle bodyAlignmentScore : Q)
    : list bool :=
  let avgArmAngle := (leftArmAngle + rightArmAngle) / 2 in
  let armSymmetryScore := checkArmSymmetry leftArmAngle rightArmAngle in
  [ bodyAlignmentScore >? 0.7;
    armSymmetryScore >? 0.7;
    (avgArmAngle >? 30) && (avgArmAngle <? 180) ].

(** The block "State machine for repetition counting" of [validate], with
    the phase tests before it: the object it leaves, [completedRep] and
    the feedback it pushes. *)
Definition countRepetition (clk : Clock) (this : t)
    (avgArmAngle : Q) (isValid : bool) : t * bool * list string :=
  let isCurrentlyDown := avgArmAngle <? minArmAngle in
  let isCurrentlyUp := avgArmAngle >? maxArmAngle in
  if isCurrentlyDown && negb (isInDownPosition this) && isValid then
    ({| super := super this;
        isInDownPosition := true; isInUpPosition := false |},
     false, ["Good down position!"])
  else if isCurrentlyUp && isInDownPosition this
          && negb (isInUpPosition this) && isValid then
    let '(base, enough) :=
      ExerciseValidator.hasEnoughTimePassed (clk 0%nat) 1000 (super this) in
    if enough then
      let count := (ExerciseValidator.repCount base + 1)%Z in
      ({| super := ExerciseValidator.set_repCount count base;
          isInDownPosition := false; isInUpPosition := false |},
       true, [("Great push-up! Count: " ++ show count)%string])
    else
      ({| super := base;
          isInDownPosition := isInDownPosition this;
          isInUpPosition := true |},
       false, [])
  else (this, false, []).

(** What [validate] does with a frame that passed the confidence and the
    landmark checks, from the two arm angles and the alignment score it
    measured on it: the form criteria, the state machine, the guidance
    and the smoothed verdict. *)
Definition validateForm (clk : Clock) (this : t)
    (leftArmAngle rightArmAngle bodyAlignmentScore : Q)
    : t * ExerciseValidation :=
  let avgArmAngle := (leftArmAngle + rightArmAngle) / 2 in
  let armSymmetryScore := checkArmSymmetry leftArmAngle rightArmAngle in
  let formScore :=
    ExerciseValidator.calculateFormScore
      (formCriteria leftArmAngle rightArmAngle bodyAlignmentScore) in
  let isValid := formScore >? 0.6 in
  let feedback :=
    (if bodyAlignmentScore <=? 0.7
     then ["Keep your body straight - align shoulders with hips"]
     else [])
    ++ (if armSymmetryScore <=? 0.7
        then ["Keep both arms moving symmetrically"]
        else []) in
  let '(this, completedRep, pushed) :=
    countRepetition clk this avgArmAngle isValid in
  let feedback := feedback ++ pushed in
  let feedback :=
    if isValid then
      feedback ++
        [ if avgArmAngle >? maxArmAngle then "Lower yourself down"
          else if avgArmAngle <? minArmAngle then "Push back up"
          else "Good form - keep going!" ]
    else feedback in
  let '(base, stable) :=
    ExerciseValidator.addToValidationHistory isValid (super this) in
  ({| super := base;
      isInDownPosition := isInDownPosition this;
      isInUpPosition := isInUpPosition this |},
   {| isValid := stable; feedback := feedback;
      completedRep := completedRep; formScore := formScore |}).

Definition validate (Math : JSMath) (clk : Clock) (this : t)
    (poseResult : PoseResult) : t * ExerciseValidation :=
  if confidence poseResult <? 0.6 then
    (this, rejected "Please position yourself clearly in the camera view")
  else
    let get := ExerciseValidator.getLandmark poseResult in
    let leftShoulder := get POSE_LANDMARKS.LEFT_SHOULDER in
    let rightShoulder := get POSE_LANDMARKS.RIGHT_SHOULDER in
    let leftElbow := get POSE_LANDMARKS.LEFT_ELBOW in
    let rightElbow := get POSE_LANDMARKS.RIGHT_ELBOW in
    let leftWrist := get POSE_LANDMARKS.LEFT_WRIST in
    let rightWrist := get POSE_LANDMARKS.RIGHT_WRIST in
    let leftHip := get POSE_LANDMARKS.LEFT_HIP in
    let rightHip := get POSE_LANDMARKS.RIGHT_HIP in
    let requiredLandmarks :=
      [ leftShoulder; rightShoulder; leftElbow; rightElbow;
        leftWrist; rightWrist; leftHip; rightHip ] in
    let notVisible :=
      (this, rejected "Please ensure your upper body is fully visible") in
    if negb (forallb ExerciseValidator.isLandmarkReliable requiredLandmarks)
    then notVisible
    else
      match leftShoulder, rightShoulder, leftElbow, rightElbow,
            leftWrist, rightWrist, leftHip, rightHip with
      | Some leftShoulder, Some rightShoulder, Some leftElbow,
        Some rightElbow, Some leftWrist, Some rightWrist,
        Some leftHip, Some rightHip =>
          let leftArmAngle :=
            ExerciseValidator.calculateAngle Math
              leftShoulder leftElbow leftWrist in
          let rightArmAngle :=
            ExerciseValidator.calculateAngle Math
              rightShoulder rightElbow rightWrist in
          let bodyAlignmentScore :=
            checkBodyAlignment leftShoulder rightShoulder leftHip rightHip in
          validateForm clk this leftArmAngle rightArmAngle bodyAlignmentScore
      | _, _, _, _, _, _, _, _ =>
          (* not reached: a reliable landmark is a defined one *)
          notVisible
      end.

End PushUpValidator.

(** ** services/ChinUpValidator.ts *)

Module ChinUpValidator.

Record t : Type := mk {
  super : ExerciseValidator.t;
  isInDownPosition : bool;
  isInUpPosition : bool
}.

Definition minArmAngle : Q := 130.
Definition maxArmAngle : Q := 70.
Definition chinOverBarThreshold : Q := 0.05.

Definition init : t :=
  {| super := ExerciseValidator.init;
     isInDownPosition := false; isInUpPosition := false |}.

Definition reset (this : t) : t :=
  {| super := ExerciseValidator.reset (super this);
     isInDownPosition := false; isInUpPosition := false |}.

Definition getRepCount (this : t) : Z :=
  ExerciseValidator.getRepCount (super this).

Definition getCurrentPhase (this : t) : string :=
  if isInUpPosition this then "Up Position"
  else if isInDownPosition this then "Down Position"
  else "Transitioning".

Definition checkBodyPosition
    (leftShoulder rightShoulder leftHip rightHip : Landmark3D) : Q :=
  let shoulderCenter := center leftShoulder rightShoulder in
  let hipCenter := center leftHip rightHip in
  let horizontalDifference := Qabs (x shoulderCenter - x hipCenter) in
  let alignmentScore := Qmax 0 (1 - horizontalDifference / 0.1) in
  Qmin 1 alignmentScore.

Definition checkArmSymmetry (leftArmAngle rightArmAngle : Q) : Q :=
  let angleDifference := Qabs (leftArmAngle - rightArmAngle) in
  let maxAllowedDifference := 30 in
  let symmetryScore := Qmax 0 (1 - angleDifference / maxAllowedDifference) in
  Qmin 1 symmetryScore.

Definition checkChinOverBar (nose leftWrist rightWrist : Landmark3D) : Q :=
  let wristCenter_y := (y leftWrist + y rightWrist) / 2 in
  let noseAboveWrists := y nose <? wristCenter_y in
  if negb noseAboveWrists then 0
  else
    let distanceAboveBar := wristCenter_y - y nose in
    let chinOverBarScore := Qmin 1 (distanceAboveBar / chinOverBarThreshold) in
    chinOverBarScore.

(** The array [formCriteria] of [validate]. *)
Definition formCriteria (leftArmAngle rightArmAngle bodyPositionScore : Q)
    : list bool :=
  let avgArmAngle := (leftArmAngle + rightArmAngle) / 2 in
  let armSymmetryScore := checkArmSymmetry leftArmAngle rightArmAngle in
  [ bodyPositionScore >? 0.7;
    armSymmetryScore >? 0.7;
    (avgArmAngle >? 30) && (avgArmAngle <? 180) ].

(** The block "State machine for repetition counting" of [validate], with
    the phase tests before it: the object it leaves, [completedRep] and
    the feedback it pushes. *)
Definition countRepetition (clk : Clock) (this : t)
    (avgArmAngle chinOverBarScore : Q) (isValid : bool)
    : t * bool * list string :=
  let isCurrentlyDown := avgArmAngle >? minArmAngle in
  let isCurrentlyUp :=
    (avgArmAngle <? maxArmAngle) && (chinOverBarScore >? 0.7) in
  if isCurrentlyDown && negb (isInDownPosition this)
     && negb (isInUpPosition this) then
    ({| super := super this;
        isInDownPosition := true;
        isInUpPosition := isInUpPosition this |},
     false, ["Good starting position!"])
  else if isCurrentlyUp && isInDownPosition this
          && negb (isInUpPosition this) && isValid then
    ({| super := super this;
        isInDownPosition := isInDownPosition this;
        isInUpPosition := true |},
     false, ["Great! Chin over the bar!"])
  else if isCurrentlyDown && isInDownPosition this
          && isInUpPosition this && isValid then
    let '(base, enough) :=
      ExerciseValidator.hasEnoughTimePassed (clk 0%nat) 1000 (super this) in
    if enough then
      let count := (ExerciseValidator.repCount base + 1)%Z in
      ({| super := ExerciseValidator.set_repCount count base;
          isInDownPosition := true; isInUpPosition := false |},
       true, [("Great chin-up! Count: " ++ show count)%string])
    else
      ({| super := base;
          isInDownPosition := isInDownPosition this;
          isInUpPosition := isInUpPosition this |},
       false, [])
  else (this, false, []).

(** What [validate] does with a frame that passed the confidence and the
    landmark checks, from what it measured on it. *)
Definition validateForm (clk : Clock) (this : t)
    (leftArmAngle rightArmAngle bodyPositionScore chinOverBarScore : Q)
    : t * ExerciseValidation :=
  let avgArmAngle := (leftArmAngle + rightArmAngle) / 2 in
  let armSymmetryScore := checkArmSymmetry leftArmAngle rightArmAngle in
  let formScore :=
    ExerciseValidator.calculateFormScore
      (formCriteria leftArmAngle rightArmAngle bodyPositionScore) in
  let isValid := formScore >? 0.6 in
  let feedback :=
    (if bodyPositionScore <=? 0.7
     then ["Keep your body straight - avoid swinging"]
     else [])
    ++ (if armSymmetryScore <=? 0.7
        then ["Keep both arms moving symmetrically"]
        else []) in
  let '(this, completedRep, pushed) :=
    countRepetition clk this avgArmAngle chinOverBarScore isValid in
  let feedback := feedback ++ pushed in
  let feedback :=
    if isValid then
      feedback ++
        [ if avgArmAngle >? minArmAngle then "Pull yourself up"
          else if avgArmAngle <? maxArmAngle then "Lower yourself down"
          else "Good form - keep going!" ]
    else feedback in
  let '(base, stable) :=
    ExerciseValidator.addToValidationHistory isValid (super this) in
  ({| super := base;
      isInDownPosition := isInDownPosition this;
      isInUpPosition := isInUpPosition this |},
   {| isValid := stable; feedback := feedback;
      completedRep := completedRep; formScore := formScore |}).

Definition validate (Math : JSMath) (clk : Clock) (this : t)
    (poseResult : PoseResult) : t * ExerciseValidation :=
  if confidence poseResult <? 0.6 then
    (this, rejected "Please position yourself clearly in the camera view")
  else
    let get := ExerciseValidator.getLandmark poseResult in
    let nose := get POSE_LANDMARKS.NOSE in
    let leftShoulder := get POSE_LANDMARKS.LEFT_SHOULDER in
    let rightShoulder := get POSE_LANDMARKS.RIGHT_SHOULDER in
    let leftElbow := get POSE_LANDMARKS.LEFT_ELBOW in
    let rightElbow := get POSE_LANDMARKS.RIGHT_ELBOW in
    let leftWrist := get POSE_LANDMARKS.LEFT_WRIST in
    let rightWrist := get POSE_LANDMARKS.RIGHT_WRIST in
    let leftHip := get POSE_LANDMARKS.LEFT_HIP in
    let rightHip := get POSE_LANDMARKS.RIGHT_HIP in
    let requiredLandmarks :=
      [ nose; leftShoulder; rightShoulder; leftElbow; rightElbow;
        leftWrist; rightWrist; leftHip; rightHip ] in
    let notVisible :=
      (this, rejected "Please ensure your upper body is fully visible") in
    if negb (forallb ExerciseValidator.isLandmarkReliable requiredLandmarks)
    then notVisible
    else
      match nose, leftShoulder, rightShoulder, leftElbow, rightElbow,
            leftWrist, rightWrist, leftHip, rightHip with
      | Some nose, Some leftShoulder, Some rightShoulder, Some leftElbow,
        Some rightElbow, Some leftWrist, Some rightWrist,
        Some leftHip, Some rightHip =>
          let leftArmAngle :=
            ExerciseValidator.calculateAngle Math
              leftShoulder leftElbow leftWrist in
          let rightArmAngle :=
            ExerciseValidator.calculateAngle Math
              rightShoulder rightElbow rightWrist in
          let bodyPositionScore :=
            checkBodyPosition leftShoulder rightShoulder leftHip rightHip in
          let chinOverBarScore :=
            checkChinOverBar nose leftWrist rightWrist in
          validateForm clk this
            leftArmAngle rightArmAngle bodyPositionScore chinOverBarScore
      | _, _, _, _, _, _, _, _, _ =>
          (* not reached: a reliable landmark is a defined one *)
          notVisible
      end.

End ChinUpValidator.

(** ** utils/FormChecker.ts: what the plank validator calls *)

Module FormChecker.

(** [calculateBodyAngle]: the angle at the hip; the cosine is clamped to
    [-1, 1] on its way to [Math.acos]. *)
Definition calculateBodyAngle (Math : JSMath)
    (shoulder hip ankle : Landmark3D) : Q :=
  let shoulderVector_x := x shoulder - x hip in
  let shoulderVector_y := y shoulder - y hip in
  let ankleVector_x := x ankle - x hip in
  let ankleVector_y := y ankle - y hip in
  let dotProduct :=
    shoulderVector_x * ankleVector_x + shoulderVector_y * ankleVector_y in
  let shoulderMagnitude :=
    sqrt Math (shoulderVector_x ^ 2 + shoulderVector_y ^ 2) in
  let ankleMagnitude :=
    sqrt Math (ankleVector_x ^ 2 + ankleVector_y ^ 2) in
  let cosAngle := dotProduct / (shoulderMagnitude * ankleMagnitude) in
  let angleRad := acos Math (Qmax (-1) (Qmin 1 cosAngle)) in
  angleRad * (180 / PI Math).

Definition pointToLineDistance (Math : JSMath)
    (point lineStart lineEnd : Landmark3D) : Q :=
  let A := x point - x lineStart in
  let B := y point - y lineStart in
  let C := x lineEnd - x lineStart in
  let D := y lineEnd - y lineStart in
  let dot := A * C + B * D in
  let lenSq := C * C + D * D in
  if Qeq_bool lenSq 0 then sqrt Math (A * A + B * B)
  else
    let param := dot / lenSq in
    let '(xx, yy) :=
      if param <? 0 then (x lineStart, y lineStart)
      else if param >? 1 then (x lineEnd, y lineEnd)
      else (x lineStart + param * C, y lineStart + param * D) in
    let dx := x point - xx in
    let dy := y point - yy in
    sqrt Math (dx * dx + dy * dy).

(** [areLandmarksAligned]: every landmark strictly between the first and
    the last is within [threshold] of the segment they span. *)
Definition areLandmarksAligned (Math : JSMath)
    (landmarks : list Landmark3D) (threshold : Q) : bool :=
  if (List.length landmarks <? 2)%nat then true
  else
    match landmarks with
    | [] => true
    | first :: rest =>
        let last := List.last rest first in
        forallb
          (fun current =>
             negb (pointToLineDistance Math current first last >? threshold))
          (removelast rest)
    end.

Definition keyLandmarks : list nat := [11; 12; 13; 14; 15; 16; 23; 24]%nat.

(** The body of the inner loop of [calculatePoseStability]. *)
Definition addMovement (Math : JSMath) (prev curr : PoseResult)
    (acc : Q * nat) (landmarkIndex : nat) : Q * nat :=
  match nth_error (landmarks prev) landmarkIndex,
        nth_error (landmarks curr) landmarkIndex with
  | Some prevLandmark, Some currLandmark =>
      let movement :=
        sqrt Math ((x currLandmark - x prevLandmark) ^ 2
                   + (y currLandmark - y prevLandmark) ^ 2) in
      (fst acc + movement, S (snd acc))
  | _, _ => acc
  end.

(** The outer loop: consecutive poses, [prev] being the pose before the
    first of [rest]. *)
Fixpoint compareConsecutive (Math : JSMath) (prev : PoseResult)
    (rest : list PoseResult) (acc : Q * nat) : Q * nat :=
  match rest with
  | [] => acc
  | curr :: rest' =>
      compareConsecutive Math curr rest'
        (fold_left (addMovement Math prev curr) keyLandmarks acc)
  end.

Definition calculatePoseStability (Math : JSMath)
    (poseResults : list PoseResult) : Q :=
  if (List.length poseResults <? 2)%nat then 0
  else
    match poseResults with
    | [] => 0
    | first :: rest =>
        let '(totalMovement, comparisonCount) :=
          compareConsecutive Math first rest (0, 0%nat) in
        if (comparisonCount =? 0)%nat then 0
        else
          let averageMovement :=
            totalMovement / inject_Z (Z.of_nat comparisonCount) in
          let stabilityScore := Qmax 0 (1 - averageMovement * 10) in
          Qmin 1 stabilityScore
    end.

(** [isInPlankPosition]: shoulders, hips and ankles at heights within 0.1
    of each other, pair by pair; [false] when one of them is missing. *)
Definition isInPlankPosition (poseResult : PoseResult) : bool :=
  let get := nth_error (landmarks poseResult) in
  match get 11%nat, get 12%nat, get 23%nat, get 24%nat,
        get 27%nat, get 28%nat with
  | Some leftShoulder, Some rightShoulder, Some leftHip, Some rightHip,
    Some leftAnkle, Some rightAnkle =>
      let shoulderY := (y leftShoulder + y rightShoulder) / 2 in
      let hipY := (y leftHip + y rightHip) / 2 in
      let ankleY := (y leftAnkle + y rightAnkle) / 2 in
      let bodyAlignment :=
        (Qabs (shoulderY - hipY) <? 0.1) && (Qabs (hipY - ankleY) <? 0.1) in
      bodyAlignment
  | _, _, _, _, _, _ => false
  end.

(** [areArmsInPushUpPosition]: elbows below the shoulders, wrists within
    0.2 of the shoulders sideways. *)
Definition areArmsInPushUpPosition (poseResult : PoseResult) : bool :=
  let get := nth_error (landmarks poseResult) in
  match get 11%nat, get 13%nat, get 15%nat, get 12%nat,
        get 14%nat, get 16%nat with
  | Some leftShoulder, Some leftElbow, Some leftWrist,
    Some rightShoulder, Some rightElbow, Some rightWrist =>
      let leftElbowBelowShoulder := y leftElbow >? y leftShoulder in
      let rightElbowBelowShoulder := y rightElbow >? y rightShoulder in
      let leftWristAlignment :=
        Qabs (x leftWrist - x leftShoulder) <? 0.2 in
      let rightWristAlignment :=
        Qabs (x rightWrist - x rightShoulder) <? 0.2 in
      leftElbowBelowShoulder && rightElbowBelowShoulder
      && leftWristAlignment && rightWristAlignment
  | _, _, _, _, _, _ => false
  end.

(** [isFacingCamera]: the nose within 0.1 of the middle of the shoulders,
    and the shoulders more than 0.1 apart. *)
Definition isFacingCamera (poseResult : PoseResult) : bool :=
  let get := nth_error (landmarks poseResult) in
  match get 11%nat, get 12%nat, get 0%nat with
  | Some leftShoulder, Some rightShoulder, Some nose =>
      let shoulderMidpoint := (x leftShoulder + x rightShoulder) / 2 in
      let noseAlignment := Qabs (x nose - shoulderMidpoint) <? 0.1 in
      let shoulderWidth := Qabs (x leftShoulder - x rightShoulder) in
      let hasGoodShoulderWidth := shoulderWidth >? 0.1 in
      noseAlignment && hasGoodShoulderWidth
  | _, _, _ => false
  end.

End FormChecker.

(** ** services/PlankValidator.ts *)

Module PlankValidator.

Record t : Type := mk {
  super : ExerciseValidator.t;
  plankStartTime : Z;
  plankDuration : Z;
  isInPlankPosition : bool;
  lastStableTime : Z;
  recentPoses : list PoseResult;
  nextMilestoneIndex : nat
}.

Definition maxRecentPoses : nat := 10.
Definition stabilityThreshold : Q := 0.7.
Definition bodyAlignmentThreshold : Q := 0.1.
Definition minPlankDuration : Z := 5000.
Definition milestoneDurations : list Z := [5000; 10000; 20000; 30000; 60000]%Z.

Definition init : t :=
  {| super := ExerciseValidator.init;
     plankStartTime := 0; plankDuration := 0;
     isInPlankPosition := false; lastStableTime := 0;
     recentPoses := []; nextMilestoneIndex := 0 |}.

Definition reset (this : t) : t :=
  {| super := ExerciseValidator.reset (super this);
     plankStartTime := 0; plankDuration := 0;
     isInPlankPosition := false; lastStableTime := 0;
     recentPoses := []; nextMilestoneIndex := 0 |}.

Definition getRepCount (this : t) : Z :=
  ExerciseValidator.getRepCount (super this).

Definition isInPlank (this : t) : bool := isInPlankPosition this.

Definition set_super (base : ExerciseValidator.t) (this : t) : t :=
  {| super := base;
     plankStartTime := plankStartTime this;
     plankDuration := plankDuration this;
     isInPlankPosition := isInPlankPosition this;
     lastStableTime := lastStableTime this;
     recentPoses := recentPoses this;
     nextMilestoneIndex := nextMilestoneIndex this |}.

Definition set_isInPlankPosition (b : bool) (this : t) : t :=
  {| super := super this;
     plankStartTime := plankStartTime this;
     plankDuration := plankDuration this;
     isInPlankPosition := b;
     lastStableTime := lastStableTime this;
     recentPoses := recentPoses this;
     nextMilestoneIndex := nextMilestoneIndex this |}.

Definition set_recentPoses (poses : list PoseResult) (this : t) : t :=
  {| super := super this;
     plankStartTime := plankStartTime this;
     plankDuration := plankDuration this;
     isInPlankPosition := isInPlankPosition this;
     lastStableTime := lastStableTime this;
     recentPoses := poses;
     nextMilestoneIndex := nextMilestoneIndex this |}.

Definition addToRecentPoses (poseResult : PoseResult) (this : t) : t :=
  let pushed := recentPoses this ++ [poseResult] in
  set_recentPoses
    (if (maxRecentPoses <? List.length pushed)%nat then tl pushed else pushed)
    this.

(** [handleInvalidPose]; [now] is what [Date.now()] returns to it, read
    only when the plank is being held. *)
Definition handleInvalidPose (now : Z) (this : t) : t :=
  if isInPlankPosition this then
    if (now - lastStableTime this >? 1000)%Z
    then set_isInPlankPosition false this
    else this
  else this.

Definition checkBodyAlignment (Math : JSMath)
    (leftShoulder rightShoulder leftHip rightHip leftAnkle rightAnkle
       : Landmark3D) : Q :=
  let shoulderCenter := center leftShoulder rightShoulder in
  let hipCenter := center leftHip rightHip in
  let ankleCenter := center leftAnkle rightAnkle in
  let landmarks := [shoulderCenter; hipCenter; ankleCenter] in
  let isAligned :=
    FormChecker.areLandmarksAligned Math landmarks bodyAlignmentThreshold in
  if isAligned then 1
  else
    let distance :=
      FormChecker.calculateBodyAngle Math
        shoulderCenter hipCenter ankleCenter in
    let normalizedDistance := Qmin (distance / 30) 1 in
    Qmax 0 (1 - normalizedDistance).

Definition checkElbowPosition
    (leftShoulder leftElbow leftWrist
     rightShoulder rightElbow rightWrist : Landmark3D) : Q :=
  let leftAlignmentX := Qabs (x leftElbow - x leftShoulder) in
  let rightAlignmentX := Qabs (x rightElbow - x rightShoulder) in
  let leftScore := Qmax 0 (1 - leftAlignmentX / 0.1) in
  let rightScore := Qmax 0 (1 - rightAlignmentX / 0.1) in
  (leftScore + rightScore) / 2.

Definition checkHipPosition (Math : JSMath)
    (leftShoulder rightShoulder leftHip rightHip leftAnkle rightAnkle
       : Landmark3D) : Q :=
  let shoulderCenter := center leftShoulder rightShoulder in
  let hipCenter := center leftHip rightHip in
  let ankleCenter := center leftAnkle rightAnkle in
  let shoulderToHip_x := x shoulderCenter - x hipCenter in
  let shoulderToHip_y := y shoulderCenter - y hipCenter in
  let ankleToHip_x := x ankleCenter - x hipCenter in
  let ankleToHip_y := y ankleCenter - y hipCenter in
  let dotProduct :=
    shoulderToHip_x * ankleToHip_x + shoulderToHip_y * ankleToHip_y in
  let shoulderToHipMag :=
    sqrt Math (shoulderToHip_x ^ 2 + shoulderToHip_y ^ 2) in
  let ankleToHipMag := sqrt Math (ankleToHip_x ^ 2 + ankleToHip_y ^ 2) in
  let cosAngle := dotProduct / (shoulderToHipMag * ankleToHipMag) in
  let angleRad := acos Math (Qmax (-1) (Qmin 1 cosAngle)) in
  let angleDeg := angleRad * (180 / PI Math) in
  let deviation := Qabs (180 - angleDeg) in
  Qmax 0 (1 - deviation / 30).

(** The array [formCriteria] of [validate]. *)
Definition formCriteria
    (bodyAlignmentScore elbowPositionScore hipPositionScore stabilityScore : Q)
    : list bool :=
  [ bodyAlignmentScore >? 0.7;
    elbowPositionScore >? 0.7;
    hipPositionScore >? 0.7;
    stabilityScore >? stabilityThreshold ].

(** The block "Handle plank state" of [validate]: the object it leaves,
    [completedRep] and the feedback it pushes. *)
Definition trackPlank (clk : Clock) (this : t) (isValid : bool)
    : t * bool * list string :=
  if isValid then
    if negb (isInPlankPosition this) then
      ({| super := super this;
          plankStartTime := clk 0%nat;
          plankDuration := plankDuration this;
          isInPlankPosition := true;
          lastStableTime := lastStableTime this;
          recentPoses := recentPoses this;
          nextMilestoneIndex := nextMilestoneIndex this |},
       false, ["Good plank position! Hold steady..."])
    else
      let now := clk 0%nat in
      let duration := (now - plankStartTime this)%Z in
      let durationSeconds := (duration / 1000)%Z in
      let progress :=
        ("Great form! Duration: " ++ show durationSeconds
           ++ " seconds")%string in
      let tracked (base : ExerciseValidator.t) (index : nat) : t :=
        {| super := base;
           plankStartTime := plankStartTime this;
           plankDuration := duration;
           isInPlankPosition := isInPlankPosition this;
           lastStableTime := now;
           recentPoses := recentPoses this;
           nextMilestoneIndex := index |} in
      match nth_error milestoneDurations (nextMilestoneIndex this) with
      | Some milestone =>
          if (duration >=? milestone)%Z then
            (tracked
               (ExerciseValidator.set_repCount
                  (ExerciseValidator.repCount (super this) + 1)%Z
                  (super this))
               (S (nextMilestoneIndex this)),
             true,
             [ progress;
               ("Milestone reached: " ++ show (milestone / 1000)%Z
                  ++ " seconds!")%string ])
          else
            (tracked (super this) (nextMilestoneIndex this),
             false, [progress])
      | None =>
          (tracked (super this) (nextMilestoneIndex this), false, [progress])
      end
  else
    let now := clk 0%nat in
    if isInPlankPosition this && (now - lastStableTime this >? 1000)%Z
    then (handleInvalidPose (clk 1%nat) this, false,
          ["Plank position lost. Reset and try again."])
    else (this, false, []).

(** What [validate] does with a frame that passed the confidence and the
    landmark checks, from the four scores it measured; [this] already
    holds the frame in [recentPoses]. *)
Definition validateForm (clk : Clock) (this : t)
    (bodyAlignmentScore elbowPositionScore hipPositionScore stabilityScore : Q)
    : t * ExerciseValidation :=
  let formScore :=
    ExerciseValidator.calculateFormScore
      (formCriteria bodyAlignmentScore elbowPositionScore
         hipPositionScore stabilityScore) in
  let isValid := formScore >? 0.6 in
  let feedback :=
    (if bodyAlignmentScore <=? 0.7
     then ["Keep your body in a straight line from head to heels"]
     else [])
    ++ (if elbowPositionScore <=? 0.7
        then ["Position your elbows directly under your shoulders"]
        else [])
    ++ (if hipPositionScore <=? 0.7
        then ["Keep your hips level - don't sag or pike"]
        else [])
    ++ (if stabilityScore <=? stabilityThreshold
        then ["Try to hold still with minimal movement"]
        else []) in
  let '(this, completedRep, pushed) := trackPlank clk this isValid in
  let '(base, stable) :=
    ExerciseValidator.addToValidationHistory isValid (super this) in
  (set_super base this,
   {| isValid := stable; feedback := feedback ++ pushed;
      completedRep := completedRep; formScore := formScore |}).

Definition validate (Math : JSMath) (clk : Clock) (this : t)
    (poseResult : PoseResult) : t * ExerciseValidation :=
  let this := addToRecentPoses poseResult this in
  if confidence poseResult <? 0.6 then
    (handleInvalidPose (clk 0%nat) this,
     rejected "Please position yourself clearly in the camera view")
  else
    let get := ExerciseValidator.getLandmark poseResult in
    let leftShoulder := get POSE_LANDMARKS.LEFT_SHOULDER in
    let rightShoulder := get POSE_LANDMARKS.RIGHT_SHOULDER in
    let leftElbow := get POSE_LANDMARKS.LEFT_ELBOW in
    let rightElbow := get POSE_LANDMARKS.RIGHT_ELBOW in
    let leftWrist := get POSE_LANDMARKS.LEFT_WRIST in
    let rightWrist := get POSE_LANDMARKS.RIGHT_WRIST in
    let leftHip := get POSE_LANDMARKS.LEFT_HIP in
    let rightHip := get POSE_LANDMARKS.RIGHT_HIP in
    let leftKnee := get POSE_LANDMARKS.LEFT_KNEE in
    let rightKnee := get POSE_LANDMARKS.RIGHT_KNEE in
    let leftAnkle := get POSE_LANDMARKS.LEFT_ANKLE in
    let rightAnkle := get POSE_LANDMARKS.RIGHT_ANKLE in
    let requiredLandmarks :=
      [ leftShoulder; rightShoulder; leftElbow; rightElbow;
        leftWrist; rightWrist; leftHip; rightHip;
        leftKnee; rightKnee; leftAnkle; rightAnkle ] in
    let notVisible :=
      (handleInvalidPose (clk 0%nat) this,
       rejected "Please ensure your full body is visible") in
    if negb (forallb ExerciseValidator.isLandmarkReliable requiredLandmarks)
    then notVisible
    else
      match leftShoulder, rightShoulder, leftElbow, rightElbow,
            leftWrist, rightWrist, leftHip, rightHip,
            leftAnkle, rightAnkle with
      | Some leftShoulder, Some rightShoulder, Some leftElbow,
        Some rightElbow, Some leftWrist, Some rightWrist,
        Some leftHip, Some rightHip, Some leftAnkle, Some rightAnkle =>
          let bodyAlignmentScore :=
            checkBodyAlignment Math leftShoulder rightShoulder
              leftHip rightHip leftAnkle rightAnkle in
          let elbowPositionScore :=
            checkElbowPosition leftShoulder leftElbow leftWrist
              rightShoulder rightElbow rightWrist in
          let hipPositionScore :=
            checkHipPosition Math leftShoulder rightShoulder
              leftHip rightHip leftAnkle rightAnkle in
          let stabilityScore :=
            FormChecker.calculatePoseStability Math (recentPoses this) in
          validateForm clk this bodyAlignmentScore elbowPositionScore
            hipPositionScore stabilityScore
      | _, _, _, _, _, _, _, _, _, _ =>
          (* not reached: a reliable landmark is a defined one *)
          notVisible
      end.

(** [getPlankDuration]: the stored duration, or, while the plank is held,
    the time since it started on the clock read now. *)
Definition getPlankDuration (clk : Clock) (this : t) : Z :=
  if negb (isInPlankPosition this) then plankDuration this
  else (clk 0%nat - plankStartTime this)%Z.

(** The minutes and seconds of [getFormattedDuration], as MM:SS. *)
Definition formatMinutesSeconds (duration : Z) : string :=
  let totalSeconds := (duration / 1000)%Z in
  let minutes := (totalSeconds / 60)%Z in
  let seconds := Z.rem totalSeconds 60 in
  (padStart 2 "0" (show minutes) ++ ":" ++ padStart 2 "0" (show seconds))%string.

Definition getFormattedDuration (clk : Clock) (this : t) : string :=
  formatMinutesSeconds (getPlankDuration clk this).

(** [getNextMilestoneDuration]: the next milestone in seconds, 0 when the
    table is used up. *)
Definition getNextMilestoneDuration (this : t) : Q :=
  match nth_error milestoneDurations (nextMilestoneIndex this) with
  | None => 0
  | Some milestone => inject_Z milestone / 1000
  end.

End PlankValidator.

(** ** The three validators behind the interface of the base class

    [validate], [reset] and [getRepCount] are what the abstract class
    [ExerciseValidator] declares and the session layer calls. *)

Record Validator : Type := {
  state : Type;
  initial : state;
  validate : JSMath -> Clock -> state -> PoseResult -> state * ExerciseValidation;
  reset : state -> state;
  getRepCount : state -> Z
}.

Definition pushUp : Validator :=
  {| state := PushUpValidator.t;
     initial := PushUpValidator.init;
     validate := PushUpValidator.validate;
     reset := PushUpValidator.reset;
     getRepCount := PushUpValidator.getRepCount |}.

Definition chinUp : Validator :=
  {| state := ChinUpValidator.t;
     initial := ChinUpValidator.init;
     validate := ChinUpValidator.validate;
     reset := ChinUpValidator.reset;
     getRepCount := ChinUpValidator.getRepCount |}.

Definition plank : Validator :=
  {| state := PlankValidator.t;
     initial := PlankValidator.init;
     validate := PlankValidator.validate;
     reset := PlankValidator.reset;
     getRepCount := PlankValidator.getRepCount |}.

Definition validators : list Validator := [pushUp; chinUp; plank].

(** A frame as a call of [validate] meets it: the pose and the readings of
    the clock during the call. *)
Definition Frame : Type := (Clock * PoseResult)%type.

(** [validate] on the frames in turn: the final state and the results. *)
Fixpoint run (V : Validator) (Math : JSMath) (this : state V)
    (frames : list Frame) : state V * list ExerciseValidation :=
  match frames with
  | [] => (this, [])
  | (clk, poseResult) :: frames' =>
      let '(this', result) := validate V Math clk this poseResult in
      let '(final, results) := run V Math this' frames' in
      (final, result :: results)
  end.

(** What the session layer can do to a validator. *)
Inductive Call : Type :=
| Validate (clk : Clock) (poseResult : PoseResult)
| Reset.

Definition perform (V : Validator) (Math : JSMath) (this : state V)
    (call : Call) : state V :=
  match call with
  | Validate clk poseResult => fst (validate V Math clk this poseResult)
  | Reset => reset V this
  end.

Definition session (V : Validator) (Math : JSMath) (this : state V)
    (calls : list Call) : state V :=
  fold_left (perform V Math) calls this.

(** A clock that stands still during one call. *)
Definition at_time (now : Z) : Clock := fun _ => now.

(** ** [calculateAngle] and [checkChinOverBar] over IEEE binary64 numbers

    The same computations on the numbers JavaScript has, for what happens
    at the edge of the domain of [Math.acos] and where a sum or a quotient
    is rounded. *)

Set Warnings "-inexact-float".

Module Binary64.
Import Floats.
Local Open Scope float_scope.

Record Landmark3D : Type := {
  x : float;
  y : float;
  z : float;
  visibility : option float
}.

Definition point (px py : float) : Landmark3D :=
  {| x := px; y := py; z := 0; visibility := Some 0.5 |}.

(** [Math.PI], the double 3.141592653589793. *)
Definition PI : float := 0x1.921fb54442d18p+1.

(** ECMA-262, Math.acos(x): NaN when x is NaN, x > 1 or x < -1. *)
Definition acos_is_NaN (v : float) : bool :=
  is_nan v || (v <? -1) || (1 <? v).

(** The operand of [Math.acos] in [ExerciseValidator.calculateAngle]. *)
Definition acosOperand (a b c : Landmark3D) : float :=
  let ba_x := x a - x b in
  let ba_y := y a - y b in
  let bc_x := x c - x b in
  let bc_y := y c - y b in
  let dotProduct := ba_x * bc_x + ba_y * bc_y in
  let magnitudeBA := sqrt (ba_x * ba_x + ba_y * ba_y) in
  let magnitudeBC := sqrt (bc_x * bc_x + bc_y * bc_y) in
  dotProduct / (magnitudeBA * magnitudeBC).

Definition calculateAngle (acos : float -> float) (a b c : Landmark3D)
    : float :=
  let angleRad := acos (acosOperand a b c) in
  angleRad * (180 / PI).

(** [Math.min] and [Math.max] of two doubles that are not both zero. *)
Definition Math_min (a b : float) : float :=
  if is_nan a || is_nan b then nan else if b <? a then b else a.

Definition Math_max (a b : float) : float :=
  if is_nan a || is_nan b then nan else if a <? b then b else a.

(** The operand of [Math.acos] in [FormChecker.calculateBodyAngle] and in
    [PlankValidator.checkHipPosition], which clamp the same quotient. *)
Definition clampedOperand (a b c : Landmark3D) : float :=
  Math_max (-1) (Math_min 1 (acosOperand a b c)).

(** [ChinUpValidator.checkChinOverBar] on doubles, the threshold being the
    double 0.05 is read as. *)
Definition chinOverBarThreshold : float := 0.05.

Definition checkChinOverBar (nose leftWrist rightWrist : Landmark3D)
    : float :=
  let wristCenter_y := (y leftWrist + y rightWrist) / 2 in
  let noseAboveWrists := y nose <? wristCenter_y in
  if negb noseAboveWrists then 0
  else
    let distanceAboveBar := wristCenter_y - y nose in
    let chinOverBarScore :=
      Math_min 1 (distanceAboveBar / chinOverBarThreshold) in
    chinOverBarScore.

End Binary64.

(** ** Example frames

    A plank seen from the side, level with the floor: shoulders, hips and
    ankles on the line y = 0.5, elbows and wrists under the shoulders.  All
    coordinates are binary fractions. *)

Definition landmark (px py : Q) : Landmark3D :=
  {| x := px; y := py; z := 0; visibility := Some 0.9 |}.

Definition plankLandmarks : list Landmark3D :=
  repeat (landmark 0.5 0.5) 11
  ++ [ landmark 0.25 0.5; landmark 0.25 0.5;     (* shoulders, 11 and 12 *)
       landmark 0.25 0.5; landmark 0.25 0.5;     (* elbows, 13 and 14 *)
       landmark 0.25 0.5; landmark 0.25 0.5 ]    (* wrists, 15 and 16 *)
  ++ repeat (landmark 0.5 0.5) 6
  ++ [ landmark 0.5 0.5; landmark 0.5 0.5;       (* hips, 23 and 24 *)
       landmark 0.625 0.5; landmark 0.625 0.5;   (* knees, 25 and 26 *)
       landmark 0.75 0.5; landmark 0.75 0.5 ]    (* ankles, 27 and 28 *)
  ++ repeat (landmark 0.5 0.5) 4.

Definition plankPose (confidence : Q) : PoseResult :=
  {| landmarks := plankLandmarks; worldLandmarks := [];
     confidence := confidence; timestamp := 0 |}.

Definition goodPlank : PoseResult := plankPose 0.9.
Definition blurredPlank : PoseResult := plankPose 0.3.

(** [Math] at the operands [goodPlank] sends it: sqrt 0 = 0,
    sqrt 0.0625 = 0.25 and acos (-1) = PI, with PI cut to sixteen digits.
    No other operand is reached from these frames. *)
Definition exampleMath : JSMath :=
  {| sqrt := fun q => if Qeq_bool q 0.0625 then 0.25 else 0;
     acos := fun q => if Qeq_bool q (-1) then 3.141592653589793 else 0;
     PI := 3.141592653589793 |}.

(** The feedback of a frame with too little confidence. *)
Definition unclear : string :=
  "Please position yourself clearly in the camera view".

(** The indices of the milestones the frames of a run reach, in order. *)
Fixpoint milestonesReached (Math : JSMath) (this : PlankValidator.t)
    (frames : list Frame) : list nat :=
  match frames with
  | [] => []
  | (clk, poseResult) :: frames' =>
      let '(this', result) := PlankValidator.validate Math clk this poseResult in
      (if completedRep result
       then [PlankValidator.nextMilestoneIndex this]
       else [])
      ++ milestonesReached Math this' frames'
  end.

(** ** Frames that look the same to a validator

    Two poses with the same landmarks and the same confidence, whatever
    their timestamps and world landmarks; two frames with such poses and
    the same two first readings of the clock. *)

Definition samePose (p p' : PoseResult) : Prop :=
  landmarks p = landmarks p' /\ confidence p = confidence p'.

Definition sameFrame (frame frame' : Frame) : Prop :=
  fst frame 0%nat = fst frame' 0%nat
  /\ fst frame 1%nat = fst frame' 1%nat
  /\ samePose (snd frame) (snd frame').

(** Two plank validators that differ at most in the poses they keep in
    [recentPoses], and there only between poses that look the same. *)
Definition plankAlike (this this' : PlankValidator.t) : Prop :=
  this' = PlankValidator.set_recentPoses (PlankValidator.recentPoses this') this
  /\ Forall2 samePose
       (PlankValidator.recentPoses this) (PlankValidator.recentPoses this').

(** What [PlankValidator.validate] measures on a frame: the feedback that
    turns the frame away, or the four scores, the last of which is the
    stability of the recent poses. *)
Definition plankScores (Math : JSMath) (poseResult : PoseResult)
    (stabilityScore : Q) : string + Q * Q * Q * Q :=
  if confidence poseResult <? 0.6 then inl unclear
  else
    let get := ExerciseValidator.getLandmark poseResult in
    let leftShoulder := get POSE_LANDMARKS.LEFT_SHOULDER in
    let rightShoulder := get POSE_LANDMARKS.RIGHT_SHOULDER in
    let leftElbow := get POSE_LANDMARKS.LEFT_ELBOW in
    let rightElbow := get POSE_LANDMARKS.RIGHT_ELBOW in
    let leftWrist := get POSE_LANDMARKS.LEFT_WRIST in
    let rightWrist := get POSE_LANDMARKS.RIGHT_WRIST in
    let leftHip := get POSE_LANDMARKS.LEFT_HIP in
    let rightHip := get POSE_LANDMARKS.RIGHT_HIP in
    let leftKnee := get POSE_LANDMARKS.LEFT_KNEE in
    let rightKnee := get POSE_LANDMARKS.RIGHT_KNEE in
    let leftAnkle := get POSE_LANDMARKS.LEFT_ANKLE in
    let rightAnkle := get POSE_LANDMARKS.RIGHT_ANKLE in
    let requiredLandmarks :=
      [ leftShoulder; rightShoulder; leftElbow; rightElbow;
        leftWrist; rightWrist; leftHip; rightHip;
        leftKnee; rightKnee; leftAnkle; rightAnkle ] in
    let notVisible := inl "Please ensure your full body is visible" in
    if negb (forallb ExerciseValidator.isLandmarkReliable requiredLandmarks)
    then notVisible
    else
      match leftShoulder, rightShoulder, leftElbow, rightElbow,
            leftWrist, rightWrist, leftHip, rightHip,
            leftAnkle, rightAnkle with
      | Some leftShoulder, Some rightShoulder, Some leftElbow,
        Some rightElbow, Some leftWrist, Some rightWrist,
        Some leftHip, Some rightHip, Some leftAnkle, Some rightAnkle =>
          inr (PlankValidator.checkBodyAlignment Math leftShoulder
                 rightShoulder leftHip rightHip leftAnkle rightAnkle,
               PlankValidator.checkElbowPosition leftShoulder leftElbow
                 leftWrist rightShoulder rightElbow rightWrist,
               PlankValidator.checkHipPosition Math leftShoulder
                 rightShoulder leftHip rightHip leftAnkle rightAnkle,
               stabilityScore)
      | _, _, _, _, _, _, _, _, _, _ => notVisible
      end.

(** ** Observers for the properties of a run *)

(** A result whose form score is above 0.6: the frame was judged valid
    before the smoothing. *)
Definition validForm (result : ExerciseValidation) : bool :=
  formScore result >? 0.6.

Definition validForms (results : list ExerciseValidation) : nat :=
  List.length (filter validForm results).

(** The entries [true] of a validation history. *)
Definition votes (history : list bool) : nat :=
  List.length (filter (fun v => v) history).

(** The results of a run that report a repetition. *)
Definition completedReps (results : list ExerciseValidation) : nat :=
  List.length (filter completedRep results).

(** A frame of a push-up seen from the side, every landmark visible:
    shoulders, elbows and hips at one height, the upper arm a quarter of
    the image long, and the wrists at [wrist_x] on the line through
    shoulder and elbow. *)
Definition pushUpPose (wrist_x : Q) : PoseResult :=
  {| landmarks :=
       repeat (landmark 0.5 0.5) 11
       ++ [ landmark 0.25 0.5; landmark 0.25 0.5;     (* shoulders *)
            landmark 0.5 0.5; landmark 0.5 0.5;       (* elbows *)
            landmark wrist_x 0.5; landmark wrist_x 0.5 ]
       ++ repeat (landmark 0.5 0.5) 6
       ++ [ landmark 0.75 0.5; landmark 0.75 0.5 ]    (* hips, 23 and 24 *)
       ++ repeat (landmark 0.5 0.5) 8;
     worldLandmarks := []; confidence := 0.9; timestamp := 0 |}.

(** The arm folded onto itself, and stretched: angles of 0 and of 180
    degrees under [exampleMath], which is asked for sqrt 0.0625, acos 1 and
    acos (-1). *)
Definition pushUpDown : PoseResult := pushUpPose 0.25.
Definition pushUpUp : PoseResult := pushUpPose 0.75.

(** ** utils/helpers.ts *)

Module helpers.

(** [padNumber(num, places)], for the integers its callers pass. *)
Definition padNumber (num : Z) (places : nat) : string :=
  padStart places "0" (show num).

(** [formatDuration(milliseconds)], on whole milliseconds. *)
Definition formatDuration (milliseconds : Z) : string :=
  let totalSeconds := (milliseconds / 1000)%Z in
  let minutes := (totalSeconds / 60)%Z in
  let seconds := Z.rem totalSeconds 60 in
  (padNumber minutes 2 ++ ":" ++ padNumber seconds 2)%string.

End helpers.

(** The decimal digit [d], and a number below 100 on two digits. *)
Definition digit (d : Z) : Ascii.ascii :=
  Ascii.ascii_of_nat (48 + Z.to_nat d).

Definition twoDigits (n : Z) : string :=
  String (digit (n / 10)) (String (digit (n mod 10)) EmptyString).

(** ** types/index.ts: the game *)

(** ['pushup' | 'chinup' | 'plank'] and ['dogs' | 'cats' | 'penguins']. *)
Inductive ExerciseType : Type := Pushup | Chinup | Plank.

Inductive AnimalType : Type := Dogs | Cats | Penguins.

Definition ExerciseType_eqb (a b : ExerciseType) : bool :=
  match a, b with
  | Pushup, Pushup | Chinup, Chinup | Plank, Plank => true
  | _, _ => false
  end.

(** ** utils/constants.ts *)

Module constants.

Record ExerciseConfig : Type := {
  name : string;
  animalTheme : AnimalType;
  milestones : list Z;
  formCheckpoints : list string
}.

Definition EXERCISE_CONFIG (exerciseType : ExerciseType) : ExerciseConfig :=
  match exerciseType with
  | Pushup =>
      {| name := "Push-ups"; animalTheme := Dogs;
         milestones := [5; 10; 20; 50; 100]%Z;
         formCheckpoints := ["arms"; "back"; "hips"] |}
  | Chinup =>
      {| name := "Chin-ups"; animalTheme := Cats;
         milestones := [3; 5; 10; 20; 50]%Z;
         formCheckpoints := ["arms"; "shoulders"; "chin"] |}
  | Plank =>
      {| name := "Planks"; animalTheme := Penguins;
         milestones := [30; 60; 120; 180; 300]%Z;
         formCheckpoints := ["back"; "hips"; "shoulders"] |}
  end.

(** [milestones.includes(count)]. *)
Definition includes (count : Z) (milestones : list Z) : bool :=
  existsb (Z.eqb count) milestones.

End constants.

(** ** services/GameManager.ts

    The object is its field [gameState]; the state-change callbacks get a
    copy of it and the repository registers none.  What the storage holds
    under [STORAGE_KEYS.USER_PROGRESS] is passed along: [written] tells
    whether [localStorage.setItem] went through ([safeLocalStorageSave]
    catches its failure and leaves the entry as it was). *)

Module GameManager.

Record GameState : Type := {
  currentExercise : option ExerciseType;
  repCount : Z;
  animalsRescued : Z;
  sessionStartTime : Z;
  isActive : bool
}.

Definition t : Type := GameState.

Definition set_repCount (n : Z) (this : t) : t :=
  {| currentExercise := currentExercise this; repCount := n;
     animalsRescued := animalsRescued this;
     sessionStartTime := sessionStartTime this; isActive := isActive this |}.

Definition set_animalsRescued (n : Z) (this : t) : t :=
  {| currentExercise := currentExercise this; repCount := repCount this;
     animalsRescued := n;
     sessionStartTime := sessionStartTime this; isActive := isActive this |}.

Definition set_isActive (b : bool) (this : t) : t :=
  {| currentExercise := currentExercise this; repCount := repCount this;
     animalsRescued := animalsRescued this;
     sessionStartTime := sessionStartTime this; isActive := b |}.

(** [loadState]: of a saved state, the animals rescued only. *)
Definition loadState (savedState : option GameState) (this : t) : t :=
  match savedState with
  | Some saved => set_animalsRescued (animalsRescued saved) this
  | None => this
  end.

(** The constructor, from what the storage holds. *)
Definition new (savedState : option GameState) : t :=
  loadState savedState
    {| currentExercise := None; repCount := 0; animalsRescued := 0;
       sessionStartTime := 0; isActive := false |}.

Definition saveState (written : bool) (this : t)
    (stored : option GameState) : option GameState :=
  if written then Some this else stored.

(** [startExercise]; [now] is the reading of [Date.now()]. *)
Definition startExercise (now : Z) (exerciseType : ExerciseType) (this : t)
    : t :=
  {| currentExercise := Some exerciseType; repCount := 0;
     animalsRescued := animalsRescued this;
     sessionStartTime := now; isActive := true |}.

Definition endExercise (written : bool) (this : t)
    (stored : option GameState) : t * option GameState :=
  if negb (isActive this) then (this, stored)
  else
    let this := set_isActive false this in
    (this, saveState written this stored).

Definition checkMilestone (exerciseType : ExerciseType) (this : t) : bool :=
  constants.includes (repCount this)
    (constants.milestones (constants.EXERCISE_CONFIG exerciseType)).

(** [recordRepetition]; [now] is read when the call starts the exercise. *)
Definition recordRepetition (now : Z) (exerciseType : ExerciseType)
    (this : t) : t * bool :=
  let this :=
    if negb (isActive this)
       || negb (match currentExercise this with
                | Some current => ExerciseType_eqb current exerciseType
                | None => false
                end)
    then startExercise now exerciseType this
    else this in
  let this := set_repCount (repCount this + 1)%Z this in
  let milestoneReached := checkMilestone exerciseType this in
  let this :=
    if milestoneReached
    then set_animalsRescued (animalsRescued this + 1)%Z this
    else this in
  (this, milestoneReached).

Definition getAnimalType (this : t) : option AnimalType :=
  match currentExercise this with
  | None => None
  | Some exerciseType =>
      Some (constants.animalTheme (constants.EXERCISE_CONFIG exerciseType))
  end.

Definition getState (this : t) : GameState := this.

Definition resetProgress (now : Z) (written : bool) (this : t)
    (stored : option GameState) : t * option GameState :=
  let this :=
    {| currentExercise := None; repCount := 0; animalsRescued := 0;
       sessionStartTime := now; isActive := false |} in
  (this, saveState written this stored).

End GameManager.

(** ** services/AnimalRescueManager.ts

    The object is its field [rescueData]; what the storage holds under
    ['animal-rescue-data'] is passed along as for the game manager, and
    the arguments the rescue callbacks are called with are returned. *)

Module AnimalRescueManager.

Record LastMilestone : Type := {
  pushup : Z;
  chinup : Z;
  plank : Z
}.

Record AnimalRescueData : Type := {
  dogs : Z;
  cats : Z;
  penguins : Z;
  totalRescued : Z;
  lastMilestone : LastMilestone
}.

Definition t : Type := AnimalRescueData.

(** [rescueData.lastMilestone[exerciseType]], read and written. *)
Definition lastMilestoneOf (exerciseType : ExerciseType)
    (last : LastMilestone) : Z :=
  match exerciseType with
  | Pushup => pushup last
  | Chinup => chinup last
  | Plank => plank last
  end.

Definition set_lastMilestoneOf (exerciseType : ExerciseType) (n : Z)
    (last : LastMilestone) : LastMilestone :=
  match exerciseType with
  | Pushup => {| pushup := n; chinup := chinup last; plank := plank last |}
  | Chinup => {| pushup := pushup last; chinup := n; plank := plank last |}
  | Plank => {| pushup := pushup last; chinup := chinup last; plank := n |}
  end.

(** [rescueData[animalType]], read and written. *)
Definition count (animalType : AnimalType) (this : t) : Z :=
  match animalType with
  | Dogs => dogs this
  | Cats => cats this
  | Penguins => penguins this
  end.

Definition set_count (animalType : AnimalType) (n : Z) (this : t) : t :=
  {| dogs := match animalType with Dogs => n | _ => dogs this end;
     cats := match animalType with Cats => n | _ => cats this end;
     penguins := match animalType with Penguins => n | _ => penguins this end;
     totalRescued := totalRescued this;
     lastMilestone := lastMilestone this |}.

Definition default : t :=
  {| dogs := 0; cats := 0; penguins := 0; totalRescued := 0;
     lastMilestone := {| pushup := 0; chinup := 0; plank := 0 |} |}.

(** The constructor: the default data, or a copy of the saved data. *)
Definition new (savedData : option AnimalRescueData) : t :=
  match savedData with
  | Some saved => saved
  | None => default
  end.

Definition saveRescueData (written : bool) (this : t)
    (stored : option AnimalRescueData) : option AnimalRescueData :=
  if written then Some this else stored.

Definition getAnimalTypeForExercise (exerciseType : ExerciseType)
    : option AnimalType :=
  Some (constants.animalTheme (constants.EXERCISE_CONFIG exerciseType)).

Definition checkMilestone (exerciseType : ExerciseType) (repCount : Z)
    (this : t) : bool :=
  constants.includes repCount
    (constants.milestones (constants.EXERCISE_CONFIG exerciseType))
  && (repCount >? lastMilestoneOf exerciseType (lastMilestone this))%Z.

(** [recordRepetition]: the object, the storage, the result, and what
    [notifyRescue] passes to every callback. *)
Definition recordRepetition (written : bool) (exerciseType : ExerciseType)
    (repCount : Z) (this : t) (stored : option AnimalRescueData)
    : t * option AnimalRescueData * bool * option (AnimalType * Z * bool) :=
  match getAnimalTypeForExercise exerciseType with
  | None => (this, stored, false, None)
  | Some animalType =>
      let milestone := checkMilestone exerciseType repCount this in
      if milestone then
        let this := set_count animalType (count animalType this + 1)%Z this in
        let this :=
          {| dogs := dogs this; cats := cats this; penguins := penguins this;
             totalRescued := (totalRescued this + 1)%Z;
             lastMilestone :=
               set_lastMilestoneOf exerciseType repCount
                 (lastMilestone this) |} in
        (this, saveRescueData written this stored, true,
         Some (animalType, count animalType this, true))
      else (this, stored, false, None)
  end.

Definition getRescueCount (animalType : AnimalType) (this : t) : Z :=
  count animalType this.

Definition getTotalRescueCount (this : t) : Z := totalRescued this.

Definition getRescueData (this : t) : AnimalRescueData := this.

Definition resetRescueData (written : bool) (this : t)
    (stored : option AnimalRescueData) : t * option AnimalRescueData :=
  (default, saveRescueData written default stored).

End AnimalRescueManager.

(** ** services/AppService.ts: from a pose to the game

    The three validators the module creates, which it never resets, and the
    game manager, with the entry of the storage it saves to.  Of
    [handlePoseResult] and the functions it dispatches to, what reaches the
    validators and the game manager; the rest draws on the page. *)

Module AppService.

Record t : Type := {
  pushUpValidator : PushUpValidator.t;
  chinUpValidator : ChinUpValidator.t;
  plankValidator : PlankValidator.t;
  gameManager : GameManager.t;
  userProgress : option GameManager.GameState
}.

Definition init (stored : option GameManager.GameState) : t :=
  {| pushUpValidator := PushUpValidator.init;
     chinUpValidator := ChinUpValidator.init;
     plankValidator := PlankValidator.init;
     gameManager := GameManager.new stored;
     userProgress := stored |}.

Definition set_gameManager (gameManager' : GameManager.t) (app : t) : t :=
  {| pushUpValidator := pushUpValidator app;
     chinUpValidator := chinUpValidator app;
     plankValidator := plankValidator app;
     gameManager := gameManager';
     userProgress := userProgress app |}.

(** "Record completed repetition in game manager". *)
Definition record (now : Z) (exerciseType : ExerciseType)
    (validation : ExerciseValidation) (app : t) : t :=
  if completedRep validation
  then set_gameManager
         (fst (GameManager.recordRepetition now exerciseType
                 (gameManager app))) app
  else app.

(** [clk] is read by the validator, [now] by the game manager when the
    repetition starts the exercise. *)
Definition validatePushUp (Math : JSMath) (clk : Clock) (now : Z)
    (result : PoseResult) (app : t) : t :=
  let '(validator, validation) :=
    PushUpValidator.validate Math clk (pushUpValidator app) result in
  record now Pushup validation
    {| pushUpValidator := validator;
       chinUpValidator := chinUpValidator app;
       plankValidator := plankValidator app;
       gameManager := gameManager app;
       userProgress := userProgress app |}.

Definition validateChinUp (Math : JSMath) (clk : Clock) (now : Z)
    (result : PoseResult) (app : t) : t :=
  let '(validator, validation) :=
    ChinUpValidator.validate Math clk (chinUpValidator app) result in
  record now Chinup validation
    {| pushUpValidator := pushUpValidator app;
       chinUpValidator := validator;
       plankValidator := plankValidator app;
       gameManager := gameManager app;
       userProgress := userProgress app |}.

Definition validatePlank (Math : JSMath) (clk : Clock) (now : Z)
    (result : PoseResult) (app : t) : t :=
  let '(validator, validation) :=
    PlankValidator.validate Math clk (plankValidator app) result in
  record now Plank validation
    {| pushUpValidator := pushUpValidator app;
       chinUpValidator := chinUpValidator app;
       plankValidator := validator;
       gameManager := gameManager app;
       userProgress := userProgress app |}.

(** [handlePoseResult]; [selectedExercise] is what the exercise selector
    returns, [None] also standing for a selector not yet created. *)
Definition handlePoseResult (Math : JSMath) (clk : Clock) (now : Z)
    (selectedExercise : option ExerciseType) (result : PoseResult) (app : t)
    : t :=
  match selectedExercise with
  | None => app
  | Some Pushup => validatePushUp Math clk now result app
  | Some Chinup => validateChinUp Math clk now result app
  | Some Plank => validatePlank Math clk now result app
  end.

(** The Escape key, with the exercise selector created. *)
Definition escapeKey (written : bool) (app : t) : t :=
  let '(gameManager', stored) :=
    GameManager.endExercise written (gameManager app) (userProgress app) in
  {| pushUpValidator := pushUpValidator app;
     chinUpValidator := chinUpValidator app;
     plankValidator := plankValidator app;
     gameManager := gameManager';
     userProgress := stored |}.

(** The 30 seconds timer [GameManager.initialize] sets. *)
Definition autoSave (written : bool) (app : t) : t :=
  {| pushUpValidator := pushUpValidator app;
     chinUpValidator := chinUpValidator app;
     plankValidator := plankValidator app;
     gameManager := gameManager app;
     userProgress :=
       GameManager.saveState written (gameManager app) (userProgress app) |}.

(** What happens to the application while it runs. *)
Inductive Event : Type :=
| PoseDetected (clk : Clock) (now : Z)
    (selectedExercise : option ExerciseType) (result : PoseResult)
| EscapeKey (written : bool)
| SaveTimer (written : bool).

Definition handle (Math : JSMath) (app : t) (event : Event) : t :=
  match event with
  | PoseDetected clk now selectedExercise result =>
      handlePoseResult Math clk now selectedExercise result app
  | EscapeKey written => escapeKey written app
  | SaveTimer written => autoSave written app
  end.

Definition run (Math : JSMath) (app : t) (events : list Event) : t :=
  fold_left (handle Math) events app.

End AppService.

(** ** Observers of the game *)

(** Repetitions of one exercise recorded in a row, [nows] being the
    readings of the clock the calls would take. *)
Definition recordRepetitions (exerciseType : ExerciseType) (nows : list Z)
    (this : GameManager.t) : GameManager.t :=
  fold_left
    (fun this now =>
       fst (GameManager.recordRepetition now exerciseType this))
    nows this.

(** The milestones of an exercise above [low] and up to [high]. *)
Definition milestonesBetween (exerciseType : ExerciseType) (low high : Z)
    : nat :=
  List.length
    (filter (fun milestone => (low <? milestone)%Z && (milestone <=? high)%Z)
       (constants.milestones (constants.EXERCISE_CONFIG exerciseType))).

(** The count of the validator of an exercise. *)
Definition validatorCount (exerciseType : ExerciseType) (app : AppService.t)
    : Z :=
  match exerciseType with
  | Pushup => PushUpValidator.getRepCount (AppService.pushUpValidator app)
  | Chinup => ChinUpValidator.getRepCount (AppService.chinUpValidator app)
  | Plank => PlankValidator.getRepCount (AppService.plankValidator app)
  end.

(** The calls of the animal rescue manager, and a run of them on the
    object and the storage. *)
Inductive RescueCall : Type :=
| RecordRepetition (written : bool) (exerciseType : ExerciseType)
    (repCount : Z)
| ResetRescueData (written : bool).

Definition rescueStep
    (state : AnimalRescueManager.t
             * option AnimalRescueManager.AnimalRescueData)
    (call : RescueCall)
    : AnimalRescueManager.t * option AnimalRescueManager.AnimalRescueData :=
  match call with
  | RecordRepetition written exerciseType repCount =>
      fst (fst (AnimalRescueManager.recordRepetition written exerciseType
                  repCount (fst state) (snd state)))
  | ResetRescueData written =>
      AnimalRescueManager.resetRescueData written (fst state) (snd state)
  end.

Definition rescueSession
    (stored : option AnimalRescueManager.AnimalRescueData)
    (calls : list RescueCall)
    : AnimalRescueManager.t * option AnimalRescueManager.AnimalRescueData :=
  fold_left rescueStep calls (AnimalRescueManager.new stored, stored).

Definition isRecord (call : RescueCall) : bool :=
  match call with
  | RecordRepetition _ _ _ => true
  | ResetRescueData _ => false
  end.

Definition isWritten (call : RescueCall) : bool :=
  match call with
  | RecordRepetition written _ _ => written
  | ResetRescueData written => written
  end.

(** What holds of the application whatever happened to it: the count of a
    validator is never negative, the plank's is the index of its next
    milestone, and the count of the game manager, while an exercise is in
    progress, lies between 0 and the count of the validator of that
    exercise. *)
Definition appInvariant (app : AppService.t) : Prop :=
  (forall exerciseType, (0 <= validatorCount exerciseType app)%Z)
  /\ (PlankValidator.getRepCount (AppService.plankValidator app)
      = Z.of_nat (PlankValidator.nextMilestoneIndex
                    (AppService.plankValidator app))
      /\ (PlankValidator.nextMilestoneIndex (AppService.plankValidator app)
          <= List.length PlankValidator.milestoneDurations)%nat)
  /\ (GameManager.isActive (AppService.gameManager app) = true ->
      forall exerciseType,
        GameManager.currentExercise (AppService.gameManager app)
        = Some exerciseType ->
        (0 <= GameManager.repCount (AppService.gameManager app)
           <= validatorCount exerciseType app)%Z).

(** The milestones of an exercise up to a count. *)
Definition milestonesUpTo (exerciseType : ExerciseType) (count : Z) : nat :=
  List.length
    (filter (fun milestone => (milestone <=? count)%Z)
       (constants.milestones (constants.EXERCISE_CONFIG exerciseType))).

(** What holds of the rescue data whatever was recorded: the total is the
    sum of the three counts, and the animals of an exercise are no more
    than its milestones up to the last one rewarded. *)
Definition rescueInvariant (this : AnimalRescueManager.t) : Prop :=
  AnimalRescueManager.totalRescued this
  = (AnimalRescueManager.dogs this + AnimalRescueManager.cats this
     + AnimalRescueManager.penguins this)%Z
  /\ forall exerciseType,
       (0 <= AnimalRescueManager.count
               (constants.animalTheme
                  (constants.EXERCISE_CONFIG exerciseType)) this
          <= Z.of_nat
               (milestonesUpTo exerciseType
                  (AnimalRescueManager.lastMilestoneOf exerciseType
                     (AnimalRescueManager.lastMilestone this))))%Z.

(** ** services/WorkoutSessionManager.ts

    [endSession] is an [async] method: it runs up to its [await] when it is
    called, and its last three assignments run when the promise of
    [recordWorkoutSession] has settled, fulfilled or rejected.  [suspended]
    counts the calls of [endSession] that wait there.  Dates are their
    [getTime()], in milliseconds; an animal theme is the string it is at
    run time. *)

(** The workout session of models/UserProgress.ts. *)
Module UserProgress.

Definition AnimalTheme : Type := string.

Record WorkoutSession : Type := {
  sessionId : string;
  exerciseType : ExerciseType;
  startTime : Z;
  endTime : option Z;
  totalReps : Z;
  duration : Z;
  averageFormScore : Q;
  animalsRescued : list (AnimalTheme * Z)
}.

End UserProgress.

Module WorkoutSessionManager.

Import UserProgress.

Record t : Type := {
  currentSession : option WorkoutSession;
  formScores : list Q;
  animalsRescued : list (AnimalTheme * Z);
  suspended : nat
}.

(** The constructor. *)
Definition new : t :=
  {| currentSession := None; formScores := []; animalsRescued := [];
     suspended := 0 |}.

(** [endSession], up to its [await]; [now] is the date it takes. *)
Definition endSession (now : Z) (this : t) : t :=
  match currentSession this with
  | None => this
  | Some session =>
      let duration := (now - startTime session)%Z in
      let average :=
        if (0 <? List.length (formScores this))%nat then
          let totalScore := fold_left Qplus (formScores this) 0 in
          totalScore / inject_Z (Z.of_nat (List.length (formScores this)))
        else averageFormScore session in
      {| currentSession :=
           Some {| sessionId := sessionId session;
                   exerciseType := exerciseType session;
                   startTime := startTime session;
                   endTime := Some now;
                   totalReps := totalReps session;
                   duration := duration;
                   averageFormScore := average;
                   UserProgress.animalsRescued := animalsRescued this |};
         formScores := formScores this;
         animalsRescued := animalsRescued this;
         suspended := S (suspended this) |}
  end.

(** [endSession], from its [await] on: "Clear current session". *)
Definition resume (this : t) : t :=
  match suspended this with
  | O => this
  | S waiting =>
      {| currentSession := None; formScores := []; animalsRescued := [];
         suspended := waiting |}
  end.

(** [startSession]; [uuid] is what [uuidv4()] returns, [ended] the date
    [endSession] takes when a session is in progress, [started] the date
    of the new session.  The call of [endSession] is not awaited. *)
Definition startSession (uuid : string) (ended started : Z)
    (exerciseType : ExerciseType) (this : t) : t :=
  let this :=
    match currentSession this with
    | Some _ => endSession ended this
    | None => this
    end in
  {| currentSession :=
       Some {| sessionId := uuid; UserProgress.exerciseType := exerciseType;
               startTime := started; endTime := None;
               totalReps := 0; duration := 0; averageFormScore := 0;
               UserProgress.animalsRescued := [] |};
     formScores := [];
     animalsRescued := [];
     suspended := suspended this |}.

Definition recordRepetition (formScore : Q) (this : t) : t :=
  match currentSession this with
  | None => this
  | Some session =>
      {| currentSession :=
           Some {| sessionId := sessionId session;
                   exerciseType := exerciseType session;
                   startTime := startTime session;
                   endTime := endTime session;
                   totalReps := (totalReps session + 1)%Z;
                   duration := duration session;
                   averageFormScore := averageFormScore session;
                   UserProgress.animalsRescued :=
                     UserProgress.animalsRescued session |};
         formScores := formScores this ++ [formScore];
         animalsRescued := animalsRescued this;
         suspended := suspended this |}
  end.

(** The entry of [animalType] found and its count raised, or an entry
    pushed. *)
Fixpoint addRescued (animalType : AnimalTheme) (count : Z)
    (entries : list (AnimalTheme * Z)) : list (AnimalTheme * Z) :=
  match entries with
  | [] => [(animalType, count)]
  | (theme, rescued) :: rest =>
      if String.eqb theme animalType
      then (theme, (rescued + count)%Z) :: rest
      else (theme, rescued) :: addRescued animalType count rest
  end.

Definition recordRescuedAnimals (animalType : AnimalTheme) (count : Z)
    (this : t) : t :=
  match currentSession this with
  | None => this
  | Some _ =>
      {| currentSession := currentSession this;
         formScores := formScores this;
         animalsRescued := addRescued animalType count (animalsRescued this);
         suspended := suspended this |}
  end.

Definition getCurrentSession (this : t) : option WorkoutSession :=
  currentSession this.

Definition isSessionInProgress (this : t) : bool :=
  match currentSession this with
  | Some _ => true
  | None => false
  end.

Definition getCurrentSessionDuration (now : Z) (this : t) : Z :=
  match currentSession this with
  | None => 0
  | Some session => (now - startTime session)%Z
  end.

Definition getFormattedSessionDuration (now : Z) (this : t) : string :=
  let duration := getCurrentSessionDuration now this in
  let totalSeconds := (duration / 1000)%Z in
  let minutes := (totalSeconds / 60)%Z in
  let seconds := Z.rem totalSeconds 60 in
  (padStart 2 "0" (show minutes) ++ ":" ++ padStart 2 "0" (show seconds))%string.

End WorkoutSessionManager.

(** What is recorded during a session. *)
Inductive SessionRecord : Type :=
| Repetition (formScore : Q)
| RescuedAnimals (animalType : UserProgress.AnimalTheme) (count : Z).

Definition recordInSession (this : WorkoutSessionManager.t)
    (record : SessionRecord) : WorkoutSessionManager.t :=
  match record with
  | Repetition formScore =>
      WorkoutSessionManager.recordRepetition formScore this
  | RescuedAnimals animalType count =>
      WorkoutSessionManager.recordRescuedAnimals animalType count this
  end.

(** The form scores recorded, in order, and the animals of one theme. *)
Fixpoint scoresRecorded (records : list SessionRecord) : list Q :=
  match records with
  | [] => []
  | Repetition formScore :: rest => formScore :: scoresRecorded rest
  | RescuedAnimals _ _ :: rest => scoresRecorded rest
  end.

Fixpoint animalsRecorded (animalType : UserProgress.AnimalTheme)
    (records : list SessionRecord) : Z :=
  match records with
  | [] => 0
  | Repetition _ :: rest => animalsRecorded animalType rest
  | RescuedAnimals theme count :: rest =>
      ((if String.eqb theme animalType then count else 0)
       + animalsRecorded animalType rest)%Z
  end.

(** The entries of a theme in a list of rescued animals, added up. *)
Fixpoint rescuedOf (animalType : UserProgress.AnimalTheme)
    (entries : list (UserProgress.AnimalTheme * Z)) : Z :=
  match entries with
  | [] => 0
  | (theme, count) :: rest =>
      ((if String.eqb theme animalType then count else 0)
       + rescuedOf animalType rest)%Z
  end.

(** ** What the push-up and the chin-up validator measure on a frame

    The arm angles and the scores [validate] computes on a frame that
    passes its confidence and landmark checks, [None] for a frame it turns
    away. *)

Definition pushUpMeasures (Math : JSMath) (poseResult : PoseResult)
    : option (Q * Q * Q) :=
  if confidence poseResult <? 0.6 then None
  else
    let get := ExerciseValidator.getLandmark poseResult in
    let leftShoulder := get POSE_LANDMARKS.LEFT_SHOULDER in
    let rightShoulder := get POSE_LANDMARKS.RIGHT_SHOULDER in
    let leftElbow := get POSE_LANDMARKS.LEFT_ELBOW in
    let rightElbow := get POSE_LANDMARKS.RIGHT_ELBOW in
    let leftWrist := get POSE_LANDMARKS.LEFT_WRIST in
    let rightWrist := get POSE_LANDMARKS.RIGHT_WRIST in
    let leftHip := get POSE_LANDMARKS.LEFT_HIP in
    let rightHip := get POSE_LANDMARKS.RIGHT_HIP in
    let requiredLandmarks :=
      [ leftShoulder; rightShoulder; leftElbow; rightElbow;
        leftWrist; rightWrist; leftHip; rightHip ] in
    if negb (forallb ExerciseValidator.isLandmarkReliable requiredLandmarks)
    then None
    else
      match leftShoulder, rightShoulder, leftElbow, rightElbow,
            leftWrist, rightWrist, leftHip, rightHip with
      | Some leftShoulder, Some rightShoulder, Some leftElbow,
        Some rightElbow, Some leftWrist, Some rightWrist,
        Some leftHip, Some rightHip =>
          Some (ExerciseValidator.calculateAngle Math
                  leftShoulder leftElbow leftWrist,
                ExerciseValidator.calculateAngle Math
                  rightShoulder rightElbow rightWrist,
                PushUpValidator.checkBodyAlignment
                  leftShoulder rightShoulder leftHip rightHip)
      | _, _, _, _, _, _, _, _ => None
      end.

Definition chinUpMeasures (Math : JSMath) (poseResult : PoseResult)
    : option (Q * Q * Q * Q) :=
  if confidence poseResult <? 0.6 then None
  else
    let get := ExerciseValidator.getLandmark poseResult in
    let nose := get POSE_LANDMARKS.NOSE in
    let leftShoulder := get POSE_LANDMARKS.LEFT_SHOULDER in
    let rightShoulder := get POSE_LANDMARKS.RIGHT_SHOULDER in
    let leftElbow := get POSE_LANDMARKS.LEFT_ELBOW in
    let rightElbow := get POSE_LANDMARKS.RIGHT_ELBOW in
    let leftWrist := get POSE_LANDMARKS.LEFT_WRIST in
    let rightWrist := get POSE_LANDMARKS.RIGHT_WRIST in
    let leftHip := get POSE_LANDMARKS.LEFT_HIP in
    let rightHip := get POSE_LANDMARKS.RIGHT_HIP in
    let requiredLandmarks :=
      [ nose; leftShoulder; rightShoulder; leftElbow; rightElbow;
        leftWrist; rightWrist; leftHip; rightHip ] in
    if negb (forallb ExerciseValidator.isLandmarkReliable requiredLandmarks)
    then None
    else
      match nose, leftShoulder, rightShoulder, leftElbow, rightElbow,
            leftWrist, rightWrist, leftHip, rightHip with
      | Some nose, Some leftShoulder, Some rightShoulder, Some leftElbow,
        Some rightElbow, Some leftWrist, Some rightWrist,
        Some leftHip, Some rightHip =>
          Some (ExerciseValidator.calculateAngle Math
                  leftShoulder leftElbow leftWrist,
                ExerciseValidator.calculateAngle Math
                  rightShoulder rightElbow rightWrist,
                ChinUpValidator.checkBodyPosition
                  leftShoulder rightShoulder leftHip rightHip,
                ChinUpValidator.checkChinOverBar nose leftWrist rightWrist)
      | _, _, _, _, _, _, _, _, _ => None
      end.

(** A frame of a chin-up seen from the front, every landmark visible, the
    body on the vertical through the middle of the image: the nose at a
    height of 0.375, the shoulders at 0.5, the hips at 0.75, the elbows at
    [elbow_y] and the wrists at [wrist_y], a quarter of the image from the
    elbows.  All coordinates are binary fractions, and the arithmetic of
    the code is exact on them. *)
Definition chinUpPose (elbow_y wrist_y : Q) : PoseResult :=
  {| landmarks :=
       [ landmark 0.5 0.375 ]                         (* nose, 0 *)
       ++ repeat (landmark 0.5 0.5) 10
       ++ [ landmark 0.5 0.5; landmark 0.5 0.5;       (* shoulders *)
            landmark 0.5 elbow_y; landmark 0.5 elbow_y;
            landmark 0.5 wrist_y; landmark 0.5 wrist_y ]
       ++ repeat (landmark 0.5 0.5) 6
       ++ [ landmark 0.5 0.75; landmark 0.5 0.75 ]    (* hips, 23 and 24 *)
       ++ repeat (landmark 0.5 0.5) 8;
     worldLandmarks := []; confidence := 0.9; timestamp := 0 |}.

(** Hanging, the arms stretched above the head, and at the top, the arms
    folded and the wrists at the height of the shoulders, below the nose:
    angles of 180 and of 0 degrees under [exampleMath], which is asked for
    sqrt 0.0625, acos (-1) and acos 1. *)
Definition chinUpHang : PoseResult := chinUpPose 0.25 0.
Definition chinUpTop : PoseResult := chinUpPose 0.75 0.5.

(** * Properties *)

(** ** Comparisons and form scores *)

Lemma Qltb_lt (a b : Q) : (a <? b) = true <-> a < b.
Proof.
  unfold Qltb. rewrite negb_true_iff, <- not_true_iff_false, Qle_bool_iff.
  split; [apply Qnot_le_lt | apply Qlt_not_le].
Qed.

Lemma Qltb_ge (a b : Q) : (a <? b) = false <-> b <= a.
Proof. unfold Qltb. rewrite negb_false_iff. apply Qle_bool_iff. Qed.

Lemma Qltb_reflect (a b : Q) : reflect (a < b) (a <? b).
Proof.
  destruct (a <? b) eqn:E; constructor.
  - now apply Qltb_lt.
  - apply Qltb_ge in E. now apply Qle_not_lt.
Qed.

(** Two of three criteria make a form score above 0.6 ... *)
Lemma calculateFormScore_three (b1 b2 b3 : bool) :
  (ExerciseValidator.calculateFormScore [b1; b2; b3] >? 0.6)
  = (b1 && b2 || b1 && b3 || b2 && b3).
Proof. destruct b1, b2, b3; reflexivity. Qed.

(** ... and three of four do. *)
Lemma calculateFormScore_four (b1 b2 b3 b4 : bool) :
  (ExerciseValidator.calculateFormScore [b1; b2; b3; b4] >? 0.6)
  = (b1 && b2 && b3 || b1 && b2 && b4 || b1 && b3 && b4 || b2 && b3 && b4).
Proof. destruct b1, b2, b3, b4; reflexivity. Qed.

(** The vote of [addToValidationHistory] needs three entries. *)
Lemma vote_threshold :
  Qceiling (inject_Z (Z.of_nat ExerciseValidator.historySize) * 0.6) = 3%Z.
Proof. reflexivity. Qed.

(** The history never holds more than [historySize] entries. *)
Lemma addToValidationHistory_bounded (b : bool) (this : ExerciseValidator.t) :
  (List.length (ExerciseValidator.validationHistory this)
     <= ExerciseValidator.historySize)%nat ->
  (List.length (ExerciseValidator.validationHistory
                  (fst (ExerciseValidator.addToValidationHistory b this)))
     <= ExerciseValidator.historySize)%nat.
Proof.
  intros H. cbn [ExerciseValidator.addToValidationHistory fst
                 ExerciseValidator.set_validationHistory
                 ExerciseValidator.validationHistory].
  destruct (Nat.ltb_spec ExerciseValidator.historySize
              (List.length (ExerciseValidator.validationHistory this ++ [b])))
    as [Hlt | Hge]; [| exact Hge].
  rewrite length_app in Hlt. cbn [List.length] in Hlt.
  destruct (ExerciseValidator.validationHistory this) as [| h hs];
    cbn [app tl List.length] in *.
  - unfold ExerciseValidator.historySize in *. lia.
  - rewrite length_app. cbn [List.length]. lia.
Qed.

(** ** Frames [validate] turns away *)

Lemma pushup_validate_cases Math clk this p :
  PushUpValidator.validate Math clk this p = (this, rejected unclear)
  \/ PushUpValidator.validate Math clk this p
     = (this, rejected "Please ensure your upper body is fully visible")
  \/ exists l r a,
       PushUpValidator.validate Math clk this p
       = PushUpValidator.validateForm clk this l r a.
Proof.
  unfold PushUpValidator.validate.
  destruct (confidence p <? 0.6); [now left |].
  cbv zeta. destruct (negb _); [now right; left |].
  repeat match goal with
         | |- context [match ?o with Some _ => _ | None => _ end] =>
             destruct o
         end; try (now right; left).
  right; right; eauto.
Qed.

Lemma chinup_validate_cases Math clk this p :
  ChinUpValidator.validate Math clk this p = (this, rejected unclear)
  \/ ChinUpValidator.validate Math clk this p
     = (this, rejected "Please ensure your upper body is fully visible")
  \/ exists l r b c,
       ChinUpValidator.validate Math clk this p
       = ChinUpValidator.validateForm clk this l r b c.
Proof.
  unfold ChinUpValidator.validate.
  destruct (confidence p <? 0.6); [now left |].
  cbv zeta. destruct (negb _); [now right; left |].
  repeat match goal with
         | |- context [match ?o with Some _ => _ | None => _ end] =>
             destruct o
         end; try (now right; left).
  right; right; eauto.
Qed.

Lemma plank_validate_cases Math clk this p :
  let held := PlankValidator.addToRecentPoses p this in
  PlankValidator.validate Math clk this p
  = (PlankValidator.handleInvalidPose (clk 0%nat) held, rejected unclear)
  \/ PlankValidator.validate Math clk this p
     = (PlankValidator.handleInvalidPose (clk 0%nat) held,
        rejected "Please ensure your full body is visible")
  \/ exists a e h s,
       PlankValidator.validate Math clk this p
       = PlankValidator.validateForm clk held a e h s.
Proof.
  unfold PlankValidator.validate.
  destruct (confidence p <? 0.6); [now left |].
  cbv zeta. destruct (negb _); [now right; left |].
  repeat match goal with
         | |- context [match ?o with Some _ => _ | None => _ end] =>
             destruct o
         end; try (now right; left).
  right; right; eauto.
Qed.

(** The fields [handleInvalidPose] and [addToRecentPoses] leave alone. *)
Lemma plank_handleInvalidPose_fields now this :
  let this' := PlankValidator.handleInvalidPose now this in
  PlankValidator.super this' = PlankValidator.super this
  /\ PlankValidator.plankStartTime this' = PlankValidator.plankStartTime this
  /\ PlankValidator.plankDuration this' = PlankValidator.plankDuration this
  /\ PlankValidator.lastStableTime this' = PlankValidator.lastStableTime this
  /\ PlankValidator.recentPoses this' = PlankValidator.recentPoses this
  /\ PlankValidator.nextMilestoneIndex this'
     = PlankValidator.nextMilestoneIndex this
  /\ PlankValidator.isInPlankPosition this'
     = PlankValidator.isInPlankPosition this
       && negb (now - PlankValidator.lastStableTime this >? 1000)%Z.
Proof.
  unfold PlankValidator.handleInvalidPose.
  destruct (PlankValidator.isInPlankPosition this) eqn:Hin;
    [destruct (now - PlankValidator.lastStableTime this >? 1000)%Z |];
    cbn; rewrite ?Hin; repeat split; reflexivity.
Qed.

(** C2, as the code has it: a frame with confidence below 0.6 gets the
    sentinel result with the "position yourself clearly" feedback from the
    three validators; the push-up and the chin-up validator keep their
    state as it was; the plank validator keeps the repetition count, the
    validation history, its times and the milestone index, stores the frame
    among its recent poses, and gives up the plank position when the clock
    is more than 1000 ms past [lastStableTime]. *)
Theorem low_confidence_frame Math clk p :
  confidence p < 0.6 ->
  (forall this,
     PushUpValidator.validate Math clk this p = (this, rejected unclear))
  /\ (forall this,
        ChinUpValidator.validate Math clk this p = (this, rejected unclear))
  /\ (forall this,
        let this' := fst (PlankValidator.validate Math clk this p) in
        snd (PlankValidator.validate Math clk this p) = rejected unclear
        /\ PlankValidator.super this' = PlankValidator.super this
        /\ PlankValidator.plankStartTime this'
           = PlankValidator.plankStartTime this
        /\ PlankValidator.plankDuration this'
           = PlankValidator.plankDuration this
        /\ PlankValidator.lastStableTime this'
           = PlankValidator.lastStableTime this
        /\ PlankValidator.nextMilestoneIndex this'
           = PlankValidator.nextMilestoneIndex this
        /\ PlankValidator.recentPoses this'
           = PlankValidator.recentPoses
               (PlankValidator.addToRecentPoses p this)
        /\ PlankValidator.isInPlankPosition this'
           = PlankValidator.isInPlankPosition this
             && negb (clk 0%nat - PlankValidator.lastStableTime this >? 1000)%Z).
Proof.
  intros Hlow. apply Qltb_lt in Hlow.
  unfold PushUpValidator.validate, ChinUpValidator.validate,
    PlankValidator.validate.
  rewrite Hlow. cbn [fst snd]. repeat split; try reflexivity;
    apply (plank_handleInvalidPose_fields (clk 0%nat)
             (PlankValidator.addToRecentPoses p this)).
Qed.

Lemma low_confidence_frame_witness :
  PushUpValidator.validate exampleMath (at_time 10000)
    PushUpValidator.init blurredPlank
  = (PushUpValidator.init, rejected unclear).
Proof.
  apply (low_confidence_frame exampleMath (at_time 10000) blurredPlank).
  reflexivity.
Defined.

(** C2 as stated fails on the plank validator: after one good frame the
    plank is held; a frame with confidence 0.3 a millisecond later clears
    the phase flag [isInPlankPosition]. *)
Lemma low_confidence_frame_clears_plank_position :
  let held :=
    fst (run plank exampleMath PlankValidator.init
           [(at_time 10000, goodPlank)]) in
  let after :=
    fst (PlankValidator.validate exampleMath (at_time 10001) held
           blurredPlank) in
  confidence blurredPlank < 0.6
  /\ PlankValidator.isInPlankPosition held = true
  /\ PlankValidator.isInPlankPosition after = false.
Proof. vm_compute. repeat split. Qed.

(** ** From the frame to its measures *)

(** A frame with enough confidence whose required landmarks are all there
    and reliable goes to [validateForm] with the measures taken on these
    landmarks. *)
Lemma pushup_validate_passing Math clk this p
    leftShoulder rightShoulder leftElbow rightElbow
    leftWrist rightWrist leftHip rightHip :
  0.6 <= confidence p ->
  map (ExerciseValidator.getLandmark p)
    [ POSE_LANDMARKS.LEFT_SHOULDER; POSE_LANDMARKS.RIGHT_SHOULDER;
      POSE_LANDMARKS.LEFT_ELBOW; POSE_LANDMARKS.RIGHT_ELBOW;
      POSE_LANDMARKS.LEFT_WRIST; POSE_LANDMARKS.RIGHT_WRIST;
      POSE_LANDMARKS.LEFT_HIP; POSE_LANDMARKS.RIGHT_HIP ]
  = map Some
      [ leftShoulder; rightShoulder; leftElbow; rightElbow;
        leftWrist; rightWrist; leftHip; rightHip ] ->
  Forall (fun l => ExerciseValidator.isLandmarkReliable (Some l) = true)
    [ leftShoulder; rightShoulder; leftElbow; rightElbow;
      leftWrist; rightWrist; leftHip; rightHip ] ->
  PushUpValidator.validate Math clk this p
  = PushUpValidator.validateForm clk this
      (ExerciseValidator.calculateAngle Math leftShoulder leftElbow leftWrist)
      (ExerciseValidator.calculateAngle Math
         rightShoulder rightElbow rightWrist)
      (PushUpValidator.checkBodyAlignment
         leftShoulder rightShoulder leftHip rightHip).
Proof.
  intros Hconfidence Hlandmarks Hreliable.
  apply Qltb_ge in Hconfidence.
  cbn [map] in Hlandmarks.
  injection Hlandmarks as H1 H2 H3 H4 H5 H6 H7 H8.
  repeat match goal with
         | H : Forall _ (_ :: _) |- _ =>
             apply Forall_cons_iff in H; destruct H as [? H]
         end.
  unfold PushUpValidator.validate.
  rewrite Hconfidence, H1, H2, H3, H4, H5, H6, H7, H8.
  cbv zeta. cbn [forallb].
  repeat match goal with
         | H : ExerciseValidator.isLandmarkReliable _ = true |- _ =>
             rewrite H; clear H
         end.
  reflexivity.
Qed.

Lemma chinup_validate_passing Math clk this p
    nose leftShoulder rightShoulder leftElbow rightElbow
    leftWrist rightWrist leftHip rightHip :
  0.6 <= confidence p ->
  map (ExerciseValidator.getLandmark p)
    [ POSE_LANDMARKS.NOSE;
      POSE_LANDMARKS.LEFT_SHOULDER; POSE_LANDMARKS.RIGHT_SHOULDER;
      POSE_LANDMARKS.LEFT_ELBOW; POSE_LANDMARKS.RIGHT_ELBOW;
      POSE_LANDMARKS.LEFT_WRIST; POSE_LANDMARKS.RIGHT_WRIST;
      POSE_LANDMARKS.LEFT_HIP; POSE_LANDMARKS.RIGHT_HIP ]
  = map Some
      [ nose; leftShoulder; rightShoulder; leftElbow; rightElbow;
        leftWrist; rightWrist; leftHip; rightHip ] ->
  Forall (fun l => ExerciseValidator.isLandmarkReliable (Some l) = true)
    [ nose; leftShoulder; rightShoulder; leftElbow; rightElbow;
      leftWrist; rightWrist; leftHip; rightHip ] ->
  ChinUpValidator.validate Math clk this p
  = ChinUpValidator.validateForm clk this
      (ExerciseValidator.calculateAngle Math leftShoulder leftElbow leftWrist)
      (ExerciseValidator.calculateAngle Math
         rightShoulder rightElbow rightWrist)
      (ChinUpValidator.checkBodyPosition
         leftShoulder rightShoulder leftHip rightHip)
      (ChinUpValidator.checkChinOverBar nose leftWrist rightWrist).
Proof.
  intros Hconfidence Hlandmarks Hreliable.
  apply Qltb_ge in Hconfidence.
  cbn [map] in Hlandmarks.
  injection Hlandmarks as H0 H1 H2 H3 H4 H5 H6 H7 H8.
  repeat match goal with
         | H : Forall _ (_ :: _) |- _ =>
             apply Forall_cons_iff in H; destruct H as [? H]
         end.
  unfold ChinUpValidator.validate.
  rewrite Hconfidence, H0, H1, H2, H3, H4, H5, H6, H7, H8.
  cbv zeta. cbn [forallb].
  repeat match goal with
         | H : ExerciseValidator.isLandmarkReliable _ = true |- _ =>
             rewrite H; clear H
         end.
  reflexivity.
Qed.

(** The good plank of the examples scores 1 for alignment, elbows and
    hips. *)
Lemma goodPlank_scores (stability : Q) :
  exists a e h,
    plankScores exampleMath goodPlank stability = inr (a, e, h, stability)
    /\ a == 1 /\ e == 1 /\ h == 1.
Proof. vm_compute. do 3 eexists. repeat split. Qed.

(** ** The plank's form criteria *)

(** [validateForm] in terms of its block [trackPlank]. *)
Lemma plank_validateForm_unfold clk this a e h s :
  let valid :=
    ExerciseValidator.calculateFormScore
      (PlankValidator.formCriteria a e h s) >? 0.6 in
  let tracked := PlankValidator.trackPlank clk this valid in
  fst (PlankValidator.validateForm clk this a e h s)
  = PlankValidator.set_super
      (fst (ExerciseValidator.addToValidationHistory valid
              (PlankValidator.super (fst (fst tracked)))))
      (fst (fst tracked))
  /\ completedRep (snd (PlankValidator.validateForm clk this a e h s))
     = snd (fst tracked)
  /\ formScore (snd (PlankValidator.validateForm clk this a e h s))
     = ExerciseValidator.calculateFormScore
         (PlankValidator.formCriteria a e h s).
Proof.
  cbv zeta. unfold PlankValidator.validateForm.
  destruct (PlankValidator.trackPlank _ _ _) as [[this' completed] pushed].
  cbn. auto.
Qed.

Lemma plank_validateForm_formScore clk this a e h s :
  formScore (snd (PlankValidator.validateForm clk this a e h s))
  = ExerciseValidator.calculateFormScore (PlankValidator.formCriteria a e h s).
Proof. apply plank_validateForm_unfold. Qed.

(** A plank starts on a valid frame, and on no other. *)
Lemma plank_validateForm_enters clk this a e h s :
  PlankValidator.isInPlankPosition this = false ->
  PlankValidator.isInPlankPosition
    (fst (PlankValidator.validateForm clk this a e h s))
  = (ExerciseValidator.calculateFormScore
       (PlankValidator.formCriteria a e h s) >? 0.6).
Proof.
  intros Hout.
  destruct (plank_validateForm_unfold clk this a e h s) as [-> _].
  unfold PlankValidator.trackPlank. rewrite Hout.
  destruct (_ >? 0.6); cbn; [reflexivity | exact Hout].
Qed.

(** C1, as the code has it: a frame that passed the confidence and the
    landmark checks is judged valid exactly when its form score is above
    0.6, which is when at least three of the four scores (body alignment,
    elbow position, hip position, stability) are above 0.7: the rule of the
    push-up and the chin-up validator, on four criteria.  A valid frame is
    what starts a plank. *)
Theorem plank_valid_iff_three_of_four clk this a e h s :
  let this' := fst (PlankValidator.validateForm clk this a e h s) in
  let result := snd (PlankValidator.validateForm clk this a e h s) in
  (0.6 < formScore result <->
     (0.7 < a /\ 0.7 < e /\ 0.7 < h) \/ (0.7 < a /\ 0.7 < e /\ 0.7 < s)
     \/ (0.7 < a /\ 0.7 < h /\ 0.7 < s) \/ (0.7 < e /\ 0.7 < h /\ 0.7 < s))
  /\ (PlankValidator.isInPlankPosition this = false ->
      (PlankValidator.isInPlankPosition this' = true <-> 0.6 < formScore result)).
Proof.
  cbv zeta.
  rewrite plank_validateForm_formScore.
  assert (Hscore :
            (ExerciseValidator.calculateFormScore
               (PlankValidator.formCriteria a e h s) >? 0.6) = true <->
            (0.7 < a /\ 0.7 < e /\ 0.7 < h) \/ (0.7 < a /\ 0.7 < e /\ 0.7 < s)
            \/ (0.7 < a /\ 0.7 < h /\ 0.7 < s)
            \/ (0.7 < e /\ 0.7 < h /\ 0.7 < s)).
  { unfold PlankValidator.formCriteria, PlankValidator.stabilityThreshold.
    rewrite calculateFormScore_four.
    destruct (Qltb_reflect 0.7 a), (Qltb_reflect 0.7 e),
      (Qltb_reflect 0.7 h), (Qltb_reflect 0.7 s); cbn; intuition congruence. }
  split.
  - now rewrite <- Qltb_lt.
  - intros Hout. rewrite (plank_validateForm_enters _ _ _ _ _ _ Hout).
    now rewrite <- Qltb_lt.
Qed.

Lemma plank_valid_iff_three_of_four_witness :
  PlankValidator.isInPlankPosition
    (fst (PlankValidator.validateForm (at_time 10000) PlankValidator.init
            1 1 1 0)) = true.
Proof.
  apply (plank_valid_iff_three_of_four (at_time 10000) PlankValidator.init
           1 1 1 0); reflexivity.
Defined.

(** C1 as stated fails: with the stability score at 0, which is what the
    first frame of a session gets, and the three other scores at 1 the
    frame is judged valid.  The plank starts, with the feedback of a good
    position next to the one of the failed criterion, and the third such
    frame is returned as valid. *)
Lemma plank_valid_with_a_failed_criterion :
  let first := PlankValidator.validate exampleMath (at_time 10000)
                 PlankValidator.init goodPlank in
  let once := PlankValidator.validateForm (at_time 10000)
                PlankValidator.init 1 1 1 0 in
  let twice := PlankValidator.validateForm (at_time 10100) (fst once) 1 1 1 0 in
  let thrice := PlankValidator.validateForm (at_time 10200) (fst twice) 1 1 1 0 in
  ~ 0.7 < 0
  /\ FormChecker.calculatePoseStability exampleMath [goodPlank] = 0
  /\ snd first = snd once
  /\ PlankValidator.isInPlankPosition (fst first) = true
  /\ formScore (snd first) = 3 # 4
  /\ feedback (snd first)
     = ["Try to hold still with minimal movement";
        "Good plank position! Hold steady..."]
  /\ isValid (snd thrice) = true.
Proof. vm_compute. repeat split. discriminate. Qed.

(** ** The angle at a vertex *)

Module Binary64Facts.
Import Floats Binary64.
Local Open Scope float_scope.

(** C3 on the code: [calculateAngle] hands its quotient to [Math.acos]
  without a clamp.  For three coincident points the quotient is 0/0, a
  NaN; for the three points of a straight arm it is -1.0000000000000002,
  outside the domain; in both cases [Math.acos] answers NaN.  The clamp
  of [FormChecker.calculateBodyAngle] brings the second quotient back
  to -1, and leaves the first one a NaN. *)
Theorem calculateAngle_leaves_acos_domain :
let origin := point 0 0 in
let shoulder := point 0.4 0.3 in
let elbow := point 0.5 0.5 in
let wrist := point 0.6 0.7 in
is_nan (acosOperand origin origin origin) = true
/\ acos_is_NaN (acosOperand origin origin origin) = true
/\ acosOperand shoulder elbow wrist = -1.0000000000000002
/\ acos_is_NaN (acosOperand shoulder elbow wrist) = true
/\ clampedOperand shoulder elbow wrist = -1
/\ acos_is_NaN (clampedOperand origin origin origin) = true.
Proof. vm_compute. repeat split. Qed.

End Binary64Facts.

(** ** Chin over the bar *)

(** C8, in exact arithmetic: [checkChinOverBar] is 0 when the nose is not
    above the mean height of the wrists; above it, it is the clearance over
    0.05 capped at 1, which lies in (0, 1] and is 1 from a clearance of
    0.05 on.  On doubles the mean, the clearance and the quotient are
    rounded, and the two boundaries move with them: see
    [Binary64Rounding]. *)
Theorem checkChinOverBar_graded (nose leftWrist rightWrist : Landmark3D) :
  let bar := (y leftWrist + y rightWrist) / 2 in
  let score := ChinUpValidator.checkChinOverBar nose leftWrist rightWrist in
  (bar <= y nose -> score = 0)
  /\ (y nose < bar ->
      score = Qmin 1 ((bar - y nose) / 0.05)
      /\ 0 < score /\ score <= 1
      /\ (0.05 <= bar - y nose -> score == 1)).
Proof.
  cbv zeta. unfold ChinUpValidator.checkChinOverBar,
    ChinUpValidator.chinOverBarThreshold.
  set (bar := (y leftWrist + y rightWrist) / 2).
  split.
  - intros Hbelow. apply Qltb_ge in Hbelow. now rewrite Hbelow.
  - intros Habove. pose proof Habove as Hb. apply Qltb_lt in Hb.
    rewrite Hb. cbn [negb].
    assert (Hpos : 0 < (bar - y nose) / 0.05).
    { apply Qlt_shift_div_l; [reflexivity | lra]. }
    split; [reflexivity |]. split; [| split].
    + apply Q.min_glb_lt; [reflexivity | exact Hpos].
    + apply Q.le_min_l.
    + intros Hclear. apply Q.min_l.
      apply Qle_shift_div_l; [reflexivity | lra].
Qed.

Lemma checkChinOverBar_graded_witness :
  ChinUpValidator.checkChinOverBar
    (landmark 0.5 0.25) (landmark 0.25 0.5) (landmark 0.75 0.5) == 1.
Proof.
  apply (checkChinOverBar_graded
           (landmark 0.5 0.25) (landmark 0.25 0.5) (landmark 0.75 0.5));
    vm_compute; congruence.
Defined.

Module Binary64Rounding.
Import Floats Binary64.
Local Open Scope float_scope.

(** C8 on the code, where the arithmetic is rounded.  With the left wrist
    at 0.5 + 2^-53 and the right one at 0.5 the mean the code computes is
    0.5, below the exact mean 0.5 + 2^-54.  A nose at 0.5 is above the
    exact mean and scores 0; a nose at the double 0.45 is 0.05 and more
    below the exact mean, by the exact 0.05 and by the double 0.05, and
    scores 0.99999999999999978.  In exact arithmetic, on the very numbers
    these doubles are, the scores are positive and 1. *)
Theorem checkChinOverBar_rounds :
  let leftWrist := point 0 0x1.0000000000001p-1 in
  let rightWrist := point 0 0.5 in
  let leftWrist_y := (4503599627370497 # 9007199254740992)%Q in
  let nose_y := (8106479329266893 # 18014398509481984)%Q in
  let threshold := (7205759403792794 # 144115188075855872)%Q in
  (Prim2SF (y leftWrist) = S754_finite false 4503599627370497 (-53)
   /\ Prim2SF 0.45 = S754_finite false 8106479329266893 (-54)
   /\ Prim2SF chinOverBarThreshold
      = S754_finite false 7205759403792794 (-57))
  /\ (y leftWrist + y rightWrist) / 2 = 0.5
  /\ checkChinOverBar (point 0 0.5) leftWrist rightWrist = 0
  /\ checkChinOverBar (point 0 0.45) leftWrist rightWrist
     = 0.99999999999999978
  /\ (0.5 < (leftWrist_y + 0.5) / 2
      /\ 0 < ChinUpValidator.checkChinOverBar
               (landmark 0 0.5) (landmark 0 leftWrist_y) (landmark 0 0.5))%Q
  /\ (0.05 <= (leftWrist_y + 0.5) / 2 - nose_y
      /\ threshold <= (leftWrist_y + 0.5) / 2 - nose_y
      /\ ChinUpValidator.checkChinOverBar
           (landmark 0 nose_y) (landmark 0 leftWrist_y) (landmark 0 0.5)
         == 1)%Q.
Proof. vm_compute. repeat split; discriminate. Qed.

(** Where nothing is rounded: the coordinates of the frames [pushUpDown],
    [pushUpUp], [chinUpHang] and [chinUpTop] are binary fractions, and on
    doubles the quotient [calculateAngle] hands to [Math.acos] is 1 for the
    folded arm and -1 for the stretched one, and the chin score is 1 at the
    top and 0 hanging, as in exact arithmetic. *)
Lemma scripted_frames_exact :
  acosOperand (point 0.25 0.5) (point 0.5 0.5) (point 0.25 0.5) = 1
  /\ acosOperand (point 0.25 0.5) (point 0.5 0.5) (point 0.75 0.5) = -1
  /\ acosOperand (point 0.5 0.5) (point 0.5 0.25) (point 0.5 0) = -1
  /\ acosOperand (point 0.5 0.5) (point 0.5 0.75) (point 0.5 0.5) = 1
  /\ checkChinOverBar (point 0.5 0.375) (point 0.5 0) (point 0.5 0) = 0
  /\ checkChinOverBar (point 0.5 0.375) (point 0.5 0.5) (point 0.5 0.5) = 1.
Proof. vm_compute. repeat split. Qed.

End Binary64Rounding.

(** ** The push-up state machine *)

Lemma hasEnoughTimePassed_spec now interval this :
  ExerciseValidator.hasEnoughTimePassed now interval this
  = if (now - ExerciseValidator.lastValidationTime this >=? interval)%Z
    then (ExerciseValidator.set_lastValidationTime now this, true)
    else (this, false).
Proof. reflexivity. Qed.

(** [validateForm] in terms of its block [countRepetition]. *)
Lemma pushup_validateForm_unfold clk this l r a :
  let valid :=
    ExerciseValidator.calculateFormScore
      (PushUpValidator.formCriteria l r a) >? 0.6 in
  let counted := PushUpValidator.countRepetition clk this ((l + r) / 2) valid in
  fst (PushUpValidator.validateForm clk this l r a)
  = {| PushUpValidator.super :=
         fst (ExerciseValidator.addToValidationHistory valid
                (PushUpValidator.super (fst (fst counted))));
       PushUpValidator.isInDownPosition :=
         PushUpValidator.isInDownPosition (fst (fst counted));
       PushUpValidator.isInUpPosition :=
         PushUpValidator.isInUpPosition (fst (fst counted)) |}
  /\ completedRep (snd (PushUpValidator.validateForm clk this l r a))
     = snd (fst counted)
  /\ formScore (snd (PushUpValidator.validateForm clk this l r a))
     = ExerciseValidator.calculateFormScore (PushUpValidator.formCriteria l r a).
Proof.
  cbv zeta. unfold PushUpValidator.validateForm.
  destruct (PushUpValidator.countRepetition _ _ _ _)
    as [[this' completed] pushed].
  cbn. auto.
Qed.

(** The block counts at most one repetition, and only through the gate of
    [hasEnoughTimePassed]. *)
Lemma pushup_countRepetition_repCount clk this avg valid :
  let this' := fst (fst (PushUpValidator.countRepetition clk this avg valid)) in
  let completed := snd (fst (PushUpValidator.countRepetition clk this avg valid)) in
  (completed = false
   /\ PushUpValidator.getRepCount this' = PushUpValidator.getRepCount this)
  \/ (completed = true
      /\ PushUpValidator.getRepCount this'
         = (PushUpValidator.getRepCount this + 1)%Z
      /\ (1000 <= clk 0%nat
            - ExerciseValidator.lastValidationTime
                (PushUpValidator.super this))%Z).
Proof.
  cbv zeta. unfold PushUpValidator.countRepetition.
  rewrite hasEnoughTimePassed_spec.
  destruct (_ && _ && valid); [now left |].
  destruct (_ && _ && _ && valid); [| now left].
  destruct (Z.geb_spec
              (clk 0%nat - ExerciseValidator.lastValidationTime
                             (PushUpValidator.super this)) 1000);
    [right | left]; cbn; auto.
Qed.

(** With both phase flags set the block takes no branch. *)
Lemma pushup_countRepetition_stuck clk this avg valid :
  PushUpValidator.isInDownPosition this = true ->
  PushUpValidator.isInUpPosition this = true ->
  PushUpValidator.countRepetition clk this avg valid = (this, false, []).
Proof.
  intros Hdown Hup. unfold PushUpValidator.countRepetition.
  rewrite Hdown, Hup. cbn [negb]. now rewrite !andb_false_r.
Qed.

Lemma pushup_validateForm_repCount clk this l r a :
  let this' := fst (PushUpValidator.validateForm clk this l r a) in
  let result := snd (PushUpValidator.validateForm clk this l r a) in
  (completedRep result = false
   /\ PushUpValidator.getRepCount this' = PushUpValidator.getRepCount this)
  \/ (completedRep result = true
      /\ PushUpValidator.getRepCount this'
         = (PushUpValidator.getRepCount this + 1)%Z
      /\ (1000 <= clk 0%nat
            - ExerciseValidator.lastValidationTime
                (PushUpValidator.super this))%Z).
Proof.
  cbv zeta.
  destruct (pushup_validateForm_unfold clk this l r a) as (-> & -> & _).
  apply pushup_countRepetition_repCount.
Qed.

Lemma pushup_validateForm_stuck clk this l r a :
  PushUpValidator.isInDownPosition this = true ->
  PushUpValidator.isInUpPosition this = true ->
  let this' := fst (PushUpValidator.validateForm clk this l r a) in
  let result := snd (PushUpValidator.validateForm clk this l r a) in
  PushUpValidator.isInDownPosition this' = true
  /\ PushUpValidator.isInUpPosition this' = true
  /\ PushUpValidator.getRepCount this' = PushUpValidator.getRepCount this
  /\ ExerciseValidator.lastValidationTime (PushUpValidator.super this')
     = ExerciseValidator.lastValidationTime (PushUpValidator.super this)
  /\ completedRep result = false.
Proof.
  intros Hdown Hup. cbv zeta.
  destruct (pushup_validateForm_unfold clk this l r a) as (-> & -> & _).
  rewrite (pushup_countRepetition_stuck _ _ _ _ Hdown Hup). cbn. auto.
Qed.

(** The three ways through the block on a valid frame. *)
Lemma pushup_countRepetition_down clk this avg :
  avg < PushUpValidator.minArmAngle ->
  PushUpValidator.isInDownPosition this = false ->
  PushUpValidator.countRepetition clk this avg true
  = ({| PushUpValidator.super := PushUpValidator.super this;
        PushUpValidator.isInDownPosition := true;
        PushUpValidator.isInUpPosition := false |},
     false, ["Good down position!"]).
Proof.
  intros Hlow Hdown. apply Qltb_lt in Hlow.
  unfold PushUpValidator.countRepetition. now rewrite Hlow, Hdown.
Qed.

Lemma pushup_countRepetition_up clk this avg :
  PushUpValidator.maxArmAngle < avg ->
  PushUpValidator.isInDownPosition this = true ->
  PushUpValidator.isInUpPosition this = false ->
  (1000 <= clk 0%nat
     - ExerciseValidator.lastValidationTime (PushUpValidator.super this))%Z ->
  let count :=
    (ExerciseValidator.repCount (PushUpValidator.super this) + 1)%Z in
  PushUpValidator.countRepetition clk this avg true
  = ({| PushUpValidator.super :=
          ExerciseValidator.set_repCount count
            (ExerciseValidator.set_lastValidationTime (clk 0%nat)
               (PushUpValidator.super this));
        PushUpValidator.isInDownPosition := false;
        PushUpValidator.isInUpPosition := false |},
     true, [("Great push-up! Count: " ++ show count)%string]).
Proof.
  intros Hhigh Hdown Hup Hgate. apply Qltb_lt in Hhigh.
  unfold PushUpValidator.countRepetition.
  rewrite Hhigh, Hdown, Hup, hasEnoughTimePassed_spec.
  cbn [negb andb]. rewrite andb_false_r. cbn [andb].
  destruct (Z.geb_spec
              (clk 0%nat - ExerciseValidator.lastValidationTime
                             (PushUpValidator.super this)) 1000);
    [reflexivity | lia].
Qed.

Lemma pushup_countRepetition_gated clk this avg :
  PushUpValidator.maxArmAngle < avg ->
  PushUpValidator.isInDownPosition this = true ->
  PushUpValidator.isInUpPosition this = false ->
  (clk 0%nat
     - ExerciseValidator.lastValidationTime (PushUpValidator.super this)
   < 1000)%Z ->
  PushUpValidator.countRepetition clk this avg true
  = ({| PushUpValidator.super := PushUpValidator.super this;
        PushUpValidator.isInDownPosition := true;
        PushUpValidator.isInUpPosition := true |},
     false, []).
Proof.
  intros Hhigh Hdown Hup Hgate. apply Qltb_lt in Hhigh.
  unfold PushUpValidator.countRepetition.
  rewrite Hhigh, Hdown, Hup, hasEnoughTimePassed_spec.
  cbn [negb andb]. rewrite andb_false_r. cbn [andb].
  destruct (Z.geb_spec
              (clk 0%nat - ExerciseValidator.lastValidationTime
                             (PushUpValidator.super this)) 1000);
    [lia | reflexivity].
Qed.

(** A run on a frame and the frames after it. *)
Lemma run_cons V Math this clk p frames :
  run V Math this ((clk, p) :: frames)
  = (fst (run V Math (fst (validate V Math clk this p)) frames),
     snd (validate V Math clk this p)
     :: snd (run V Math (fst (validate V Math clk this p)) frames)).
Proof.
  cbn [run]. destruct (validate V Math clk this p) as [this' result].
  cbn [fst snd]. now destruct (run V Math this' frames).
Qed.

(** The script on the measures of its two frames: a valid frame with the
    arms below 70 degrees and, more than 1000 ms later, a valid frame with
    the arms above 160 degrees. *)
Lemma pushup_validateForm_scripted clk1 clk2 l1 r1 a1 l2 r2 a2 :
  (l1 + r1) / 2 < PushUpValidator.minArmAngle ->
  PushUpValidator.maxArmAngle < (l2 + r2) / 2 ->
  0.6 < ExerciseValidator.calculateFormScore
          (PushUpValidator.formCriteria l1 r1 a1) ->
  0.6 < ExerciseValidator.calculateFormScore
          (PushUpValidator.formCriteria l2 r2 a2) ->
  (0 <= clk1 0%nat)%Z ->
  (clk1 0%nat + 1000 < clk2 0%nat)%Z ->
  let down := PushUpValidator.validateForm clk1 PushUpValidator.init l1 r1 a1 in
  let up := PushUpValidator.validateForm clk2 (fst down) l2 r2 a2 in
  PushUpValidator.getRepCount (fst down) = 0%Z
  /\ completedRep (snd down) = false
  /\ PushUpValidator.getRepCount (fst up) = 1%Z
  /\ completedRep (snd up) = true.
Proof.
  intros Hlow Hhigh Hvalid1 Hvalid2 Hclock Hlater. cbv zeta.
  apply Qltb_lt in Hvalid1, Hvalid2.
  set (down := PushUpValidator.validateForm clk1 PushUpValidator.init
                 l1 r1 a1).
  destruct (pushup_validateForm_unfold clk1 PushUpValidator.init l1 r1 a1)
    as (Hstate1 & Hrep1 & _).
  rewrite Hvalid1,
    (pushup_countRepetition_down clk1 PushUpValidator.init _ Hlow eq_refl)
    in Hstate1, Hrep1.
  fold down in Hstate1, Hrep1. cbn in Hstate1, Hrep1.
  destruct (pushup_validateForm_unfold clk2 (fst down) l2 r2 a2)
    as (Hstate2 & Hrep2 & _).
  rewrite Hvalid2, (pushup_countRepetition_up clk2 (fst down) _ Hhigh)
    in Hstate2, Hrep2;
    try (rewrite Hstate1; cbn; try reflexivity; lia).
  rewrite Hstate2, Hrep2, Hrep1, Hstate1. cbn. auto.
Qed.

(** [validate] on a frame, from what it measures on it. *)
Lemma pushup_validate_measures Math clk this p :
  PushUpValidator.validate Math clk this p
  = match pushUpMeasures Math p with
    | Some (l, r, a) => PushUpValidator.validateForm clk this l r a
    | None =>
        (this,
         rejected (if confidence p <? 0.6 then unclear
                   else "Please ensure your upper body is fully visible"))
    end.
Proof.
  unfold PushUpValidator.validate, pushUpMeasures.
  destruct (confidence p <? 0.6); [reflexivity |].
  cbv zeta. destruct (negb _); [reflexivity |].
  repeat match goal with
         | |- context [match ?o with Some _ => _ | None => _ end] =>
             destruct o
         end; reflexivity.
Qed.

(** C4: from the initial state, two frames that pass the confidence and the
    landmark checks and are valid, the first with an average arm angle
    below 70 degrees (the 60 of the script), the second, more than 1000 ms
    later, with an average arm angle above 160 degrees (the 170 of the
    script), count one repetition, reported on the second frame and not on
    the first; and whatever the state and the frame, no repetition is
    counted while less than 1000 ms have passed since
    [lastValidationTime]. *)
Theorem pushup_scripted_repetition Math clk1 clk2 down up
    l1 r1 a1 l2 r2 a2 :
  pushUpMeasures Math down = Some (l1, r1, a1) ->
  pushUpMeasures Math up = Some (l2, r2, a2) ->
  (l1 + r1) / 2 < 70 ->
  160 < (l2 + r2) / 2 ->
  0.6 < ExerciseValidator.calculateFormScore
          (PushUpValidator.formCriteria l1 r1 a1) ->
  0.6 < ExerciseValidator.calculateFormScore
          (PushUpValidator.formCriteria l2 r2 a2) ->
  (0 <= clk1 0%nat)%Z ->
  (clk1 0%nat + 1000 < clk2 0%nat)%Z ->
  let script := [(clk1, down); (clk2, up)] in
  (PushUpValidator.getRepCount
     (fst (run pushUp Math PushUpValidator.init [(clk1, down)])) = 0%Z
   /\ PushUpValidator.getRepCount
        (fst (run pushUp Math PushUpValidator.init script)) = 1%Z
   /\ map completedRep (snd (run pushUp Math PushUpValidator.init script))
      = [false; true])
  /\ (forall clk this p,
        (clk 0%nat - ExerciseValidator.lastValidationTime
                       (PushUpValidator.super this) < 1000)%Z ->
        PushUpValidator.getRepCount
          (fst (PushUpValidator.validate Math clk this p))
        = PushUpValidator.getRepCount this
        /\ completedRep (snd (PushUpValidator.validate Math clk this p))
           = false).
Proof.
  intros Hdown Hup Hlow Hhigh Hvalid1 Hvalid2 Hclock Hlater. cbv zeta.
  split.
  - pose proof (pushup_validateForm_scripted clk1 clk2 l1 r1 a1 l2 r2 a2
                  Hlow Hhigh Hvalid1 Hvalid2 Hclock Hlater) as Hscript.
    cbv zeta in Hscript. destruct Hscript as (Hcount1 & Hrep1 & Hcount2 & Hrep2).
    rewrite !run_cons. cbn [run fst snd map].
    change (validate pushUp) with PushUpValidator.validate.
    rewrite (pushup_validate_measures Math clk1), Hdown.
    rewrite (pushup_validate_measures Math clk2), Hup.
    split; [exact Hcount1 |]. split; [exact Hcount2 |].
    exact (f_equal2 (fun first second => [first; second]) Hrep1 Hrep2).
  - intros clk this p Hgate. rewrite pushup_validate_measures.
    destruct (pushUpMeasures Math p) as [[[l r] a] |];
      [| split; reflexivity].
    destruct (pushup_validateForm_repCount clk this l r a)
      as [[Hc Hr] | (_ & _ & Hopen)]; [auto | lia].
Qed.

Lemma pushup_scripted_repetition_witness :
  PushUpValidator.getRepCount
    (fst (run pushUp exampleMath PushUpValidator.init
            [(at_time 0, pushUpDown); (at_time 1001, pushUpUp)]))
  = 1%Z.
Proof.
  refine (proj1 (proj2 (proj1
            (pushup_scripted_repetition exampleMath (at_time 0)
               (at_time 1001) pushUpDown pushUpUp _ _ _ _ _ _
               eq_refl eq_refl _ _ _ _ _ _))));
    vm_compute; reflexivity || discriminate.
Defined.

Lemma pushup_validate_stuck Math clk this p :
  PushUpValidator.isInDownPosition this = true ->
  PushUpValidator.isInUpPosition this = true ->
  let this' := fst (PushUpValidator.validate Math clk this p) in
  PushUpValidator.isInDownPosition this' = true
  /\ PushUpValidator.isInUpPosition this' = true
  /\ PushUpValidator.getRepCount this' = PushUpValidator.getRepCount this
  /\ completedRep (snd (PushUpValidator.validate Math clk this p)) = false.
Proof.
  intros Hdown Hup. cbv zeta.
  destruct (pushup_validate_cases Math clk this p)
    as [-> | [-> | (l & r & a & ->)]]; cbn [fst snd rejected completedRep];
    auto.
  destruct (pushup_validateForm_stuck clk this l r a Hdown Hup)
    as (? & ? & ? & _ & ?). auto.
Qed.

Lemma pushup_run_stuck Math frames : forall this,
  PushUpValidator.isInDownPosition this = true ->
  PushUpValidator.isInUpPosition this = true ->
  PushUpValidator.isInDownPosition (fst (run pushUp Math this frames)) = true
  /\ PushUpValidator.isInUpPosition (fst (run pushUp Math this frames)) = true
  /\ PushUpValidator.getRepCount (fst (run pushUp Math this frames))
     = PushUpValidator.getRepCount this
  /\ Forall (fun result => completedRep result = false)
       (snd (run pushUp Math this frames)).
Proof.
  induction frames as [| [clk p] frames IH]; intros this Hdown Hup.
  - cbn. auto.
  - destruct (pushup_validate_stuck Math clk this p Hdown Hup)
      as (Hdown' & Hup' & Hcount & Hrep).
    cbn [run validate pushUp].
    destruct (PushUpValidator.validate Math clk this p) as [this' result].
    cbn [fst snd] in *.
    destruct (IH this' Hdown' Hup') as (? & ? & Hcount' & ?).
    change (state pushUp) with PushUpValidator.t in *.
    destruct (run pushUp Math this' frames) as [final results].
    cbn [fst snd] in *. repeat split; auto. congruence.
Qed.

(** C10: when the way up is seen before the gate of 1000 ms has opened,
    the frame sets [isInUpPosition] next to [isInDownPosition] and counts
    nothing; from a state with both flags set no sequence of frames
    changes a flag or the repetition count, or reports a repetition;
    [reset] clears both flags. *)
Theorem pushup_gated_transition_sticks :
  (forall clk this l r a,
     PushUpValidator.isInDownPosition this = true ->
     PushUpValidator.isInUpPosition this = false ->
     PushUpValidator.maxArmAngle < (l + r) / 2 ->
     0.6 < ExerciseValidator.calculateFormScore
             (PushUpValidator.formCriteria l r a) ->
     (clk 0%nat - ExerciseValidator.lastValidationTime
                    (PushUpValidator.super this) < 1000)%Z ->
     let this' := fst (PushUpValidator.validateForm clk this l r a) in
     PushUpValidator.isInDownPosition this' = true
     /\ PushUpValidator.isInUpPosition this' = true
     /\ PushUpValidator.getRepCount this' = PushUpValidator.getRepCount this)
  /\ (forall Math this frames,
        PushUpValidator.isInDownPosition this = true ->
        PushUpValidator.isInUpPosition this = true ->
        let final := fst (run pushUp Math this frames) in
        PushUpValidator.isInDownPosition final = true
        /\ PushUpValidator.isInUpPosition final = true
        /\ PushUpValidator.getRepCount final = PushUpValidator.getRepCount this
        /\ Forall (fun result => completedRep result = false)
             (snd (run pushUp Math this frames)))
  /\ (forall this,
        PushUpValidator.isInDownPosition (PushUpValidator.reset this) = false
        /\ PushUpValidator.isInUpPosition (PushUpValidator.reset this) = false
        /\ PushUpValidator.getRepCount (PushUpValidator.reset this) = 0%Z).
Proof.
  split; [| split].
  - intros clk this l r a Hdown Hup Hhigh Hvalid Hgate. cbv zeta.
    apply Qltb_lt in Hvalid.
    destruct (pushup_validateForm_unfold clk this l r a) as (-> & _).
    rewrite Hvalid,
      (pushup_countRepetition_gated clk this _ Hhigh Hdown Hup Hgate).
    cbn. auto.
  - intros Math this frames Hdown Hup. now apply pushup_run_stuck.
  - intros this. cbn. auto.
Qed.

Lemma pushup_gated_transition_sticks_witness :
  let counted :=
    fst (PushUpValidator.validateForm (at_time 5000)
           (fst (PushUpValidator.validateForm (at_time 0)
                   PushUpValidator.init 60 60 1))
           170 170 1) in
  let down := fst (PushUpValidator.validateForm (at_time 5200) counted 60 60 1) in
  let stuck := fst (PushUpValidator.validateForm (at_time 5400) down 170 170 1) in
  PushUpValidator.getRepCount down = 1%Z
  /\ PushUpValidator.isInDownPosition stuck = true
  /\ PushUpValidator.isInUpPosition stuck = true
  /\ PushUpValidator.getRepCount stuck = 1%Z
  /\ PushUpValidator.getRepCount
       (fst (run pushUp exampleMath stuck [(at_time 9000, goodPlank)])) = 1%Z.
Proof.
  cbv zeta. split; [reflexivity |].
  destruct pushup_gated_transition_sticks as (Hgated & Hstuck & _).
  match goal with
  | |- PushUpValidator.isInDownPosition
         (fst (PushUpValidator.validateForm ?clk ?this ?l ?r ?a)) = _ /\ _ =>
      destruct (Hgated clk this l r a) as (Hd & Hu & Hc);
        [reflexivity .. |]
  end.
  split; [exact Hd |]. split; [exact Hu |].
  split; [rewrite Hc; reflexivity |].
  match goal with
  | |- PushUpValidator.getRepCount (fst (run _ ?Math ?this ?frames)) = _ =>
      destruct (Hstuck Math this frames Hd Hu) as (_ & _ & -> & _)
  end.
  rewrite Hc. reflexivity.
Defined.

(** ** The plank: holding, losing and milestones *)

(** An invalid frame through the block [trackPlank]. *)
Lemma plank_trackPlank_invalid clk this :
  let this' := fst (fst (PlankValidator.trackPlank clk this false)) in
  snd (fst (PlankValidator.trackPlank clk this false)) = false
  /\ PlankValidator.super this' = PlankValidator.super this
  /\ PlankValidator.plankStartTime this' = PlankValidator.plankStartTime this
  /\ PlankValidator.plankDuration this' = PlankValidator.plankDuration this
  /\ PlankValidator.lastStableTime this' = PlankValidator.lastStableTime this
  /\ PlankValidator.nextMilestoneIndex this'
     = PlankValidator.nextMilestoneIndex this
  /\ PlankValidator.isInPlankPosition this'
     = PlankValidator.isInPlankPosition this
       && negb ((clk 0%nat - PlankValidator.lastStableTime this >? 1000)%Z
                && (clk 1%nat - PlankValidator.lastStableTime this >? 1000)%Z).
Proof.
  cbv zeta. unfold PlankValidator.trackPlank.
  destruct (PlankValidator.isInPlankPosition this) eqn:Hin;
    [destruct (clk 0%nat - PlankValidator.lastStableTime this >? 1000)%Z |];
    cbn [andb negb fst snd].
  - destruct (plank_handleInvalidPose_fields (clk 1%nat) this)
      as (? & ? & ? & ? & _ & ? & Hflag).
    rewrite Hin in Hflag. auto 10.
  - auto 10.
  - auto 10.
Qed.

(** A valid frame through the block: it starts a plank, or it times the
    one being held and looks at the next milestone. *)
Lemma plank_trackPlank_start clk this :
  PlankValidator.isInPlankPosition this = false ->
  PlankValidator.trackPlank clk this true
  = ({| PlankValidator.super := PlankValidator.super this;
        PlankValidator.plankStartTime := clk 0%nat;
        PlankValidator.plankDuration := PlankValidator.plankDuration this;
        PlankValidator.isInPlankPosition := true;
        PlankValidator.lastStableTime := PlankValidator.lastStableTime this;
        PlankValidator.recentPoses := PlankValidator.recentPoses this;
        PlankValidator.nextMilestoneIndex :=
          PlankValidator.nextMilestoneIndex this |},
     false, ["Good plank position! Hold steady..."]).
Proof. intros Hout. unfold PlankValidator.trackPlank. now rewrite Hout. Qed.

Lemma plank_trackPlank_hold clk this :
  PlankValidator.isInPlankPosition this = true ->
  let this' := fst (fst (PlankValidator.trackPlank clk this true)) in
  let completed := snd (fst (PlankValidator.trackPlank clk this true)) in
  let duration := (clk 0%nat - PlankValidator.plankStartTime this)%Z in
  PlankValidator.isInPlankPosition this' = true
  /\ PlankValidator.plankStartTime this' = PlankValidator.plankStartTime this
  /\ PlankValidator.plankDuration this' = duration
  /\ PlankValidator.lastStableTime this' = clk 0%nat
  /\ (completed = true <->
      exists milestone,
        nth_error PlankValidator.milestoneDurations
          (PlankValidator.nextMilestoneIndex this) = Some milestone
        /\ (milestone <= duration)%Z)
  /\ PlankValidator.getRepCount this'
     = (PlankValidator.getRepCount this + if completed then 1 else 0)%Z
  /\ PlankValidator.nextMilestoneIndex this'
     = (PlankValidator.nextMilestoneIndex this + if completed then 1 else 0)%nat.
Proof.
  intros Hin. cbv zeta. unfold PlankValidator.trackPlank.
  rewrite Hin. cbn [negb].
  destruct (nth_error PlankValidator.milestoneDurations
              (PlankValidator.nextMilestoneIndex this)) as [milestone |];
    [destruct (Z.geb_spec (clk 0%nat - PlankValidator.plankStartTime this)
                 milestone) as [Hreached | Hshort] |];
    unfold PlankValidator.getRepCount, ExerciseValidator.getRepCount;
    cbn -[Z.add Z.sub]; repeat split;
    try reflexivity; try lia; try discriminate; eauto.
  - intros (m & [= <-] & Hle). lia.
  - intros (m & [=] & _).
Qed.

(** What an invalid frame does to the plank validator: a frame turned away,
    or one with a form score of at most 0.6.  [validate] returns a form
    score of at most 0.6 for these frames and for no other. *)
Lemma plank_validate_invalid Math clk this p :
  let this' := fst (PlankValidator.validate Math clk this p) in
  let result := snd (PlankValidator.validate Math clk this p) in
  let stale n :=
    (clk n - PlankValidator.lastStableTime this >? 1000)%Z in
  formScore result <= 0.6 ->
  completedRep result = false
  /\ PlankValidator.getRepCount this' = PlankValidator.getRepCount this
  /\ PlankValidator.nextMilestoneIndex this'
     = PlankValidator.nextMilestoneIndex this
  /\ PlankValidator.plankDuration this' = PlankValidator.plankDuration this
  /\ PlankValidator.plankStartTime this' = PlankValidator.plankStartTime this
  /\ PlankValidator.lastStableTime this' = PlankValidator.lastStableTime this
  /\ (PlankValidator.isInPlankPosition this'
      = PlankValidator.isInPlankPosition this && negb (stale 0%nat)
      \/ PlankValidator.isInPlankPosition this'
         = PlankValidator.isInPlankPosition this
           && negb (stale 0%nat && stale 1%nat)).
Proof.
  cbv zeta.
  destruct (plank_validate_cases Math clk this p)
    as [-> | [-> | (a & e & h & s & ->)]]; cbn [fst snd].
  1, 2: intros _;
    destruct (plank_handleInvalidPose_fields (clk 0%nat)
                (PlankValidator.addToRecentPoses p this))
      as (Hsuper & ? & ? & ? & _ & ? & Hflag);
    unfold PlankValidator.getRepCount; rewrite Hsuper; cbn in *; auto 10.
  destruct (plank_validateForm_unfold clk
              (PlankValidator.addToRecentPoses p this) a e h s)
    as (-> & -> & ->).
  intros Hlow. apply Qltb_ge in Hlow. rewrite Hlow.
  destruct (plank_trackPlank_invalid clk
              (PlankValidator.addToRecentPoses p this))
    as (? & Hsuper & ? & ? & ? & ? & Hflag).
  unfold PlankValidator.getRepCount.
  cbn [PlankValidator.set_super PlankValidator.super
       PlankValidator.nextMilestoneIndex PlankValidator.plankDuration
       PlankValidator.plankStartTime PlankValidator.lastStableTime
       PlankValidator.isInPlankPosition
       ExerciseValidator.addToValidationHistory fst
       ExerciseValidator.set_validationHistory ExerciseValidator.getRepCount
       ExerciseValidator.repCount].
  rewrite Hsuper. cbn in *. auto 10.
Qed.

(** What a valid frame does: a frame with a form score above 0.6. *)
Lemma plank_validate_valid Math clk this p :
  let this' := fst (PlankValidator.validate Math clk this p) in
  let result := snd (PlankValidator.validate Math clk this p) in
  let duration := (clk 0%nat - PlankValidator.plankStartTime this)%Z in
  0.6 < formScore result ->
  PlankValidator.isInPlankPosition this' = true
  /\ (PlankValidator.isInPlankPosition this = false ->
      completedRep result = false
      /\ PlankValidator.plankStartTime this' = clk 0%nat
      /\ PlankValidator.getRepCount this' = PlankValidator.getRepCount this
      /\ PlankValidator.nextMilestoneIndex this'
         = PlankValidator.nextMilestoneIndex this
      /\ PlankValidator.plankDuration this' = PlankValidator.plankDuration this
      /\ PlankValidator.lastStableTime this'
         = PlankValidator.lastStableTime this)
  /\ (PlankValidator.isInPlankPosition this = true ->
      PlankValidator.plankStartTime this' = PlankValidator.plankStartTime this
      /\ PlankValidator.plankDuration this' = duration
      /\ PlankValidator.lastStableTime this' = clk 0%nat
      /\ (completedRep result = true <->
          exists milestone,
            nth_error PlankValidator.milestoneDurations
              (PlankValidator.nextMilestoneIndex this) = Some milestone
            /\ (milestone <= duration)%Z)
      /\ PlankValidator.getRepCount this'
         = (PlankValidator.getRepCount this
            + if completedRep result then 1 else 0)%Z
      /\ PlankValidator.nextMilestoneIndex this'
         = (PlankValidator.nextMilestoneIndex this
            + if completedRep result then 1 else 0)%nat).
Proof.
  cbv zeta.
  destruct (plank_validate_cases Math clk this p)
    as [-> | [-> | (a & e & h & s & ->)]]; cbn [fst snd].
  1, 2: intros Hlt; exfalso; revert Hlt; cbn; discriminate.
  destruct (plank_validateForm_unfold clk
              (PlankValidator.addToRecentPoses p this) a e h s)
    as (-> & -> & ->).
  intros Hvalid. apply Qltb_lt in Hvalid. rewrite Hvalid.
  set (held := PlankValidator.addToRecentPoses p this).
  unfold PlankValidator.getRepCount.
  cbn [PlankValidator.set_super PlankValidator.super
       PlankValidator.nextMilestoneIndex PlankValidator.plankDuration
       PlankValidator.plankStartTime PlankValidator.lastStableTime
       PlankValidator.isInPlankPosition
       ExerciseValidator.addToValidationHistory fst
       ExerciseValidator.set_validationHistory ExerciseValidator.getRepCount
       ExerciseValidator.repCount].
  destruct (PlankValidator.isInPlankPosition this) eqn:Hin.
  - destruct (plank_trackPlank_hold clk held) as (? & ? & ? & ? & ? & ? & ?);
      [exact Hin |].
    split; [assumption |]. split; [discriminate |]. intros _.
    auto 10.
  - rewrite (plank_trackPlank_start clk held Hin).
    split; [reflexivity |]. split; [| discriminate]. intros _.
    cbn. auto 10.
Qed.





(** Any frame: a repetition is reported exactly when a valid frame of a
    held plank finds the duration at or beyond the next milestone, and
    the count and the index move with the report. *)
Lemma plank_validate_milestone Math clk this p :
  let this' := fst (PlankValidator.validate Math clk this p) in
  let result := snd (PlankValidator.validate Math clk this p) in
  (completedRep result = true <->
   0.6 < formScore result
   /\ PlankValidator.isInPlankPosition this = true
   /\ exists milestone,
        nth_error PlankValidator.milestoneDurations
          (PlankValidator.nextMilestoneIndex this) = Some milestone
        /\ (milestone <= clk 0%nat - PlankValidator.plankStartTime this)%Z)
  /\ PlankValidator.getRepCount this'
     = (PlankValidator.getRepCount this
        + if completedRep result then 1 else 0)%Z
  /\ PlankValidator.nextMilestoneIndex this'
     = (PlankValidator.nextMilestoneIndex this
        + if completedRep result then 1 else 0)%nat.
Proof.
  cbv zeta.
  destruct (Qlt_le_dec 0.6
              (formScore (snd (PlankValidator.validate Math clk this p))))
    as [Hvalid | Hinvalid].
  - destruct (plank_validate_valid Math clk this p Hvalid)
      as (_ & Hstart & Hhold).
    destruct (PlankValidator.isInPlankPosition this) eqn:Hin.
    + destruct (Hhold eq_refl) as (_ & _ & _ & Hiff & Hcount & Hindex).
      split; [| split; assumption]. split.
      * intros Hrep. split; [assumption |]. split; [reflexivity |].
        now apply Hiff.
      * intros (_ & _ & Hex). now apply Hiff.
    + destruct (Hstart eq_refl) as (Hrep & _ & Hcount & Hindex & _).
      rewrite Hrep, Hcount, Hindex.
      split; [| split; lia]. split; [discriminate |].
      intros (_ & Hcontra & _). discriminate.
  - destruct (plank_validate_invalid Math clk this p Hinvalid)
      as (Hrep & Hcount & Hindex & _).
    rewrite Hrep, Hcount, Hindex.
    split; [| split; lia]. split; [discriminate |].
    intros (Hcontra & _). exfalso. now apply (Qlt_not_le _ _ Hcontra).
Qed.

(** The milestones a run reaches have increasing indices, from the index
    the run starts with. *)
Lemma plank_milestonesReached_sorted Math frames : forall this,
  StronglySorted lt (milestonesReached Math this frames)
  /\ Forall (fun index => (PlankValidator.nextMilestoneIndex this <= index)%nat)
       (milestonesReached Math this frames).
Proof.
  induction frames as [| [clk p] frames IH]; intros this.
  - cbn. split; constructor.
  - cbn [milestonesReached].
    destruct (plank_validate_milestone Math clk this p) as (_ & _ & Hindex).
    destruct (PlankValidator.validate Math clk this p) as [this' result].
    cbn [fst snd] in Hindex.
    destruct (IH this') as [Hsorted Hfrom]. rewrite Hindex in Hfrom.
    destruct (completedRep result); cbn [app].
    + split; constructor; auto.
      * eapply Forall_impl; [| exact Hfrom]. cbn. lia.
      * eapply Forall_impl; [| exact Hfrom]. cbn. lia.
    + split; [assumption |].
      eapply Forall_impl; [| exact Hfrom]. cbn. lia.
Qed.

Lemma StronglySorted_lt_NoDup (l : list nat) : StronglySorted lt l -> NoDup l.
Proof.
  induction 1 as [| n l Hsorted IH Hall]; constructor; [| assumption].
  intros Hin. rewrite Forall_forall in Hall. specialize (Hall n Hin). lia.
Qed.

Lemma plank_run_index Math frames : forall this,
  (PlankValidator.nextMilestoneIndex this
   <= PlankValidator.nextMilestoneIndex (fst (run plank Math this frames)))%nat.
Proof.
  induction frames as [| [clk p] frames IH]; intros this.
  - cbn. lia.
  - rewrite run_cons. cbn [fst].
    change (validate plank) with PlankValidator.validate.
    destruct (plank_validate_milestone Math clk this p) as (_ & _ & Hindex).
    specialize (IH (fst (PlankValidator.validate Math clk this p))).
    change (state plank) with PlankValidator.t in *.
    lia.
Qed.

(** Valid frames of a held plank before its next milestone. *)
Lemma plank_run_hold Math frames : forall this milestone,
  PlankValidator.isInPlankPosition this = true ->
  nth_error PlankValidator.milestoneDurations
    (PlankValidator.nextMilestoneIndex this) = Some milestone ->
  Forall (fun result => 0.6 < formScore result)
    (snd (run plank Math this frames)) ->
  Forall (fun frame : Frame =>
            (fst frame 0%nat - PlankValidator.plankStartTime this
             < milestone)%Z) frames ->
  let final := fst (run plank Math this frames) in
  PlankValidator.isInPlankPosition final = true
  /\ PlankValidator.plankStartTime final = PlankValidator.plankStartTime this
  /\ PlankValidator.nextMilestoneIndex final
     = PlankValidator.nextMilestoneIndex this
  /\ PlankValidator.getRepCount final = PlankValidator.getRepCount this
  /\ Forall (fun result => completedRep result = false)
       (snd (run plank Math this frames)).
Proof.
  induction frames as [| [clk p] frames IH];
    intros this milestone Hin Hnext Hvalid Hbefore; cbv zeta.
  - cbn. auto.
  - rewrite run_cons in *. cbn [fst snd] in *.
    change (validate plank) with PlankValidator.validate in *.
    change (state plank) with PlankValidator.t in *.
    apply Forall_cons_iff in Hvalid, Hbefore.
    destruct Hvalid as [Hframe Hvalid], Hbefore as [Hnow Hbefore].
    cbn [fst] in Hnow.
    destruct (plank_validate_valid Math clk this p Hframe)
      as (Hin' & _ & Hhold).
    destruct (Hhold Hin) as (Hstart & _ & _ & Hiff & Hcount & Hindex).
    assert (Hrep : completedRep (snd (PlankValidator.validate Math clk this p))
                   = false).
    { destruct (completedRep _); [| reflexivity].
      destruct (proj1 Hiff eq_refl) as (m & Hm & Hle).
      rewrite Hnext in Hm. injection Hm as <-. lia. }
    rewrite Hrep in Hcount, Hindex.
    rewrite Nat.add_0_r in Hindex. rewrite Z.add_0_r in Hcount.
    destruct (IH (fst (PlankValidator.validate Math clk this p)) milestone)
      as (? & ? & ? & ? & ?); auto; try congruence.
    { now rewrite Hstart. }
    repeat split; try congruence. now constructor.
Qed.

Lemma run_app V Math frames1 frames2 : forall this,
  run V Math this (frames1 ++ frames2)
  = (fst (run V Math (fst (run V Math this frames1)) frames2),
     snd (run V Math this frames1)
     ++ snd (run V Math (fst (run V Math this frames1)) frames2)).
Proof.
  induction frames1 as [| [clk p] frames1 IH]; intros this.
  - cbn [app run fst snd]. now destruct (run V Math this frames2).
  - cbn [app]. rewrite !run_cons, IH. reflexivity.
Qed.

Lemma milestonesReached_app Math frames1 frames2 : forall this,
  milestonesReached Math this (frames1 ++ frames2)
  = milestonesReached Math this frames1
    ++ milestonesReached Math (fst (run plank Math this frames1)) frames2.
Proof.
  induction frames1 as [| [clk p] frames1 IH]; intros this.
  - reflexivity.
  - cbn [app milestonesReached]. rewrite run_cons. cbn [fst].
    change (validate plank) with PlankValidator.validate.
    destruct (PlankValidator.validate Math clk this p) as [this' result].
    cbn [fst]. now rewrite IH, app_assoc.
Qed.

Lemma milestonesReached_none Math frames : forall this,
  Forall (fun result => completedRep result = false)
    (snd (run plank Math this frames)) ->
  milestonesReached Math this frames = [].
Proof.
  induction frames as [| [clk p] frames IH]; intros this Hnone.
  - reflexivity.
  - rewrite run_cons in Hnone. cbn [snd] in Hnone.
    apply Forall_cons_iff in Hnone. destruct Hnone as [Hrep Hnone].
    cbn [milestonesReached].
    change (validate plank) with PlankValidator.validate in *.
    destruct (PlankValidator.validate Math clk this p) as [this' result].
    cbn [fst snd] in *. rewrite Hrep. now apply IH.
Qed.

Lemma map_completedRep_none (results : list ExerciseValidation) :
  Forall (fun result => completedRep result = false) results ->
  map completedRep results = repeat false (List.length results).
Proof.
  induction 1 as [| result results Hrep _ IH]; cbn; [reflexivity |].
  now rewrite Hrep, IH.
Qed.

Lemma run_length V Math frames : forall this,
  List.length (snd (run V Math this frames)) = List.length frames.
Proof.
  induction frames as [| [clk p] frames IH]; intros this.
  - reflexivity.
  - rewrite run_cons. cbn. now rewrite IH.
Qed.

(** C6: a frame reports a repetition exactly when it is a valid frame of a
    held plank whose duration has reached the milestone at
    [nextMilestoneIndex], and then the repetition count and the index both
    grow by one, else neither moves; along any run the index never
    decreases and the milestones reached are pairwise different; a plank
    held by valid frames from the initial state is reported once when a
    frame finds 5000 ms on the clock and once more when a frame finds
    10000 ms, with a count of 1 and then 2. *)
Theorem plank_milestones Math :
  (forall clk this p,
     let this' := fst (PlankValidator.validate Math clk this p) in
     let result := snd (PlankValidator.validate Math clk this p) in
     (completedRep result = true <->
      0.6 < formScore result
      /\ PlankValidator.isInPlankPosition this = true
      /\ exists milestone,
           nth_error PlankValidator.milestoneDurations
             (PlankValidator.nextMilestoneIndex this) = Some milestone
           /\ (milestone <= clk 0%nat - PlankValidator.plankStartTime this)%Z)
     /\ PlankValidator.getRepCount this'
        = (PlankValidator.getRepCount this
           + if completedRep result then 1 else 0)%Z
     /\ PlankValidator.nextMilestoneIndex this'
        = (PlankValidator.nextMilestoneIndex this
           + if completedRep result then 1 else 0)%nat)
  /\ (forall this frames,
        (PlankValidator.nextMilestoneIndex this
         <= PlankValidator.nextMilestoneIndex
              (fst (run plank Math this frames)))%nat
        /\ StronglySorted lt (milestonesReached Math this frames)
        /\ NoDup (milestonesReached Math this frames))
  /\ (forall (start : Frame) before (at5 : Frame) between (at10 : Frame),
        let began := fst start 0%nat in
        let first := start :: before ++ [at5] in
        let frames := first ++ between ++ [at10] in
        Forall (fun result => 0.6 < formScore result)
          (snd (run plank Math PlankValidator.init frames)) ->
        Forall (fun frame : Frame => (fst frame 0%nat - began < 5000)%Z)
          before ->
        (5000 <= fst at5 0%nat - began)%Z ->
        Forall (fun frame : Frame => (fst frame 0%nat - began < 10000)%Z)
          between ->
        (10000 <= fst at10 0%nat - began)%Z ->
        map completedRep (snd (run plank Math PlankValidator.init frames))
        = repeat false (S (List.length before)) ++ [true]
          ++ repeat false (List.length between) ++ [true]
        /\ PlankValidator.getRepCount
             (fst (run plank Math PlankValidator.init first)) = 1%Z
        /\ PlankValidator.getRepCount
             (fst (run plank Math PlankValidator.init frames)) = 2%Z
        /\ milestonesReached Math PlankValidator.init frames = [0; 1]%nat).
Proof.
  split; [| split].
  - intros clk this p. apply plank_validate_milestone.
  - intros this frames.
    destruct (plank_milestonesReached_sorted Math frames this) as [Hsorted _].
    split; [apply plank_run_index |].
    split; [assumption | now apply StronglySorted_lt_NoDup].
  - intros [clk0 p0] before [clk5 p5] between [clk10 p10].
    cbv zeta. cbn [fst].
    intros Hvalid Hbefore H5 Hbetween H10. unfold Frame in *.
    change ((clk0, p0) :: before ++ [(clk5, p5)])
      with ([(clk0, p0)] ++ before ++ [(clk5, p5)]) in *.
    rewrite <- !app_assoc in Hvalid |- *.
    rewrite !milestonesReached_app.
    rewrite !run_app in Hvalid |- *. cbn [fst snd] in Hvalid |- *.
    rewrite !run_app. cbn [fst snd].
    rewrite !Forall_app in Hvalid.
    destruct Hvalid as (Hv0 & Hv1 & Hv2 & Hv3 & Hv4).
    (* the frame that starts the plank *)
    set (s0 := fst (run plank Math PlankValidator.init [(clk0, p0)])) in *.
    assert (Hs0 : PlankValidator.isInPlankPosition s0 = true
                  /\ PlankValidator.plankStartTime s0 = clk0 0%nat
                  /\ PlankValidator.nextMilestoneIndex s0 = 0%nat
                  /\ PlankValidator.getRepCount s0 = 0%Z
                  /\ map completedRep
                       (snd (run plank Math PlankValidator.init [(clk0, p0)]))
                     = [false]
                  /\ milestonesReached Math PlankValidator.init [(clk0, p0)]
                     = []).
    { subst s0. rewrite run_cons in *. cbn [fst snd run] in *.
      change (validate plank) with PlankValidator.validate in *.
      apply Forall_cons_iff in Hv0. destruct Hv0 as [Hv0 _].
      destruct (plank_validate_valid Math clk0 PlankValidator.init p0 Hv0)
        as (Hin & Hstart & _).
      destruct (Hstart eq_refl) as (Hrep & Hbegan & Hcount & Hindex & _).
      cbn [milestonesReached].
      destruct (PlankValidator.validate Math clk0 PlankValidator.init p0)
        as [this' result].
      cbn [fst snd map] in *. rewrite Hrep. auto 10. }
    destruct Hs0 as (Hin0 & Hstart0 & Hindex0 & Hcount0 & Hmap0 & Hnone0).
    (* the frames before 5000 ms *)
    destruct (plank_run_hold Math before s0 5000%Z)
      as (Hin1 & Hstart1 & Hindex1 & Hcount1 & Hrep1);
      [assumption | now rewrite Hindex0 | assumption
       | now rewrite Hstart0 |].
    set (s1 := fst (run plank Math s0 before)) in *.
    (* the frame at 5000 ms *)
    set (s2 := fst (run plank Math s1 [(clk5, p5)])) in *.
    assert (Hs2 : PlankValidator.isInPlankPosition s2 = true
                  /\ PlankValidator.plankStartTime s2 = clk0 0%nat
                  /\ PlankValidator.nextMilestoneIndex s2 = 1%nat
                  /\ PlankValidator.getRepCount s2 = 1%Z
                  /\ map completedRep (snd (run plank Math s1 [(clk5, p5)]))
                     = [true]
                  /\ milestonesReached Math s1 [(clk5, p5)] = [0%nat]).
    { subst s2. rewrite run_cons in *. cbn [fst snd run] in *.
      change (validate plank) with PlankValidator.validate in *.
      apply Forall_cons_iff in Hv2. destruct Hv2 as [Hv2 _].
      destruct (plank_validate_valid Math clk5 s1 p5 Hv2) as (Hin & _ & Hhold).
      destruct (Hhold Hin1) as (Hbegan & _ & _ & Hiff & Hcount & Hindex).
      assert (Hrep : completedRep (snd (PlankValidator.validate Math clk5 s1 p5))
                     = true).
      { apply Hiff. exists 5000%Z. rewrite Hindex1, Hindex0, Hstart1, Hstart0.
        split; [reflexivity | lia]. }
      cbn [milestonesReached].
      destruct (PlankValidator.validate Math clk5 s1 p5) as [this' result].
      cbn [fst snd map] in *. rewrite Hrep in *.
      rewrite Hindex1, Hindex0. repeat split; try congruence; try lia. }
    destruct Hs2 as (Hin2 & Hstart2 & Hindex2 & Hcount2 & Hmap2 & Hone2).
    (* the frames before 10000 ms *)
    destruct (plank_run_hold Math between s2 10000%Z)
      as (Hin3 & Hstart3 & Hindex3 & Hcount3 & Hrep3);
      [assumption | now rewrite Hindex2 | assumption
       | now rewrite Hstart2 |].
    set (s3 := fst (run plank Math s2 between)) in *.
    (* the frame at 10000 ms *)
    set (s4 := fst (run plank Math s3 [(clk10, p10)])) in *.
    assert (Hs4 : PlankValidator.getRepCount s4 = 2%Z
                  /\ map completedRep (snd (run plank Math s3 [(clk10, p10)]))
                     = [true]
                  /\ milestonesReached Math s3 [(clk10, p10)] = [1%nat]).
    { subst s4. rewrite run_cons in *. cbn [fst snd run] in *.
      change (validate plank) with PlankValidator.validate in *.
      apply Forall_cons_iff in Hv4. destruct Hv4 as [Hv4 _].
      destruct (plank_validate_valid Math clk10 s3 p10 Hv4)
        as (Hin & _ & Hhold).
      destruct (Hhold Hin3) as (Hbegan & _ & _ & Hiff & Hcount & Hindex).
      assert (Hrep : completedRep
                       (snd (PlankValidator.validate Math clk10 s3 p10))
                     = true).
      { apply Hiff. exists 10000%Z. rewrite Hindex3, Hindex2, Hstart3, Hstart2.
        split; [reflexivity | lia]. }
      cbn [milestonesReached].
      destruct (PlankValidator.validate Math clk10 s3 p10) as [this' result].
      cbn [fst snd map] in *. rewrite Hrep in *.
      rewrite Hindex3, Hindex2. repeat split; try congruence; try lia. }
    destruct Hs4 as (Hcount4 & Hmap4 & Hone4).
    unfold Frame in *.
    rewrite !map_app, Hmap0, Hmap2, Hmap4.
    rewrite (map_completedRep_none _ Hrep1), (map_completedRep_none _ Hrep3).
    rewrite !run_length.
    rewrite Hnone0, Hone2, Hone4.
    rewrite (milestonesReached_none _ _ _ Hrep1),
      (milestonesReached_none _ _ _ Hrep3).
    repeat split; auto.
Qed.

Lemma plank_milestones_witness :
  let frames :=
    [ (at_time 10000, goodPlank); (at_time 12000, goodPlank);
      (at_time 15000, goodPlank); (at_time 17000, goodPlank);
      (at_time 20000, goodPlank) ] in
  map completedRep (snd (run plank exampleMath PlankValidator.init frames))
  = [false; false; true; false; true]
  /\ PlankValidator.getRepCount
       (fst (run plank exampleMath PlankValidator.init frames)) = 2%Z
  /\ milestonesReached exampleMath PlankValidator.init frames = [0; 1]%nat.
Proof.
  destruct (plank_milestones exampleMath) as (_ & _ & Hheld).
  destruct (Hheld (at_time 10000, goodPlank) [(at_time 12000, goodPlank)]
              (at_time 15000, goodPlank) [(at_time 17000, goodPlank)]
              (at_time 20000, goodPlank))
    as (Hreports & _ & Hcount & Hreached).
  - vm_compute.
    repeat first [apply Forall_nil | apply Forall_cons; [reflexivity |]].
  - repeat constructor.
  - vm_compute. discriminate.
  - repeat constructor.
  - vm_compute. discriminate.
  - cbv zeta. repeat split; assumption.
Defined.

(** ** The clock and the frame's timestamp *)

Lemma plank_validate_scores Math clk this p :
  let held := PlankValidator.addToRecentPoses p this in
  PlankValidator.validate Math clk this p
  = match plankScores Math p
            (FormChecker.calculatePoseStability Math
               (PlankValidator.recentPoses held)) with
    | inl message =>
        (PlankValidator.handleInvalidPose (clk 0%nat) held, rejected message)
    | inr (a, e, h, s) => PlankValidator.validateForm clk held a e h s
    end.
Proof.
  cbv zeta. unfold PlankValidator.validate, plankScores.
  destruct (confidence p <? 0.6); [reflexivity |].
  cbv zeta. destruct (negb _); [reflexivity |].
  repeat match goal with
         | |- context [match ?o with Some _ => _ | None => _ end] =>
             destruct o
         end; reflexivity.
Qed.

Lemma plankScores_samePose Math p p' s :
  samePose p p' -> plankScores Math p s = plankScores Math p' s.
Proof.
  destruct p as [lm wl c ts], p' as [lm' wl' c' ts'].
  intros [Hlm Hc]. cbn in Hlm, Hc. subst lm' c'. reflexivity.
Qed.

Lemma addMovement_samePose Math prev prev' curr curr' acc index :
  samePose prev prev' -> samePose curr curr' ->
  FormChecker.addMovement Math prev curr acc index
  = FormChecker.addMovement Math prev' curr' acc index.
Proof.
  intros [Hprev _] [Hcurr _]. unfold FormChecker.addMovement.
  now rewrite Hprev, Hcurr.
Qed.

Lemma fold_addMovement_samePose Math prev prev' curr curr' indices :
  samePose prev prev' -> samePose curr curr' -> forall acc,
  fold_left (FormChecker.addMovement Math prev curr) indices acc
  = fold_left (FormChecker.addMovement Math prev' curr') indices acc.
Proof.
  intros Hprev Hcurr. induction indices as [| index indices IH]; intros acc.
  - reflexivity.
  - cbn [fold_left].
    now rewrite (addMovement_samePose Math _ _ _ _ acc index Hprev Hcurr), IH.
Qed.

Lemma compareConsecutive_samePose Math rest rest' :
  Forall2 samePose rest rest' -> forall prev prev' acc,
  samePose prev prev' ->
  FormChecker.compareConsecutive Math prev rest acc
  = FormChecker.compareConsecutive Math prev' rest' acc.
Proof.
  induction 1 as [| curr curr' rest rest' Hcurr _ IH]; intros prev prev' acc Hprev.
  - reflexivity.
  - cbn [FormChecker.compareConsecutive].
    rewrite (fold_addMovement_samePose Math _ _ _ _ _ Hprev Hcurr).
    now apply IH.
Qed.

(** The stability score reads the landmarks of the poses, nothing else. *)
Lemma calculatePoseStability_samePose Math poses poses' :
  Forall2 samePose poses poses' ->
  FormChecker.calculatePoseStability Math poses
  = FormChecker.calculatePoseStability Math poses'.
Proof.
  intros Hsame. unfold FormChecker.calculatePoseStability.
  rewrite (Forall2_length Hsame).
  destruct (List.length poses' <? 2)%nat; [reflexivity |].
  destruct Hsame as [| first first' rest rest' Hfirst Hrest]; [reflexivity |].
  now rewrite (compareConsecutive_samePose Math _ _ Hrest first first' _ Hfirst).
Qed.

(** [validateForm] of the plank validator reads the clock through its two
    first readings. *)
Lemma plank_validateForm_clock clk clk' this a e h s :
  clk 0%nat = clk' 0%nat -> clk 1%nat = clk' 1%nat ->
  PlankValidator.validateForm clk this a e h s
  = PlankValidator.validateForm clk' this a e h s.
Proof.
  intros H0 H1. unfold PlankValidator.validateForm, PlankValidator.trackPlank.
  now rewrite H0, H1.
Qed.

Lemma pushup_validate_sameFrame Math clk clk' this p p' :
  sameFrame (clk, p) (clk', p') ->
  PushUpValidator.validate Math clk this p
  = PushUpValidator.validate Math clk' this p'.
Proof.
  intros (H0 & _ & Hlm & Hc). cbn [fst snd] in *.
  destruct p as [lm wl c ts], p' as [lm' wl' c' ts'].
  cbn in Hlm, Hc. subst lm' c'.
  unfold PushUpValidator.validate, PushUpValidator.validateForm,
    PushUpValidator.countRepetition.
  now rewrite H0.
Qed.

Lemma chinup_validate_sameFrame Math clk clk' this p p' :
  sameFrame (clk, p) (clk', p') ->
  ChinUpValidator.validate Math clk this p
  = ChinUpValidator.validate Math clk' this p'.
Proof.
  intros (H0 & _ & Hlm & Hc). cbn [fst snd] in *.
  destruct p as [lm wl c ts], p' as [lm' wl' c' ts'].
  cbn in Hlm, Hc. subst lm' c'.
  unfold ChinUpValidator.validate, ChinUpValidator.validateForm,
    ChinUpValidator.countRepetition.
  now rewrite H0.
Qed.

(** The plank validator carries [recentPoses] along and reads it for the
    stability score only. *)
Lemma plank_handleInvalidPose_recentPoses now poses this :
  PlankValidator.handleInvalidPose now
    (PlankValidator.set_recentPoses poses this)
  = PlankValidator.set_recentPoses poses
      (PlankValidator.handleInvalidPose now this).
Proof.
  unfold PlankValidator.handleInvalidPose.
  cbn [PlankValidator.set_recentPoses PlankValidator.isInPlankPosition
       PlankValidator.lastStableTime].
  destruct (PlankValidator.isInPlankPosition this);
    [destruct (_ >? _)%Z |]; reflexivity.
Qed.

Lemma plank_validateForm_recentPoses clk poses this a e h s :
  PlankValidator.validateForm clk
    (PlankValidator.set_recentPoses poses this) a e h s
  = (PlankValidator.set_recentPoses poses
       (fst (PlankValidator.validateForm clk this a e h s)),
     snd (PlankValidator.validateForm clk this a e h s)).
Proof.
  unfold PlankValidator.validateForm, PlankValidator.trackPlank.
  cbn [PlankValidator.set_recentPoses PlankValidator.isInPlankPosition
       PlankValidator.lastStableTime PlankValidator.plankStartTime
       PlankValidator.super PlankValidator.nextMilestoneIndex
       PlankValidator.plankDuration PlankValidator.recentPoses].
  destruct (_ >? 0.6).
  - destruct (negb _); [reflexivity |].
    destruct (nth_error _ _); [destruct (_ >=? _)%Z |]; reflexivity.
  - destruct (_ && _); [| reflexivity].
    rewrite (plank_handleInvalidPose_recentPoses (clk 1%nat) poses this).
    reflexivity.
Qed.

Lemma plank_validate_recentPoses Math clk this p :
  PlankValidator.recentPoses (fst (PlankValidator.validate Math clk this p))
  = PlankValidator.recentPoses (PlankValidator.addToRecentPoses p this).
Proof.
  destruct (plank_validate_cases Math clk this p)
    as [-> | [-> | (a & e & h & s & ->)]]; cbn [fst];
    try apply plank_handleInvalidPose_fields.
  destruct (plank_validateForm_unfold clk
              (PlankValidator.addToRecentPoses p this) a e h s) as (-> & _).
  cbn [PlankValidator.set_super PlankValidator.recentPoses].
  unfold PlankValidator.trackPlank.
  destruct (_ >? 0.6).
  - destruct (negb _); [reflexivity |].
    destruct (nth_error _ _); [destruct (_ >=? _)%Z |]; reflexivity.
  - destruct (_ && _); [| reflexivity]. cbn [fst].
    apply plank_handleInvalidPose_fields.
Qed.

Lemma Forall2_samePose_tl poses poses' :
  Forall2 samePose poses poses' -> Forall2 samePose (tl poses) (tl poses').
Proof. destruct 1; [constructor | assumption]. Qed.

Lemma plank_validate_alike Math clk clk' this this' p p' :
  plankAlike this this' ->
  sameFrame (clk, p) (clk', p') ->
  snd (PlankValidator.validate Math clk this p)
  = snd (PlankValidator.validate Math clk' this' p')
  /\ plankAlike (fst (PlankValidator.validate Math clk this p))
       (fst (PlankValidator.validate Math clk' this' p')).
Proof.
  intros [Hthis Hrecent] (H0 & H1 & Hpose). cbn [fst snd] in H0, H1, Hpose.
  set (held := PlankValidator.addToRecentPoses p this).
  set (held' := PlankValidator.addToRecentPoses p' this').
  assert (Hposes : Forall2 samePose (PlankValidator.recentPoses held)
                     (PlankValidator.recentPoses held')).
  { subst held held'. unfold PlankValidator.addToRecentPoses.
    cbn [PlankValidator.set_recentPoses PlankValidator.recentPoses].
    assert (Hpushed : Forall2 samePose
                        (PlankValidator.recentPoses this ++ [p])
                        (PlankValidator.recentPoses this' ++ [p']))
      by (apply Forall2_app; [assumption | now constructor]).
    rewrite (Forall2_length Hpushed).
    destruct (_ <? _)%nat; [now apply Forall2_samePose_tl | assumption]. }
  assert (Hheld : held'
                  = PlankValidator.set_recentPoses
                      (PlankValidator.recentPoses held') held).
  { subst held held'. rewrite Hthis at 1. reflexivity. }
  assert (Hgoal :
            PlankValidator.validate Math clk' this' p'
            = (PlankValidator.set_recentPoses
                 (PlankValidator.recentPoses held')
                 (fst (PlankValidator.validate Math clk this p)),
               snd (PlankValidator.validate Math clk this p))).
  { rewrite !plank_validate_scores. fold held held'.
    rewrite <- (plankScores_samePose Math p p' _ Hpose).
    rewrite <- (calculatePoseStability_samePose Math _ _ Hposes).
    destruct (plankScores Math p _) as [message | [[[a e] h] s]].
    - rewrite Hheld, plank_handleInvalidPose_recentPoses, <- H0. reflexivity.
    - rewrite Hheld, plank_validateForm_recentPoses.
      now rewrite (plank_validateForm_clock clk' clk held a e h s). }
  rewrite Hgoal. cbn [fst snd]. split; [reflexivity |]. split.
  - cbn [PlankValidator.set_recentPoses PlankValidator.recentPoses].
    reflexivity.
  - cbn [PlankValidator.set_recentPoses PlankValidator.recentPoses].
    rewrite plank_validate_recentPoses. exact Hposes.
Qed.

(** C7, as the code has it: [validate] reads [Date.now()] itself, once in
    the push-up and the chin-up validator and up to twice in the plank
    validator, and never the timestamp of the frame.  Runs from the same
    state over frames with the same landmarks, the same confidence and the
    same readings of the clock return the same results and leave the same
    state; the plank validator keeps the frames as they came in
    [recentPoses], and is the same in everything else. *)
Theorem validate_reads_clock_not_timestamp Math frames frames' :
  Forall2 sameFrame frames frames' ->
  (forall this, run pushUp Math this frames = run pushUp Math this frames')
  /\ (forall this, run chinUp Math this frames = run chinUp Math this frames')
  /\ (forall this this',
        plankAlike this this' ->
        snd (run plank Math this frames) = snd (run plank Math this' frames')
        /\ plankAlike (fst (run plank Math this frames))
             (fst (run plank Math this' frames'))).
Proof.
  induction 1 as [| [clk p] [clk' p'] frames frames' Hframe _ IH].
  - cbn. auto.
  - destruct IH as (IHpush & IHchin & IHplank).
    split; [| split].
    + intros this. rewrite !run_cons.
      change (validate pushUp) with PushUpValidator.validate.
      rewrite (pushup_validate_sameFrame Math clk clk' this p p' Hframe).
      now rewrite IHpush.
    + intros this. rewrite !run_cons.
      change (validate chinUp) with ChinUpValidator.validate.
      rewrite (chinup_validate_sameFrame Math clk clk' this p p' Hframe).
      now rewrite IHchin.
    + intros this this' Halike. rewrite !run_cons. cbn [fst snd].
      change (validate plank) with PlankValidator.validate.
      destruct (plank_validate_alike Math clk clk' this this' p p'
                  Halike Hframe) as [Hresult Hnext].
      destruct (IHplank _ _ Hnext) as [Hresults Hfinal].
      split; [exact (f_equal2 cons Hresult Hresults) | exact Hfinal].
Qed.

Lemma validate_reads_clock_not_timestamp_witness :
  let stamped :=
    {| landmarks := plankLandmarks; worldLandmarks := plankLandmarks;
       confidence := 0.9; timestamp := 1700000000000 |} in
  let drifting : Clock := fun n => if (n <? 2)%nat then 10000%Z else 99%Z in
  snd (run plank exampleMath PlankValidator.init [(at_time 10000, goodPlank)])
  = snd (run plank exampleMath PlankValidator.init [(drifting, stamped)]).
Proof.
  cbv zeta.
  apply validate_reads_clock_not_timestamp.
  - repeat constructor.
  - split; [reflexivity | constructor].
Defined.

(** C7 as stated fails: the same two frames from the initial state, read
    with the clock 5000 ms apart and then 4999 ms apart, give a milestone
    and a repetition in the first run and none in the second. *)
Lemma clock_reading_changes_the_outcome :
  let poses := [goodPlank; goodPlank] in
  let first := combine [at_time 10000; at_time 15000] poses in
  let second := combine [at_time 10000; at_time 14999] poses in
  map snd first = map snd second
  /\ map completedRep (snd (run plank exampleMath PlankValidator.init first))
     = [false; true]
  /\ map completedRep (snd (run plank exampleMath PlankValidator.init second))
     = [false; false]
  /\ PlankValidator.getRepCount
       (fst (run plank exampleMath PlankValidator.init first)) = 1%Z
  /\ PlankValidator.getRepCount
       (fst (run plank exampleMath PlankValidator.init second)) = 0%Z.
Proof. vm_compute. repeat split. Qed.

(** ** The repetition count *)

Lemma chinup_validateForm_unfold clk this l r b c :
  let valid :=
    ExerciseValidator.calculateFormScore
      (ChinUpValidator.formCriteria l r b) >? 0.6 in
  let counted :=
    ChinUpValidator.countRepetition clk this ((l + r) / 2) c valid in
  fst (ChinUpValidator.validateForm clk this l r b c)
  = {| ChinUpValidator.super :=
         fst (ExerciseValidator.addToValidationHistory valid
                (ChinUpValidator.super (fst (fst counted))));
       ChinUpValidator.isInDownPosition :=
         ChinUpValidator.isInDownPosition (fst (fst counted));
       ChinUpValidator.isInUpPosition :=
         ChinUpValidator.isInUpPosition (fst (fst counted)) |}
  /\ completedRep (snd (ChinUpValidator.validateForm clk this l r b c))
     = snd (fst counted).
Proof.
  cbv zeta. unfold ChinUpValidator.validateForm.
  destruct (ChinUpValidator.countRepetition _ _ _ _ _)
    as [[this' completed] pushed].
  cbn. auto.
Qed.

Lemma chinup_countRepetition_repCount clk this avg chin valid :
  let counted := ChinUpValidator.countRepetition clk this avg chin valid in
  ChinUpValidator.getRepCount (fst (fst counted))
  = (ChinUpValidator.getRepCount this
     + if snd (fst counted) then 1 else 0)%Z.
Proof.
  cbv zeta. unfold ChinUpValidator.countRepetition,
    ChinUpValidator.getRepCount, ExerciseValidator.getRepCount.
  rewrite hasEnoughTimePassed_spec.
  destruct (_ && _ && _); [cbn; lia |].
  destruct (_ && _ && _ && valid); [cbn; lia |].
  destruct (_ && _ && _ && valid); [| cbn; lia].
  destruct (_ >=? _)%Z; cbn; lia.
Qed.

(** One call of [validate] adds one to the count when it reports a
    repetition, and leaves the count alone when it does not. *)
Lemma pushup_validate_repCount Math clk this p :
  PushUpValidator.getRepCount (fst (PushUpValidator.validate Math clk this p))
  = (PushUpValidator.getRepCount this
     + if completedRep (snd (PushUpValidator.validate Math clk this p))
       then 1 else 0)%Z.
Proof.
  destruct (pushup_validate_cases Math clk this p)
    as [-> | [-> | (l & r & a & ->)]]; cbn [fst snd rejected completedRep];
    try lia.
  destruct (pushup_validateForm_repCount clk this l r a)
    as [[-> ->] | (-> & -> & _)]; lia.
Qed.

Lemma chinup_validate_repCount Math clk this p :
  ChinUpValidator.getRepCount (fst (ChinUpValidator.validate Math clk this p))
  = (ChinUpValidator.getRepCount this
     + if completedRep (snd (ChinUpValidator.validate Math clk this p))
       then 1 else 0)%Z.
Proof.
  destruct (chinup_validate_cases Math clk this p)
    as [-> | [-> | (l & r & b & c & ->)]]; cbn [fst snd rejected completedRep];
    try lia.
  destruct (chinup_validateForm_unfold clk this l r b c) as (-> & ->).
  apply chinup_countRepetition_repCount.
Qed.

Section Counting.

Variable V : Validator.
Variable Math : JSMath.

Hypothesis initial_count : getRepCount V (initial V) = 0%Z.
Hypothesis reset_count : forall this, getRepCount V (reset V this) = 0%Z.
Hypothesis validate_count : forall clk this p,
  getRepCount V (fst (validate V Math clk this p))
  = (getRepCount V this
     + if completedRep (snd (validate V Math clk this p)) then 1 else 0)%Z.

Lemma validate_count_le clk this p :
  (getRepCount V this
   <= getRepCount V (fst (validate V Math clk this p)))%Z.
Proof. rewrite validate_count. destruct (completedRep _); lia. Qed.

Lemma run_count_le frames : forall this,
  (getRepCount V this <= getRepCount V (fst (run V Math this frames)))%Z.
Proof.
  induction frames as [| [clk p] frames IH]; intros this.
  - cbn. lia.
  - rewrite run_cons. cbn [fst].
    pose proof (validate_count_le clk this p).
    specialize (IH (fst (validate V Math clk this p))). lia.
Qed.

Lemma session_count_nonneg calls : forall this,
  (0 <= getRepCount V this)%Z ->
  (0 <= getRepCount V (session V Math this calls))%Z.
Proof.
  unfold session.
  induction calls as [| call calls IH]; intros this Hpos; [exact Hpos |].
  cbn [fold_left]. apply IH. destruct call as [clk p |]; cbn [perform].
  - pose proof (validate_count_le clk this p). lia.
  - rewrite reset_count. lia.
Qed.

Lemma perform_lowers_only_by_reset this call :
  (getRepCount V (perform V Math this call) < getRepCount V this)%Z ->
  call = Reset.
Proof.
  destruct call as [clk p |]; cbn [perform]; [| reflexivity].
  pose proof (validate_count_le clk this p). lia.
Qed.

End Counting.

(** C9: for the three validators, the count starts at 0 and is 0 after
    [reset]; a call of [validate] never lowers it, and neither does a run
    of calls; it is never negative in a session from the initial state,
    whatever the calls; and a call that lowers it is a [reset]. *)
Theorem repCount_monotone V Math :
  In V validators ->
  getRepCount V (initial V) = 0%Z
  /\ (forall this, getRepCount V (reset V this) = 0%Z)
  /\ (forall clk this p,
        (getRepCount V this
         <= getRepCount V (fst (validate V Math clk this p)))%Z)
  /\ (forall this frames,
        (getRepCount V this <= getRepCount V (fst (run V Math this frames)))%Z)
  /\ (forall calls,
        (0 <= getRepCount V (session V Math (initial V) calls))%Z)
  /\ (forall this call,
        (getRepCount V (perform V Math this call) < getRepCount V this)%Z ->
        call = Reset).
Proof.
  intros Hin.
  assert (Hcount : getRepCount V (initial V) = 0%Z
                   /\ (forall this, getRepCount V (reset V this) = 0%Z)
                   /\ (forall clk this p,
                         getRepCount V (fst (validate V Math clk this p))
                         = (getRepCount V this
                            + if completedRep
                                   (snd (validate V Math clk this p))
                              then 1 else 0)%Z)).
  { destruct Hin as [<- | [<- | [<- | []]]];
      (split; [reflexivity | split; [reflexivity |]]); intros clk this p.
    - apply pushup_validate_repCount.
    - apply chinup_validate_repCount.
    - apply plank_validate_milestone. }
  destruct Hcount as (Hinitial & Hreset & Hvalidate).
  split; [exact Hinitial |]. split; [exact Hreset |].
  split; [intros; now apply validate_count_le |].
  split; [intros; now apply run_count_le |].
  split.
  - intros calls. apply session_count_nonneg; auto.
    rewrite Hinitial. lia.
  - intros this call. now apply perform_lowers_only_by_reset.
Qed.

Lemma repCount_monotone_witness :
  (0 <= PlankValidator.getRepCount
          (session plank exampleMath PlankValidator.init
             [ Validate (at_time 10000) goodPlank;
               Validate (at_time 15000) goodPlank;
               Reset;
               Validate (at_time 20000) goodPlank ]))%Z.
Proof.
  apply (repCount_monotone plank exampleMath).
  right; right; left; reflexivity.
Defined.

(** * Further properties of the validators *)

(** ** Scores stay between 0 and 1 *)

Lemma filter_length_le {A : Type} (f : A -> bool) (l : list A) :
  (List.length (filter f l) <= List.length l)%nat.
Proof.
  induction l as [| a l IH]; cbn; [lia |]. destruct (f a); cbn; lia.
Qed.

Lemma calculateFormScore_range (criteria : list bool) :
  0 <= ExerciseValidator.calculateFormScore criteria <= 1.
Proof.
  unfold ExerciseValidator.calculateFormScore.
  destruct criteria as [| c criteria]; [cbn; split; discriminate |].
  cbn [List.length Nat.eqb].
  set (valid := List.length (filter (fun c => c) (c :: criteria))).
  set (all := S (List.length criteria)).
  assert (Hle : (valid <= all)%nat)
    by apply (filter_length_le (fun c => c) (c :: criteria)).
  assert (Hpos : 0 < inject_Z (Z.of_nat all)).
  { change 0 with (inject_Z 0). rewrite <- Zlt_Qlt. subst all. lia. }
  split.
  - apply Qle_shift_div_l; [exact Hpos |].
    rewrite Qmult_0_l. change 0 with (inject_Z 0). rewrite <- Zle_Qle. lia.
  - apply Qle_shift_div_r; [exact Hpos |].
    rewrite Qmult_1_l. rewrite <- Zle_Qle. lia.
Qed.

Lemma chinup_validateForm_formScore clk this l r b c :
  formScore (snd (ChinUpValidator.validateForm clk this l r b c))
  = ExerciseValidator.calculateFormScore (ChinUpValidator.formCriteria l r b).
Proof.
  unfold ChinUpValidator.validateForm.
  destruct (ChinUpValidator.countRepetition _ _ _ _ _)
    as [[this' completed] pushed].
  reflexivity.
Qed.

Lemma pushup_validate_formScore_range Math clk this p :
  0 <= formScore (snd (PushUpValidator.validate Math clk this p)) <= 1.
Proof.
  destruct (pushup_validate_cases Math clk this p)
    as [-> | [-> | (l & r & a & ->)]];
    [cbn; split; discriminate .. |].
  destruct (pushup_validateForm_unfold clk this l r a) as (_ & _ & ->).
  apply calculateFormScore_range.
Qed.

Lemma chinup_validate_formScore_range Math clk this p :
  0 <= formScore (snd (ChinUpValidator.validate Math clk this p)) <= 1.
Proof.
  destruct (chinup_validate_cases Math clk this p)
    as [-> | [-> | (l & r & b & c & ->)]];
    [cbn; split; discriminate .. |].
  rewrite chinup_validateForm_formScore. apply calculateFormScore_range.
Qed.

Lemma plank_validate_formScore_range Math clk this p :
  0 <= formScore (snd (PlankValidator.validate Math clk this p)) <= 1.
Proof.
  destruct (plank_validate_cases Math clk this p)
    as [-> | [-> | (a & e & h & s & ->)]];
    [cbn; split; discriminate .. |].
  rewrite plank_validateForm_formScore. apply calculateFormScore_range.
Qed.

(** X1: whatever the frame and the state, the form score a validator
    returns lies between 0 and 1. *)
Theorem validate_formScore_range V Math clk this p :
  In V validators ->
  0 <= formScore (snd (validate V Math clk this p)) <= 1.
Proof.
  intros [<- | [<- | [<- | []]]].
  - exact (pushup_validate_formScore_range Math clk this p).
  - exact (chinup_validate_formScore_range Math clk this p).
  - exact (plank_validate_formScore_range Math clk this p).
Qed.

Lemma validate_formScore_range_witness :
  0 <= formScore
         (snd (validate plank exampleMath (at_time 10000)
                 PlankValidator.init goodPlank)) <= 1.
Proof.
  apply validate_formScore_range. right; right; left; reflexivity.
Defined.

(** ** The smoothing of the verdict *)

Lemma addToValidationHistory_votes (b : bool) (this : ExerciseValidator.t) :
  let this' := fst (ExerciseValidator.addToValidationHistory b this) in
  (votes (ExerciseValidator.validationHistory this')
   <= votes (ExerciseValidator.validationHistory this)
      + if b then 1 else 0)%nat
  /\ (snd (ExerciseValidator.addToValidationHistory b this) = true ->
      (3 <= votes (ExerciseValidator.validationHistory this'))%nat).
Proof.
  cbv zeta. unfold ExerciseValidator.addToValidationHistory, votes.
  cbn [fst snd ExerciseValidator.set_validationHistory
       ExerciseValidator.validationHistory].
  rewrite vote_threshold.
  split; [| intros Hvote; apply Z.geb_le in Hvote; lia].
  assert (Hpushed :
    List.length (filter (fun v => v)
                   (ExerciseValidator.validationHistory this ++ [b]))
    = (List.length (filter (fun v => v)
                      (ExerciseValidator.validationHistory this))
       + if b then 1 else 0)%nat).
  { rewrite filter_app, length_app. now destruct b. }
  destruct (_ <? _)%nat; [| lia].
  destruct (ExerciseValidator.validationHistory this ++ [b]) as [| v pushed];
    [cbn in *; lia |].
  cbn [tl]. cbn [filter] in Hpushed.
  destruct v; cbn [List.length] in Hpushed; lia.
Qed.

Section Smoothing.

Variable V : Validator.
Variable Math : JSMath.
Variable base : state V -> ExerciseValidator.t.

(** What a call of [validate] does to the history: nothing, with a verdict
    [false]; or one [addToValidationHistory] of the frame's validity, whose
    vote is the verdict. *)
Hypothesis validate_history : forall clk this p,
  let this' := fst (validate V Math clk this p) in
  let result := snd (validate V Math clk this p) in
  (ExerciseValidator.validationHistory (base this')
   = ExerciseValidator.validationHistory (base this)
   /\ isValid result = false)
  \/ (exists before,
        ExerciseValidator.validationHistory before
        = ExerciseValidator.validationHistory (base this)
        /\ base this'
           = fst (ExerciseValidator.addToValidationHistory
                    (validForm result) before)
        /\ isValid result
           = snd (ExerciseValidator.addToValidationHistory
                    (validForm result) before)).

Lemma run_votes frames : forall this pre result post,
  snd (run V Math this frames) = pre ++ result :: post ->
  isValid result = true ->
  (3 <= votes (ExerciseValidator.validationHistory (base this))
        + validForms (pre ++ [result]))%nat.
Proof.
  induction frames as [| [clk p] frames IH]; intros this pre result post.
  - cbn. intros Hnil. now destruct pre.
  - rewrite run_cons. cbn [snd]. intros Hresults Hvalid.
    pose proof (validate_history clk this p) as Hstep. cbv zeta in Hstep.
    set (this' := fst (validate V Math clk this p)) in *.
    set (first := snd (validate V Math clk this p)) in *.
    assert (Hvotes : (votes (ExerciseValidator.validationHistory (base this'))
                      <= votes (ExerciseValidator.validationHistory (base this))
                         + if validForm first then 1 else 0)%nat).
    { destruct Hstep as [[-> _] | (before & Hbefore & -> & _)]; [lia |].
      rewrite <- Hbefore. apply addToValidationHistory_votes. }
    destruct pre as [| first' pre]; cbn [app] in Hresults;
      injection Hresults as Hfirst Hrest.
    + subst result. unfold validForms. cbn [app filter].
      destruct Hstep as [[_ Hquiet] | (before & Hbefore & Hbase & Hvote)];
        [congruence |].
      rewrite Hvalid in Hvote. symmetry in Hvote.
      apply addToValidationHistory_votes in Hvote.
      rewrite <- Hbase in Hvote.
      destruct (validForm first); cbn [List.length]; lia.
    + subst first'.
      specialize (IH this' pre result post Hrest Hvalid).
      unfold validForms in *. cbn [app filter].
      destruct (validForm first); cbn [List.length]; lia.
Qed.

Lemma run_history_bounded frames : forall this,
  (List.length (ExerciseValidator.validationHistory (base this))
   <= ExerciseValidator.historySize)%nat ->
  (List.length (ExerciseValidator.validationHistory
                  (base (fst (run V Math this frames))))
   <= ExerciseValidator.historySize)%nat.
Proof.
  induction frames as [| [clk p] frames IH]; intros this Hbound.
  - exact Hbound.
  - rewrite run_cons. cbn [fst]. apply IH.
    destruct (validate_history clk this p)
      as [[-> _] | (before & Hbefore & -> & _)]; [exact Hbound |].
    apply addToValidationHistory_bounded. now rewrite Hbefore.
Qed.

Hypothesis reset_history : forall this,
  ExerciseValidator.validationHistory (base (reset V this)) = [].

Lemma session_history_bounded calls : forall this,
  (List.length (ExerciseValidator.validationHistory (base this))
   <= ExerciseValidator.historySize)%nat ->
  (List.length (ExerciseValidator.validationHistory
                  (base (session V Math this calls)))
   <= ExerciseValidator.historySize)%nat.
Proof.
  unfold session.
  induction calls as [| call calls IH]; intros this Hbound; [exact Hbound |].
  cbn [fold_left]. apply IH. destruct call as [clk p |]; cbn [perform].
  - pose proof (run_history_bounded [(clk, p)] this Hbound) as Hrun.
    rewrite run_cons in Hrun. exact Hrun.
  - rewrite reset_history. cbn. lia.
Qed.

End Smoothing.

Lemma pushup_countRepetition_history clk this avg valid :
  ExerciseValidator.validationHistory
    (PushUpValidator.super
       (fst (fst (PushUpValidator.countRepetition clk this avg valid))))
  = ExerciseValidator.validationHistory (PushUpValidator.super this).
Proof.
  unfold PushUpValidator.countRepetition,
    ExerciseValidator.hasEnoughTimePassed.
  cbv zeta.
  repeat match goal with
         | |- context [if ?c then _ else _] => destruct c
         end; reflexivity.
Qed.

Lemma chinup_countRepetition_history clk this avg chin valid :
  ExerciseValidator.validationHistory
    (ChinUpValidator.super
       (fst (fst (ChinUpValidator.countRepetition clk this avg chin valid))))
  = ExerciseValidator.validationHistory (ChinUpValidator.super this).
Proof.
  unfold ChinUpValidator.countRepetition,
    ExerciseValidator.hasEnoughTimePassed.
  cbv zeta.
  repeat match goal with
         | |- context [if ?c then _ else _] => destruct c
         end; reflexivity.
Qed.

Lemma plank_trackPlank_history clk this valid :
  ExerciseValidator.validationHistory
    (PlankValidator.super
       (fst (fst (PlankValidator.trackPlank clk this valid))))
  = ExerciseValidator.validationHistory (PlankValidator.super this).
Proof.
  unfold PlankValidator.trackPlank, PlankValidator.handleInvalidPose.
  cbv zeta.
  repeat match goal with
         | |- context [if ?c then _ else _] => destruct c
         | |- context [match ?o with Some _ => _ | None => _ end] =>
             destruct o
         end; reflexivity.
Qed.

Lemma pushup_validate_history Math clk this p :
  let this' := fst (PushUpValidator.validate Math clk this p) in
  let result := snd (PushUpValidator.validate Math clk this p) in
  (ExerciseValidator.validationHistory (PushUpValidator.super this')
   = ExerciseValidator.validationHistory (PushUpValidator.super this)
   /\ isValid result = false)
  \/ (exists before,
        ExerciseValidator.validationHistory before
        = ExerciseValidator.validationHistory (PushUpValidator.super this)
        /\ PushUpValidator.super this'
           = fst (ExerciseValidator.addToValidationHistory
                    (validForm result) before)
        /\ isValid result
           = snd (ExerciseValidator.addToValidationHistory
                    (validForm result) before)).
Proof.
  cbv zeta.
  destruct (pushup_validate_cases Math clk this p)
    as [-> | [-> | (l & r & a & ->)]]; [now left | now left |].
  right.
  exists (PushUpValidator.super
            (fst (fst (PushUpValidator.countRepetition clk this ((l + r) / 2)
                         (ExerciseValidator.calculateFormScore
                            (PushUpValidator.formCriteria l r a) >? 0.6))))).
  split; [apply pushup_countRepetition_history |].
  unfold PushUpValidator.validateForm, validForm.
  destruct (PushUpValidator.countRepetition _ _ _ _)
    as [[counted completed] pushed].
  cbn [fst snd].
  destruct (ExerciseValidator.addToValidationHistory _ _) as [base stable] eqn:E.
  cbn [fst snd PushUpValidator.super isValid formScore].
  now split.
Qed.

Lemma chinup_validate_history Math clk this p :
  let this' := fst (ChinUpValidator.validate Math clk this p) in
  let result := snd (ChinUpValidator.validate Math clk this p) in
  (ExerciseValidator.validationHistory (ChinUpValidator.super this')
   = ExerciseValidator.validationHistory (ChinUpValidator.super this)
   /\ isValid result = false)
  \/ (exists before,
        ExerciseValidator.validationHistory before
        = ExerciseValidator.validationHistory (ChinUpValidator.super this)
        /\ ChinUpValidator.super this'
           = fst (ExerciseValidator.addToValidationHistory
                    (validForm result) before)
        /\ isValid result
           = snd (ExerciseValidator.addToValidationHistory
                    (validForm result) before)).
Proof.
  cbv zeta.
  destruct (chinup_validate_cases Math clk this p)
    as [-> | [-> | (l & r & b & c & ->)]]; [now left | now left |].
  right.
  exists (ChinUpValidator.super
            (fst (fst (ChinUpValidator.countRepetition clk this
                         ((l + r) / 2) c
                         (ExerciseValidator.calculateFormScore
                            (ChinUpValidator.formCriteria l r b) >? 0.6))))).
  split; [apply chinup_countRepetition_history |].
  unfold ChinUpValidator.validateForm, validForm.
  destruct (ChinUpValidator.countRepetition _ _ _ _ _)
    as [[counted completed] pushed].
  cbn [fst snd].
  destruct (ExerciseValidator.addToValidationHistory _ _) as [base stable] eqn:E.
  cbn [fst snd ChinUpValidator.super isValid formScore].
  now split.
Qed.

Lemma plank_validate_history Math clk this p :
  let this' := fst (PlankValidator.validate Math clk this p) in
  let result := snd (PlankValidator.validate Math clk this p) in
  (ExerciseValidator.validationHistory (PlankValidator.super this')
   = ExerciseValidator.validationHistory (PlankValidator.super this)
   /\ isValid result = false)
  \/ (exists before,
        ExerciseValidator.validationHistory before
        = ExerciseValidator.validationHistory (PlankValidator.super this)
        /\ PlankValidator.super this'
           = fst (ExerciseValidator.addToValidationHistory
                    (validForm result) before)
        /\ isValid result
           = snd (ExerciseValidator.addToValidationHistory
                    (validForm result) before)).
Proof.
  cbv zeta.
  pose proof (plank_handleInvalidPose_fields (clk 0%nat)
                (PlankValidator.addToRecentPoses p this)) as Hfields.
  cbv zeta in Hfields. destruct Hfields as (Hsuper & _).
  destruct (plank_validate_cases Math clk this p)
    as [-> | [-> | (a & e & h & s & ->)]];
    [left; cbn [fst snd]; now rewrite Hsuper
    | left; cbn [fst snd]; now rewrite Hsuper |].
  right.
  set (held := PlankValidator.addToRecentPoses p this).
  exists (PlankValidator.super
            (fst (fst (PlankValidator.trackPlank clk held
                         (ExerciseValidator.calculateFormScore
                            (PlankValidator.formCriteria a e h s) >? 0.6))))).
  split; [now rewrite plank_trackPlank_history |].
  unfold PlankValidator.validateForm, validForm.
  destruct (PlankValidator.trackPlank _ _ _)
    as [[tracked completed] pushed].
  cbn [fst snd].
  destruct (ExerciseValidator.addToValidationHistory _ _) as [base stable] eqn:E.
  cbn [fst snd PlankValidator.super PlankValidator.set_super
       isValid formScore].
  now split.
Qed.

(** X2: in a session that starts with a fresh validator, a frame is
    reported valid ([isValid]) only once three frames of the session, the
    frame itself included, had a form score above 0.6; so the first two
    frames are never reported valid, whatever they show. *)
Theorem isValid_needs_three_valid_frames V Math frames pre result post :
  In V validators ->
  snd (run V Math (initial V) frames) = pre ++ result :: post ->
  isValid result = true ->
  (3 <= validForms (pre ++ [result]))%nat /\ (2 <= List.length pre)%nat.
Proof.
  intros HV Hresults Hvalid.
  assert (Hthree : (3 <= validForms (pre ++ [result]))%nat).
  { destruct HV as [<- | [<- | [<- | []]]].
    - exact (run_votes pushUp Math PushUpValidator.super
               (pushup_validate_history Math) frames _ _ _ _ Hresults Hvalid).
    - exact (run_votes chinUp Math ChinUpValidator.super
               (chinup_validate_history Math) frames _ _ _ _ Hresults Hvalid).
    - exact (run_votes plank Math PlankValidator.super
               (plank_validate_history Math) frames _ _ _ _ Hresults Hvalid). }
  split; [exact Hthree |].
  unfold validForms in Hthree.
  pose proof (filter_length_le validForm (pre ++ [result])) as Hle.
  rewrite length_app in Hle. cbn [List.length] in Hle. lia.
Qed.

Lemma isValid_needs_three_valid_frames_witness :
  let frames :=
    [ (at_time 0, goodPlank); (at_time 100, goodPlank);
      (at_time 200, goodPlank) ] in
  let results := snd (run plank exampleMath PlankValidator.init frames) in
  (3 <= validForms (firstn 2 results ++ [nth 2 results (rejected unclear)]))%nat
  /\ (2 <= List.length (firstn 2 results))%nat.
Proof.
  cbv zeta.
  apply (isValid_needs_three_valid_frames plank exampleMath
           [ (at_time 0, goodPlank); (at_time 100, goodPlank);
             (at_time 200, goodPlank) ] _ _ []).
  - right; right; left; reflexivity.
  - vm_compute. reflexivity.
  - vm_compute. reflexivity.
Defined.

(** X3: the validation history is a window of the last five frames: in any
    session from the initial state, resets included, it never holds more
    than five entries, for each of the three validators. *)
Theorem validationHistory_window Math calls :
  (List.length
     (ExerciseValidator.validationHistory
        (PushUpValidator.super
           (session pushUp Math PushUpValidator.init calls))) <= 5)%nat
  /\ (List.length
        (ExerciseValidator.validationHistory
           (ChinUpValidator.super
              (session chinUp Math ChinUpValidator.init calls))) <= 5)%nat
  /\ (List.length
        (ExerciseValidator.validationHistory
           (PlankValidator.super
              (session plank Math PlankValidator.init calls))) <= 5)%nat.
Proof.
  split; [| split].
  - apply (session_history_bounded pushUp Math PushUpValidator.super
             (pushup_validate_history Math)); [reflexivity | cbn; lia].
  - apply (session_history_bounded chinUp Math ChinUpValidator.super
             (chinup_validate_history Math)); [reflexivity | cbn; lia].
  - apply (session_history_bounded plank Math PlankValidator.super
             (plank_validate_history Math)); [reflexivity | cbn; lia].
Qed.

(** ** Landmarks a validator does not see *)

Ltac unreliable_landmark H :=
  cbv zeta; cbn [forallb]; rewrite H, ?andb_false_r; reflexivity.

(** X4: a frame with enough confidence in which one of the landmarks a
    validator asks for is missing from the array, has no visibility or has a
    visibility below 0.5 is turned away with a form score of 0: by the
    push-up validator for the shoulders, elbows, wrists and hips, by the
    chin-up validator for these and the nose, both leaving their state as it
    was; by the plank validator for these (the nose apart), the knees and the
    ankles, with its count unchanged. *)
Theorem unreliable_landmark_rejected Math clk p i :
  (confidence p <? 0.6) = false ->
  ExerciseValidator.isLandmarkReliable (ExerciseValidator.getLandmark p i)
  = false ->
  let upperBody :=
    [ POSE_LANDMARKS.LEFT_SHOULDER; POSE_LANDMARKS.RIGHT_SHOULDER;
      POSE_LANDMARKS.LEFT_ELBOW; POSE_LANDMARKS.RIGHT_ELBOW;
      POSE_LANDMARKS.LEFT_WRIST; POSE_LANDMARKS.RIGHT_WRIST;
      POSE_LANDMARKS.LEFT_HIP; POSE_LANDMARKS.RIGHT_HIP ] in
  let legs :=
    [ POSE_LANDMARKS.LEFT_KNEE; POSE_LANDMARKS.RIGHT_KNEE;
      POSE_LANDMARKS.LEFT_ANKLE; POSE_LANDMARKS.RIGHT_ANKLE ] in
  (In i upperBody ->
   forall this,
     PushUpValidator.validate Math clk this p
     = (this, rejected "Please ensure your upper body is fully visible"))
  /\ (In i (POSE_LANDMARKS.NOSE :: upperBody) ->
      forall this,
        ChinUpValidator.validate Math clk this p
        = (this, rejected "Please ensure your upper body is fully visible"))
  /\ (In i (upperBody ++ legs) ->
      forall this,
        snd (PlankValidator.validate Math clk this p)
        = rejected "Please ensure your full body is visible"
        /\ PlankValidator.getRepCount
             (fst (PlankValidator.validate Math clk this p))
           = PlankValidator.getRepCount this).
Proof.
  intros Hconfidence Hunreliable. cbv zeta.
  split; [| split]; intros Hin this.
  - unfold PushUpValidator.validate. rewrite Hconfidence.
    cbn [In] in Hin.
    repeat (destruct Hin as [<- | Hin];
            [unreliable_landmark Hunreliable |]).
    destruct Hin.
  - unfold ChinUpValidator.validate. rewrite Hconfidence.
    cbn [In] in Hin.
    repeat (destruct Hin as [<- | Hin];
            [unreliable_landmark Hunreliable |]).
    destruct Hin.
  - assert (Hvalidate :
      PlankValidator.validate Math clk this p
      = (PlankValidator.handleInvalidPose (clk 0%nat)
           (PlankValidator.addToRecentPoses p this),
         rejected "Please ensure your full body is visible")).
    { unfold PlankValidator.validate. rewrite Hconfidence.
      cbn [In app] in Hin.
      repeat (destruct Hin as [<- | Hin];
              [unreliable_landmark Hunreliable |]).
      destruct Hin. }
    rewrite Hvalidate. cbn [fst snd]. split; [reflexivity |].
    unfold PlankValidator.getRepCount.
    pose proof (plank_handleInvalidPose_fields (clk 0%nat)
                  (PlankValidator.addToRecentPoses p this)) as Hfields.
    cbv zeta in Hfields. destruct Hfields as (-> & _). reflexivity.
Qed.

Lemma unreliable_landmark_rejected_witness :
  PushUpValidator.validate exampleMath (at_time 0) PushUpValidator.init
    {| landmarks := []; worldLandmarks := [];
       confidence := 0.9; timestamp := 0 |}
  = (PushUpValidator.init,
     rejected "Please ensure your upper body is fully visible").
Proof.
  refine (proj1 (unreliable_landmark_rejected exampleMath (at_time 0)
                   {| landmarks := []; worldLandmarks := [];
                      confidence := 0.9; timestamp := 0 |}
                   POSE_LANDMARKS.LEFT_SHOULDER _ _) _ PushUpValidator.init).
  - reflexivity.
  - reflexivity.
  - left. reflexivity.
Defined.

(** ** What the scores tolerate *)

Lemma Qltb_iff (a b c d : Q) : (a < b <-> c < d) -> (a <? b) = (c <? d).
Proof.
  intros H. destruct (Qltb_reflect a b), (Qltb_reflect c d);
    tauto || reflexivity.
Qed.

Lemma Qmax_0_above (t u : Q) : 0 <= t -> (t < Qmax 0 u <-> t < u).
Proof.
  intros Ht. rewrite Q.max_lt_iff. split; [intros [H | H] | right]; auto.
  exfalso. apply (Qlt_irrefl t). now apply Qlt_le_trans with 0.
Qed.

Lemma Qmin_1_above (t u : Q) : t < 1 -> (t < Qmin 1 u <-> t < u).
Proof. intros Ht. rewrite Q.min_glb_lt_iff. tauto. Qed.

(** A score [min(1, max(0, 1 - d / t))] is above 0.7 when the difference
    [d] is below three tenths of the tolerance [t]. *)
Lemma score_tolerance (d t : Q) :
  0 < t ->
  (Qmin 1 (Qmax 0 (1 - d / t)) >? 0.7) = (d <? 0.3 * t).
Proof.
  intros Ht. apply Qltb_iff.
  rewrite Qmin_1_above by reflexivity.
  rewrite Qmax_0_above by discriminate.
  split; intros H.
  - apply Qmult_lt_r with (z := / t); [now apply Qinv_lt_0_compat |].
    setoid_replace (0.3 * t * / t) with 0.3 by (field; lra).
    change (d * / t) with (d / t). lra.
  - assert (Hdiv : d / t < 0.3).
    { apply Qmult_lt_r with (z := t); [exact Ht |].
      setoid_replace (d / t * t) with d by (field; lra). exact H. }
    lra.
Qed.

Lemma checkArmSymmetry_tolerance (l r : Q) :
  (PushUpValidator.checkArmSymmetry l r >? 0.7) = (Qabs (l - r) <? 9)
  /\ (ChinUpValidator.checkArmSymmetry l r >? 0.7) = (Qabs (l - r) <? 9).
Proof.
  unfold PushUpValidator.checkArmSymmetry, ChinUpValidator.checkArmSymmetry.
  cbv zeta. rewrite score_tolerance by reflexivity.
  split; apply Qltb_iff; setoid_replace (0.3 * 30) with 9 by reflexivity;
    tauto.
Qed.

(** X5: a frame that passed the confidence and the landmark checks of the
    push-up or the chin-up validator gets a form score above 0.6 exactly
    when two of three hold: the alignment (or body position) score is above
    0.7; the two arm angles differ by less than 9 degrees; the average arm
    angle is strictly between 30 and 180 degrees. *)
Theorem valid_form_two_of_three clk l r score :
  let aligned := score >? 0.7 in
  let symmetric := Qabs (l - r) <? 9 in
  let inRange := ((l + r) / 2 >? 30) && ((l + r) / 2 <? 180) in
  let twoOfThree :=
    aligned && symmetric || aligned && inRange || symmetric && inRange in
  (forall this,
     validForm (snd (PushUpValidator.validateForm clk this l r score))
     = twoOfThree)
  /\ (forall this chin,
        validForm (snd (ChinUpValidator.validateForm clk this l r score chin))
        = twoOfThree).
Proof.
  cbv zeta. destruct (checkArmSymmetry_tolerance l r) as [Hpush Hchin].
  split; intros this; [| intros chin]; unfold validForm.
  - destruct (pushup_validateForm_unfold clk this l r score) as (_ & _ & ->).
    unfold PushUpValidator.formCriteria. cbv zeta.
    now rewrite calculateFormScore_three, Hpush.
  - rewrite chinup_validateForm_formScore.
    unfold ChinUpValidator.formCriteria. cbv zeta.
    now rewrite calculateFormScore_three, Hchin.
Qed.

(** X6: the position scores are above 0.7 within these tolerances, in
    image coordinates: for the push-up, the centre of the shoulders and the
    centre of the hips less than 0.03 apart in height; for the chin-up, the
    same centres less than 0.03 apart sideways; for the plank, the sideways
    offsets of the two elbows from their shoulders adding up to less than
    0.06. *)
Theorem position_score_tolerance
    (leftShoulder rightShoulder leftHip rightHip
     leftElbow rightElbow leftWrist rightWrist : Landmark3D) :
  let shoulderCenter := center leftShoulder rightShoulder in
  let hipCenter := center leftHip rightHip in
  (PushUpValidator.checkBodyAlignment leftShoulder rightShoulder
     leftHip rightHip >? 0.7)
  = (Qabs (y shoulderCenter - y hipCenter) <? 0.03)
  /\ (ChinUpValidator.checkBodyPosition leftShoulder rightShoulder
        leftHip rightHip >? 0.7)
     = (Qabs (x shoulderCenter - x hipCenter) <? 0.03)
  /\ (PlankValidator.checkElbowPosition leftShoulder leftElbow leftWrist
        rightShoulder rightElbow rightWrist >? 0.7)
     = (Qabs (x leftElbow - x leftShoulder)
        + Qabs (x rightElbow - x rightShoulder) <? 0.06).
Proof.
  cbv zeta. split; [| split].
  - unfold PushUpValidator.checkBodyAlignment. cbv zeta.
    rewrite score_tolerance by reflexivity. now apply Qltb_iff.
  - unfold ChinUpValidator.checkBodyPosition. cbv zeta.
    rewrite score_tolerance by reflexivity. now apply Qltb_iff.
  - unfold PlankValidator.checkElbowPosition. cbv zeta.
    set (dl := Qabs (x leftElbow - x leftShoulder)).
    set (dr := Qabs (x rightElbow - x rightShoulder)).
    assert (Hdl : 0 <= dl) by apply Qabs_nonneg.
    assert (Hdr : 0 <= dr) by apply Qabs_nonneg.
    assert (Hl : dl / 0.1 == 10 * dl) by (field; lra).
    assert (Hr : dr / 0.1 == 10 * dr) by (field; lra).
    assert (Hhalf : forall a, a / 2 == a * 0.5) by (intros a; field).
    apply Qltb_iff. rewrite Hhalf.
    destruct (Q.max_spec 0 (1 - dl / 0.1)) as [[Hcl ->] | [Hcl ->]];
      destruct (Q.max_spec 0 (1 - dr / 0.1)) as [[Hcr ->] | [Hcr ->]];
      rewrite ?Hl, ?Hr in *; split; intros H; lra.
Qed.

(** ** The count and the repetitions reported *)

Lemma validators_validate_repCount V Math clk this p :
  In V validators ->
  getRepCount V (fst (validate V Math clk this p))
  = (getRepCount V this
     + if completedRep (snd (validate V Math clk this p)) then 1 else 0)%Z.
Proof.
  intros [<- | [<- | [<- | []]]].
  - apply pushup_validate_repCount.
  - apply chinup_validate_repCount.
  - apply plank_validate_milestone.
Qed.

(** X7: over any run of frames, from any state, the count of a validator
    grows by exactly the number of results that report a repetition
    ([completedRep]). *)
Theorem repCount_counts_completedReps V Math frames : forall this,
  In V validators ->
  getRepCount V (fst (run V Math this frames))
  = (getRepCount V this
     + Z.of_nat (completedReps (snd (run V Math this frames))))%Z.
Proof.
  induction frames as [| [clk p] frames IH]; intros this HV.
  - cbn. lia.
  - rewrite run_cons. cbn [fst snd]. rewrite (IH _ HV).
    rewrite (validators_validate_repCount V Math clk this p HV).
    unfold completedReps. cbn [filter].
    destruct (completedRep _); cbn [List.length]; lia.
Qed.

Lemma repCount_counts_completedReps_witness :
  let frames := [(at_time 0, goodPlank); (at_time 30000, goodPlank)] in
  PlankValidator.getRepCount
    (fst (run plank exampleMath PlankValidator.init frames))
  = (0 + Z.of_nat (completedReps
                     (snd (run plank exampleMath PlankValidator.init
                             frames))))%Z.
Proof.
  apply (repCount_counts_completedReps plank exampleMath
           [(at_time 0, goodPlank); (at_time 30000, goodPlank)]
           PlankValidator.init).
  right; right; left; reflexivity.
Defined.

(** ** A second between two repetitions *)

Section Spacing.

Variable V : Validator.
Variable Math : JSMath.
Variable lastValidationTime : state V -> Z.

(** A call of [validate] that reports a repetition passed the gate of
    [hasEnoughTimePassed(1000)], which notes the time; a call that reports
    none leaves the time noted. *)
Hypothesis validate_gate : forall clk this p,
  let this' := fst (validate V Math clk this p) in
  if completedRep (snd (validate V Math clk this p))
  then lastValidationTime this' = clk 0%nat
       /\ (lastValidationTime this + 1000 <= clk 0%nat)%Z
  else lastValidationTime this' = lastValidationTime this.

Lemma run_gate frames : forall this i clk p result,
  nth_error frames i = Some (clk, p) ->
  nth_error (snd (run V Math this frames)) i = Some result ->
  completedRep result = true ->
  (lastValidationTime this + 1000 <= clk 0%nat)%Z.
Proof.
  induction frames as [| [clk0 p0] frames IH];
    intros this i clk p result Hframe Hresult Hrep;
    [now destruct i |].
  rewrite run_cons in Hresult. cbn [snd] in Hresult.
  pose proof (validate_gate clk0 this p0) as Hgate. cbv zeta in Hgate.
  destruct i as [| i]; cbn [nth_error] in Hframe, Hresult.
  - injection Hframe as -> ->. injection Hresult as Hresult.
    rewrite Hresult, Hrep in Hgate. apply Hgate.
  - specialize (IH _ _ _ _ _ Hframe Hresult Hrep).
    destruct (completedRep (snd (validate V Math clk0 this p0))); lia.
Qed.

Lemma run_spacing frames : forall this i j clk p result clk' p' result',
  (i < j)%nat ->
  nth_error frames i = Some (clk, p) ->
  nth_error (snd (run V Math this frames)) i = Some result ->
  completedRep result = true ->
  nth_error frames j = Some (clk', p') ->
  nth_error (snd (run V Math this frames)) j = Some result' ->
  completedRep result' = true ->
  (clk 0%nat + 1000 <= clk' 0%nat)%Z.
Proof.
  induction frames as [| [clk0 p0] frames IH];
    intros this i j clk p result clk' p' result'
           Hlt Hframe Hresult Hrep Hframe' Hresult' Hrep';
    [now destruct i |].
  rewrite run_cons in Hresult, Hresult'. cbn [snd] in Hresult, Hresult'.
  destruct j as [| j]; [lia |]. cbn [nth_error] in Hframe', Hresult'.
  destruct i as [| i]; cbn [nth_error] in Hframe, Hresult.
  - injection Hframe as -> ->. injection Hresult as Hresult.
    pose proof (validate_gate clk this p) as Hgate. cbv zeta in Hgate.
    rewrite Hresult, Hrep in Hgate. destruct Hgate as [<- _].
    exact (run_gate frames _ j clk' p' result' Hframe' Hresult' Hrep').
  - apply (IH (fst (validate V Math clk0 this p0))
             i j clk p result clk' p' result'); auto. lia.
Qed.

End Spacing.

Lemma pushup_validate_gate Math clk this p :
  let this' := fst (PushUpValidator.validate Math clk this p) in
  if completedRep (snd (PushUpValidator.validate Math clk this p))
  then ExerciseValidator.lastValidationTime (PushUpValidator.super this')
       = clk 0%nat
       /\ (ExerciseValidator.lastValidationTime (PushUpValidator.super this)
           + 1000 <= clk 0%nat)%Z
  else ExerciseValidator.lastValidationTime (PushUpValidator.super this')
       = ExerciseValidator.lastValidationTime (PushUpValidator.super this).
Proof.
  cbv zeta.
  destruct (pushup_validate_cases Math clk this p)
    as [-> | [-> | (l & r & a & ->)]]; [reflexivity | reflexivity |].
  destruct (pushup_validateForm_unfold clk this l r a) as (-> & -> & _).
  cbn [PushUpValidator.super ExerciseValidator.addToValidationHistory fst
       ExerciseValidator.set_validationHistory
       ExerciseValidator.lastValidationTime].
  unfold PushUpValidator.countRepetition. rewrite hasEnoughTimePassed_spec.
  cbv zeta.
  destruct (_ && _ && _); [reflexivity |].
  destruct (_ && _ && _ && _); [| reflexivity].
  destruct (Z.geb_spec
              (clk 0%nat - ExerciseValidator.lastValidationTime
                             (PushUpValidator.super this)) 1000);
    cbn; [split; [reflexivity | lia] | reflexivity].
Qed.

Lemma chinup_validate_gate Math clk this p :
  let this' := fst (ChinUpValidator.validate Math clk this p) in
  if completedRep (snd (ChinUpValidator.validate Math clk this p))
  then ExerciseValidator.lastValidationTime (ChinUpValidator.super this')
       = clk 0%nat
       /\ (ExerciseValidator.lastValidationTime (ChinUpValidator.super this)
           + 1000 <= clk 0%nat)%Z
  else ExerciseValidator.lastValidationTime (ChinUpValidator.super this')
       = ExerciseValidator.lastValidationTime (ChinUpValidator.super this).
Proof.
  cbv zeta.
  destruct (chinup_validate_cases Math clk this p)
    as [-> | [-> | (l & r & b & c & ->)]]; [reflexivity | reflexivity |].
  destruct (chinup_validateForm_unfold clk this l r b c) as (-> & ->).
  cbn [ChinUpValidator.super ExerciseValidator.addToValidationHistory fst
       ExerciseValidator.set_validationHistory
       ExerciseValidator.lastValidationTime].
  unfold ChinUpValidator.countRepetition. rewrite hasEnoughTimePassed_spec.
  cbv zeta.
  destruct (_ && _ && _); [reflexivity |].
  destruct (_ && _ && _ && _); [reflexivity |].
  destruct (_ && _ && _ && _); [| reflexivity].
  destruct (Z.geb_spec
              (clk 0%nat - ExerciseValidator.lastValidationTime
                             (ChinUpValidator.super this)) 1000);
    cbn; [split; [reflexivity | lia] | reflexivity].
Qed.

(** X8: in a run of the push-up or of the chin-up validator, from any
    state, two frames that each report a repetition were seen at least
    1000 ms apart on the clock the validator reads. *)
Theorem repetitions_a_second_apart V Math this frames
    i j clk p result clk' p' result' :
  V = pushUp \/ V = chinUp ->
  (i < j)%nat ->
  nth_error frames i = Some (clk, p) ->
  nth_error (snd (run V Math this frames)) i = Some result ->
  completedRep result = true ->
  nth_error frames j = Some (clk', p') ->
  nth_error (snd (run V Math this frames)) j = Some result' ->
  completedRep result' = true ->
  (clk 0%nat + 1000 <= clk' 0%nat)%Z.
Proof.
  intros [-> | ->].
  - exact (run_spacing pushUp Math
             (fun this => ExerciseValidator.lastValidationTime
                            (PushUpValidator.super this))
             (pushup_validate_gate Math) frames this
             i j clk p result clk' p' result').
  - exact (run_spacing chinUp Math
             (fun this => ExerciseValidator.lastValidationTime
                            (ChinUpValidator.super this))
             (chinup_validate_gate Math) frames this
             i j clk p result clk' p' result').
Qed.

Lemma repetitions_a_second_apart_witness :
  (at_time 2000 0%nat + 1000 <= at_time 3000 0%nat)%Z.
Proof.
  pose (frames := [ (at_time 1000, pushUpDown); (at_time 2000, pushUpUp);
                    (at_time 2100, pushUpDown); (at_time 3000, pushUpUp) ]).
  pose (results := snd (run pushUp exampleMath PushUpValidator.init frames)).
  apply (repetitions_a_second_apart pushUp exampleMath PushUpValidator.init
           frames 1 3
           (at_time 2000) pushUpUp (nth 1 results (rejected unclear))
           (at_time 3000) pushUpUp (nth 3 results (rejected unclear))).
  - left. reflexivity.
  - lia.
  - reflexivity.
  - vm_compute. reflexivity.
  - vm_compute. reflexivity.
  - reflexivity.
  - vm_compute. reflexivity.
  - vm_compute. reflexivity.
Defined.

(** ** A chin-up, frame by frame *)

(** The four ways through the block of the chin-up validator. *)
Lemma chinup_countRepetition_hang clk this avg chin valid :
  ChinUpValidator.minArmAngle < avg ->
  ChinUpValidator.isInUpPosition this = false ->
  let counted := ChinUpValidator.countRepetition clk this avg chin valid in
  ChinUpValidator.super (fst (fst counted)) = ChinUpValidator.super this
  /\ ChinUpValidator.isInDownPosition (fst (fst counted)) = true
  /\ ChinUpValidator.isInUpPosition (fst (fst counted)) = false
  /\ snd (fst counted) = false.
Proof.
  intros Havg Hup. cbv zeta. unfold ChinUpValidator.countRepetition.
  apply Qltb_lt in Havg. rewrite Havg, Hup. cbv zeta.
  assert (Hhigh : (avg <? ChinUpValidator.maxArmAngle) = false).
  { apply Qltb_ge. apply Qltb_lt in Havg.
    unfold ChinUpValidator.minArmAngle, ChinUpValidator.maxArmAngle in *.
    lra. }
  rewrite Hhigh.
  destruct (ChinUpValidator.isInDownPosition this) eqn:Hdown; cbn;
    rewrite ?Hdown; auto.
Qed.

Lemma chinup_countRepetition_top clk this avg chin :
  avg < ChinUpValidator.maxArmAngle ->
  0.7 < chin ->
  ChinUpValidator.isInDownPosition this = true ->
  ChinUpValidator.isInUpPosition this = false ->
  ChinUpValidator.countRepetition clk this avg chin true
  = ({| ChinUpValidator.super := ChinUpValidator.super this;
        ChinUpValidator.isInDownPosition := true;
        ChinUpValidator.isInUpPosition := true |},
     false, ["Great! Chin over the bar!"]).
Proof.
  intros Havg Hchin Hdown Hup. unfold ChinUpValidator.countRepetition.
  apply Qltb_lt in Hchin. rewrite Hdown, Hup, Hchin.
  rewrite (proj2 (Qltb_lt _ _) Havg). cbv zeta.
  now rewrite andb_false_r.
Qed.

Lemma chinup_countRepetition_back clk this avg chin :
  ChinUpValidator.minArmAngle < avg ->
  ChinUpValidator.isInDownPosition this = true ->
  ChinUpValidator.isInUpPosition this = true ->
  ChinUpValidator.countRepetition clk this avg chin true
  = if (clk 0%nat - ExerciseValidator.lastValidationTime
                      (ChinUpValidator.super this) >=? 1000)%Z
    then
      let count :=
        (ExerciseValidator.repCount (ChinUpValidator.super this) + 1)%Z in
      ({| ChinUpValidator.super :=
            ExerciseValidator.set_repCount count
              (ExerciseValidator.set_lastValidationTime (clk 0%nat)
                 (ChinUpValidator.super this));
          ChinUpValidator.isInDownPosition := true;
          ChinUpValidator.isInUpPosition := false |},
       true, [("Great chin-up! Count: " ++ show count)%string])
    else (this, false, []).
Proof.
  intros Havg Hdown Hup. unfold ChinUpValidator.countRepetition.
  apply Qltb_lt in Havg. rewrite Havg, Hdown, Hup.
  rewrite hasEnoughTimePassed_spec. cbv zeta. cbn [negb andb].
  rewrite !andb_false_r. cbn [andb].
  destruct (_ >=? _)%Z; [reflexivity |].
  destruct this as [base down up]. cbn in *. now subst.
Qed.

(** The three frames of a chin-up, from what is measured on them. *)
Lemma chinup_validateForm_scripted clkA clkB clkC this
    lA rA bA cA lB rB bB cB lC rC bC cC :
  ChinUpValidator.isInUpPosition this = false ->
  130 < (lA + rA) / 2 ->
  (lB + rB) / 2 < 70 ->
  0.7 < cB ->
  0.6 < ExerciseValidator.calculateFormScore
          (ChinUpValidator.formCriteria lB rB bB) ->
  130 < (lC + rC) / 2 ->
  0.6 < ExerciseValidator.calculateFormScore
          (ChinUpValidator.formCriteria lC rC bC) ->
  let hang := ChinUpValidator.validateForm clkA this lA rA bA cA in
  let top := ChinUpValidator.validateForm clkB (fst hang) lB rB bB cB in
  let back := ChinUpValidator.validateForm clkC (fst top) lC rC bC cC in
  let noted :=
    ExerciseValidator.lastValidationTime (ChinUpValidator.super this) in
  completedRep (snd hang) = false
  /\ completedRep (snd top) = false
  /\ ChinUpValidator.isInDownPosition (fst back) = true
  /\ if (clkC 0%nat - noted >=? 1000)%Z
     then completedRep (snd back) = true
          /\ ChinUpValidator.getRepCount (fst back)
             = (ChinUpValidator.getRepCount this + 1)%Z
          /\ ChinUpValidator.isInUpPosition (fst back) = false
          /\ ExerciseValidator.lastValidationTime
               (ChinUpValidator.super (fst back)) = clkC 0%nat
     else completedRep (snd back) = false
          /\ ChinUpValidator.getRepCount (fst back)
             = ChinUpValidator.getRepCount this
          /\ ChinUpValidator.isInUpPosition (fst back) = true
          /\ ExerciseValidator.lastValidationTime
               (ChinUpValidator.super (fst back)) = noted.
Proof.
  intros Hup HavgA HavgB HchinB HvalidB HavgC HvalidC. cbv zeta.
  apply Qltb_lt in HvalidB, HvalidC.
  set (hang := ChinUpValidator.validateForm clkA this lA rA bA cA).
  destruct (chinup_validateForm_unfold clkA this lA rA bA cA)
    as (Hstate1 & Hrep1).
  destruct (chinup_countRepetition_hang clkA this ((lA + rA) / 2) cA
              (ExerciseValidator.calculateFormScore
                 (ChinUpValidator.formCriteria lA rA bA) >? 0.6)
              HavgA Hup) as (Hsuper1 & Hdown1 & Hup1 & Hnone1).
  fold hang in Hstate1, Hrep1.
  rewrite Hdown1, Hup1, Hsuper1 in Hstate1. rewrite Hnone1 in Hrep1.
  set (top := ChinUpValidator.validateForm clkB (fst hang) lB rB bB cB).
  destruct (chinup_validateForm_unfold clkB (fst hang) lB rB bB cB)
    as (Hstate2 & Hrep2).
  rewrite HvalidB in Hstate2, Hrep2.
  rewrite (chinup_countRepetition_top clkB (fst hang) _ cB HavgB HchinB)
    in Hstate2, Hrep2 by (rewrite Hstate1; reflexivity).
  fold top in Hstate2, Hrep2. cbn [fst snd] in Hstate2, Hrep2.
  cbn [ChinUpValidator.super ChinUpValidator.isInDownPosition
       ChinUpValidator.isInUpPosition] in Hstate2.
  destruct (chinup_validateForm_unfold clkC (fst top) lC rC bC cC)
    as (Hstate3 & Hrep3).
  rewrite HvalidC in Hstate3, Hrep3.
  rewrite (chinup_countRepetition_back clkC (fst top) _ cC HavgC)
    in Hstate3, Hrep3 by (rewrite Hstate2; reflexivity).
  assert (Hnoted : ExerciseValidator.lastValidationTime
                     (ChinUpValidator.super (fst top))
                   = ExerciseValidator.lastValidationTime
                       (ChinUpValidator.super this))
    by (rewrite Hstate2, Hstate1; reflexivity).
  assert (Hcount : ExerciseValidator.repCount
                     (ChinUpValidator.super (fst top))
                   = ExerciseValidator.repCount (ChinUpValidator.super this))
    by (rewrite Hstate2, Hstate1; reflexivity).
  assert (Hflags : ChinUpValidator.isInDownPosition (fst top) = true
                   /\ ChinUpValidator.isInUpPosition (fst top) = true)
    by (rewrite Hstate2; split; reflexivity).
  destruct Hflags as [Hdown2 Hup2].
  rewrite Hnoted in Hstate3, Hrep3.
  split; [exact Hrep1 |]. split; [exact Hrep2 |].
  rewrite Hrep3, Hstate3.
  unfold ChinUpValidator.getRepCount, ExerciseValidator.getRepCount.
  destruct (_ >=? _)%Z; cbn; rewrite ?Hdown2, ?Hup2, ?Hnoted, ?Hcount;
    repeat split; reflexivity.
Qed.

(** [validate] on a frame, from what it measures on it. *)
Lemma chinup_validate_measures Math clk this p :
  ChinUpValidator.validate Math clk this p
  = match chinUpMeasures Math p with
    | Some (l, r, b, c) => ChinUpValidator.validateForm clk this l r b c
    | None =>
        (this,
         rejected (if confidence p <? 0.6 then unclear
                   else "Please ensure your upper body is fully visible"))
    end.
Proof.
  unfold ChinUpValidator.validate, chinUpMeasures.
  destruct (confidence p <? 0.6); [reflexivity |].
  cbv zeta. destruct (negb _); [reflexivity |].
  repeat match goal with
         | |- context [match ?o with Some _ => _ | None => _ end] =>
             destruct o
         end; reflexivity.
Qed.

(** X9: the chin-up validator, with the up flag clear (as at the start and
    after every repetition), is taken through one repetition by three frames
    that pass the confidence and the landmark checks: one with the arms
    above 130 degrees; a valid one with the arms below 70 degrees and a chin
    score above 0.7; a valid one with the arms above 130 degrees again, at
    least 1000 ms after the time noted at the last repetition.  The third
    frame alone reports the repetition, the count grows by one, and the up
    flag is clear again.  A third frame that comes too soon reports nothing
    and leaves the flags, the count and the time noted as they were; and
    with both flags set, any such frame that comes late enough completes
    the repetition. *)
Theorem chinup_scripted_repetition Math clkA clkB clkC this hang top back
    lA rA bA cA lB rB bB cB lC rC bC cC :
  ChinUpValidator.isInUpPosition this = false ->
  chinUpMeasures Math hang = Some (lA, rA, bA, cA) ->
  chinUpMeasures Math top = Some (lB, rB, bB, cB) ->
  chinUpMeasures Math back = Some (lC, rC, bC, cC) ->
  130 < (lA + rA) / 2 ->
  (lB + rB) / 2 < 70 ->
  0.7 < cB ->
  0.6 < ExerciseValidator.calculateFormScore
          (ChinUpValidator.formCriteria lB rB bB) ->
  130 < (lC + rC) / 2 ->
  0.6 < ExerciseValidator.calculateFormScore
          (ChinUpValidator.formCriteria lC rC bC) ->
  let script := [(clkA, hang); (clkB, top); (clkC, back)] in
  let final := fst (run chinUp Math this script) in
  let results := snd (run chinUp Math this script) in
  let noted :=
    ExerciseValidator.lastValidationTime (ChinUpValidator.super this) in
  (ChinUpValidator.isInDownPosition final = true
   /\ if (clkC 0%nat - noted >=? 1000)%Z
      then map completedRep results = [false; false; true]
           /\ ChinUpValidator.getRepCount final
              = (ChinUpValidator.getRepCount this + 1)%Z
           /\ ChinUpValidator.isInUpPosition final = false
           /\ ExerciseValidator.lastValidationTime
                (ChinUpValidator.super final) = clkC 0%nat
      else map completedRep results = [false; false; false]
           /\ ChinUpValidator.getRepCount final
              = ChinUpValidator.getRepCount this
           /\ ChinUpValidator.isInUpPosition final = true
           /\ ExerciseValidator.lastValidationTime
                (ChinUpValidator.super final) = noted)
  /\ (forall clk held,
        ChinUpValidator.isInDownPosition held = true ->
        ChinUpValidator.isInUpPosition held = true ->
        (1000 <= clk 0%nat
                 - ExerciseValidator.lastValidationTime
                     (ChinUpValidator.super held))%Z ->
        completedRep (snd (ChinUpValidator.validate Math clk held back))
        = true
        /\ ChinUpValidator.getRepCount
             (fst (ChinUpValidator.validate Math clk held back))
           = (ChinUpValidator.getRepCount held + 1)%Z).
Proof.
  intros Hup HmA HmB HmC HavgA HavgB HchinB HvalidB HavgC HvalidC.
  cbv zeta. split.
  - pose proof (chinup_validateForm_scripted clkA clkB clkC this
                  lA rA bA cA lB rB bB cB lC rC bC cC
                  Hup HavgA HavgB HchinB HvalidB HavgC HvalidC) as Hscript.
    cbv zeta in Hscript.
    destruct Hscript as (HrepA & HrepB & Hdown & Hback).
    rewrite !run_cons. cbn [run fst snd map].
    change (validate chinUp) with ChinUpValidator.validate.
    rewrite (chinup_validate_measures Math clkA), HmA.
    rewrite (chinup_validate_measures Math clkB), HmB.
    rewrite (chinup_validate_measures Math clkC), HmC.
    split; [exact Hdown |].
    destruct (_ >=? _)%Z; destruct Hback as (HrepC & Hcount & Hflag & Hnoted);
      (split;
       [ exact (f_equal3 (fun first second third => [first; second; third])
                  HrepA HrepB HrepC)
       | auto ]).
  - intros clk held Hdown Hheld Hgate.
    rewrite chinup_validate_measures, HmC.
    destruct (chinup_validateForm_unfold clk held lC rC bC cC)
      as (Hstate & Hrep).
    apply Qltb_lt in HvalidC.
    rewrite HvalidC,
      (chinup_countRepetition_back clk held _ cC HavgC Hdown Hheld)
      in Hstate, Hrep.
    rewrite Hrep, Hstate.
    unfold ChinUpValidator.getRepCount, ExerciseValidator.getRepCount.
    destruct (Z.geb_spec
                (clk 0%nat - ExerciseValidator.lastValidationTime
                               (ChinUpValidator.super held)) 1000);
      [cbn; split; reflexivity | lia].
Qed.

Lemma chinup_scripted_repetition_witness :
  let script :=
    [ (at_time 0, chinUpHang); (at_time 1000, chinUpTop);
      (at_time 2000, chinUpHang) ] in
  map completedRep (snd (run chinUp exampleMath ChinUpValidator.init script))
  = [false; false; true]
  /\ ChinUpValidator.getRepCount
       (fst (run chinUp exampleMath ChinUpValidator.init script))
     = 1%Z.
Proof.
  pose proof (chinup_scripted_repetition exampleMath (at_time 0)
                (at_time 1000) (at_time 2000) ChinUpValidator.init
                chinUpHang chinUpTop chinUpHang
                _ _ _ _ _ _ _ _ _ _ _ _
                eq_refl eq_refl eq_refl eq_refl
                eq_refl eq_refl eq_refl eq_refl eq_refl eq_refl)
    as [[_ (Hreps & Hcount & _)] _].
  split; [exact Hreps | exact Hcount].
Defined.

(** ** The plank's count, its milestones and its clock face *)

Lemma plank_perform_index Math this call :
  PlankValidator.getRepCount this
  = Z.of_nat (PlankValidator.nextMilestoneIndex this) ->
  (PlankValidator.nextMilestoneIndex this
   <= List.length PlankValidator.milestoneDurations)%nat ->
  let this' := perform plank Math this call in
  PlankValidator.getRepCount this'
  = Z.of_nat (PlankValidator.nextMilestoneIndex this')
  /\ (PlankValidator.nextMilestoneIndex this'
      <= List.length PlankValidator.milestoneDurations)%nat.
Proof.
  intros Hcount Hindex. cbv zeta.
  destruct call as [clk p |]; cbn [perform];
    [| split; [reflexivity | cbn; lia]].
  change (validate plank) with PlankValidator.validate.
  change (state plank) with PlankValidator.t in *.
  destruct (plank_validate_milestone Math clk this p)
    as (Hrep & -> & ->).
  destruct (completedRep (snd (PlankValidator.validate Math clk this p))).
  - destruct (proj1 Hrep eq_refl) as (_ & _ & milestone & Hnext & _).
    assert (Hsome : nth_error PlankValidator.milestoneDurations
                      (PlankValidator.nextMilestoneIndex this) <> None)
      by congruence.
    apply nth_error_Some in Hsome. split; lia.
  - split; lia.
Qed.

(** X10: in any sequence of [validate] and [reset] calls from a fresh plank
    validator, the count is the index of the next milestone, so it never
    exceeds five; and [getNextMilestoneDuration] is 5, 10, 20, 30 or 60
    seconds according to the count, and 0 once the count is five. *)
Theorem plank_count_is_milestone_index Math calls :
  let final := session plank Math PlankValidator.init calls in
  PlankValidator.getRepCount final
  = Z.of_nat (PlankValidator.nextMilestoneIndex final)
  /\ (PlankValidator.getRepCount final <= 5)%Z
  /\ PlankValidator.getNextMilestoneDuration final
     == nth (Z.to_nat (PlankValidator.getRepCount final))
          [5; 10; 20; 30; 60] 0.
Proof.
  cbv zeta.
  assert (Hinv : forall this,
            PlankValidator.getRepCount this
            = Z.of_nat (PlankValidator.nextMilestoneIndex this) ->
            (PlankValidator.nextMilestoneIndex this
             <= List.length PlankValidator.milestoneDurations)%nat ->
            PlankValidator.getRepCount (session plank Math this calls)
            = Z.of_nat (PlankValidator.nextMilestoneIndex
                          (session plank Math this calls))
            /\ (PlankValidator.nextMilestoneIndex
                  (session plank Math this calls)
                <= List.length PlankValidator.milestoneDurations)%nat).
  { unfold session.
    induction calls as [| call calls IH]; intros this Hcount Hindex;
      [now split |].
    cbn [fold_left].
    destruct (plank_perform_index Math this call Hcount Hindex).
    now apply IH. }
  destruct (Hinv PlankValidator.init eq_refl) as [Hcount Hindex];
    [cbn; lia |].
  change (state plank) with PlankValidator.t in *.
  set (final := session plank Math PlankValidator.init calls) in *.
  cbn [List.length PlankValidator.milestoneDurations] in Hindex.
  split; [exact Hcount |]. split; [lia |].
  rewrite Hcount, Nat2Z.id. unfold PlankValidator.getNextMilestoneDuration.
  revert Hindex. clear Hcount.
  generalize (PlankValidator.nextMilestoneIndex final). intros index Hindex.
  do 6 (destruct index as [| index]; [reflexivity |]).
  lia.
Qed.

(** X11: the plank validator keeps the poses of the last ten frames it was
    given, and of all of them: those it turned away for their confidence or
    their landmarks are kept as well, and enter the stability score of the
    frames that follow. *)
Theorem plank_recentPoses_last_ten Math frames :
  let poses := map snd frames in
  PlankValidator.recentPoses
    (fst (run plank Math PlankValidator.init frames))
  = skipn (List.length poses - PlankValidator.maxRecentPoses) poses.
Proof.
  cbv zeta.
  assert (Hgen : forall frames this seen,
            PlankValidator.recentPoses this
            = skipn (List.length seen - PlankValidator.maxRecentPoses) seen ->
            PlankValidator.recentPoses (fst (run plank Math this frames))
            = skipn (List.length (seen ++ map snd frames)
                     - PlankValidator.maxRecentPoses)
                (seen ++ map snd frames)).
  { clear frames.
    induction frames as [| [clk p] frames IH]; intros this seen Hseen.
    - cbn [map run fst]. now rewrite app_nil_r.
    - rewrite run_cons. cbn [fst map snd].
      change (seen ++ p :: map snd frames)
        with (seen ++ [p] ++ map snd frames).
      rewrite app_assoc. apply IH.
      change (validate plank) with PlankValidator.validate.
      rewrite plank_validate_recentPoses.
      unfold PlankValidator.addToRecentPoses.
      cbn [PlankValidator.recentPoses PlankValidator.set_recentPoses].
      rewrite Hseen, !length_app, length_skipn. cbn [List.length].
      unfold PlankValidator.maxRecentPoses.
      destruct (Nat.ltb_spec 10
                  (List.length seen - (List.length seen - 10) + 1))
        as [Hfull | Hroom].
      + replace (List.length seen + 1 - 10)%nat
          with (S (List.length seen - 10)) by lia.
        rewrite skipn_app.
        replace (S (List.length seen - 10) - List.length seen)%nat
          with 0%nat by lia.
        cbn [skipn].
        assert (Hlong : (List.length seen - 10 < List.length seen)%nat)
          by lia.
        revert Hlong. generalize (List.length seen - 10)%nat.
        clear. induction seen as [| q seen IH]; intros k Hk;
          [cbn in Hk; lia |].
        destruct k as [| k]; [reflexivity |].
        cbn [skipn]. apply IH. cbn in Hk. lia.
      + replace (List.length seen - 10)%nat with 0%nat by lia.
        replace (List.length seen + 1 - 10)%nat with 0%nat by lia.
        reflexivity. }
  exact (Hgen frames PlankValidator.init [] eq_refl).
Qed.

Lemma formatMinutesSeconds_table :
  forallb
    (fun n : nat =>
       let totalSeconds := Z.of_nat n in
       String.eqb
         (padStart 2 "0" (show (totalSeconds / 60))
          ++ ":" ++ padStart 2 "0" (show (Z.rem totalSeconds 60)))%string
         (twoDigits (totalSeconds / 60) ++ ":"
          ++ twoDigits (totalSeconds mod 60))%string)
    (seq 0 (Z.to_nat 6000))
  = true.
Proof. vm_compute. reflexivity. Qed.

Lemma formatMinutesSeconds_MMSS (duration : Z) :
  (0 <= duration < 6000000)%Z ->
  PlankValidator.formatMinutesSeconds duration
  = (twoDigits (duration / 60000) ++ ":"
     ++ twoDigits ((duration / 1000) mod 60))%string.
Proof.
  intros Hrange. unfold PlankValidator.formatMinutesSeconds. cbv zeta.
  assert (Hseconds : (0 <= duration / 1000 < 6000)%Z).
  { split; [apply Z.div_pos; lia | apply Z.div_lt_upper_bound; lia]. }
  pose proof (proj1 (forallb_forall _ _) formatMinutesSeconds_table
                (Z.to_nat (duration / 1000))) as Hrow.
  cbv beta zeta in Hrow. rewrite Z2Nat.id in Hrow by lia.
  replace (duration / 60000)%Z with (duration / 1000 / 60)%Z
    by (rewrite Z.div_div by lia; reflexivity).
  apply String.eqb_eq, Hrow, in_seq. lia.
Qed.

(** X12: for a plank of less than a hundred minutes, on a clock that has
    not gone back, [getFormattedDuration] is MM:SS, two digits each: the
    whole minutes of the duration, and the whole seconds left; and
    [formatDuration] of the helpers writes a duration the same way. *)
Theorem getFormattedDuration_MMSS clk this :
  let duration := PlankValidator.getPlankDuration clk this in
  (0 <= duration < 6000000)%Z ->
  PlankValidator.getFormattedDuration clk this
  = (twoDigits (duration / 60000) ++ ":"
     ++ twoDigits ((duration / 1000) mod 60))%string
  /\ helpers.formatDuration duration
     = PlankValidator.getFormattedDuration clk this.
Proof.
  cbv zeta. intros Hrange. split; [| reflexivity].
  now apply formatMinutesSeconds_MMSS.
Qed.

Lemma getFormattedDuration_MMSS_witness :
  PlankValidator.getFormattedDuration (at_time 75000)
    (fst (PlankValidator.validate exampleMath (at_time 0)
            PlankValidator.init goodPlank))
  = "01:15".
Proof.
  refine (proj1 (getFormattedDuration_MMSS (at_time 75000)
                   (fst (PlankValidator.validate exampleMath (at_time 0)
                           PlankValidator.init goodPlank)) _)).
  vm_compute. split; [discriminate | reflexivity].
Defined.

(** ** The scores of the plank *)

Lemma Qmin_above_1 (t u : Q) : t < 1 -> (Qmin u 1 < t <-> u < t).
Proof.
  intros Ht. rewrite Q.min_lt_iff. split; [intros [H | H] | left]; auto.
  exfalso. apply (Qlt_irrefl t). now apply Qlt_trans with 1.
Qed.

(** X13: the body alignment score of the plank is 1 when the centre of the
    hips is within 0.1 of the segment from the centre of the shoulders to
    the centre of the ankles; when it is not, the score falls with the
    angle at the hip itself, not with its distance from 180 degrees: it is
    above 0.7 for an angle below 9 degrees only, and 0 from 30 degrees
    on. *)
Theorem plank_checkBodyAlignment_above Math
    (leftShoulder rightShoulder leftHip rightHip leftAnkle rightAnkle
       : Landmark3D) :
  let shoulderCenter := center leftShoulder rightShoulder in
  let hipCenter := center leftHip rightHip in
  let ankleCenter := center leftAnkle rightAnkle in
  let near :=
    negb (FormChecker.pointToLineDistance Math
            hipCenter shoulderCenter ankleCenter >? 0.1) in
  let angle :=
    FormChecker.calculateBodyAngle Math shoulderCenter hipCenter ankleCenter in
  let score :=
    PlankValidator.checkBodyAlignment Math leftShoulder rightShoulder
      leftHip rightHip leftAnkle rightAnkle in
  (near = true -> score = 1)
  /\ (score >? 0.7) = near || (angle <? 9)
  /\ (near = false -> 30 <= angle -> score == 0).
Proof.
  cbv zeta. unfold PlankValidator.checkBodyAlignment. cbv zeta.
  set (shoulderCenter := center leftShoulder rightShoulder).
  set (hipCenter := center leftHip rightHip).
  set (ankleCenter := center leftAnkle rightAnkle).
  set (angle := FormChecker.calculateBodyAngle Math
                  shoulderCenter hipCenter ankleCenter).
  change (FormChecker.areLandmarksAligned Math
            [shoulderCenter; hipCenter; ankleCenter]
            PlankValidator.bodyAlignmentThreshold)
    with (negb (FormChecker.pointToLineDistance Math
                  hipCenter shoulderCenter ankleCenter >? 0.1) && true).
  rewrite andb_true_r.
  destruct (negb _); cbn [orb].
  - split; [reflexivity |]. split; [reflexivity | discriminate].
  - assert (Hdiv : angle / 30 == angle * (1 # 30)) by (field; lra).
    split; [discriminate |]. split.
    + apply Qltb_iff. rewrite Qmax_0_above by discriminate.
      split; intros H.
      * assert (Hmin : Qmin (angle / 30) 1 < 0.3) by lra.
        apply (proj1 (Qmin_above_1 0.3 (angle / 30) eq_refl)) in Hmin.
        rewrite Hdiv in Hmin. lra.
      * assert (Hmin : Qmin (angle / 30) 1 < 0.3).
        { apply Qmin_above_1; [reflexivity |]. rewrite Hdiv. lra. }
        lra.
    + intros _ Hangle.
      assert (Hmin : Qmin (angle / 30) 1 == 1).
      { apply Q.min_r. rewrite Hdiv. lra. }
      rewrite Hmin. reflexivity.
Qed.

Lemma plank_checkBodyAlignment_above_witness :
  PlankValidator.checkBodyAlignment exampleMath
    (landmark 0.25 0.5) (landmark 0.25 0.5) (landmark 0.5 0.5)
    (landmark 0.5 0.5) (landmark 0.75 0.5) (landmark 0.75 0.5)
  = 1.
Proof.
  refine (proj1 (plank_checkBodyAlignment_above exampleMath
                   (landmark 0.25 0.5) (landmark 0.25 0.5) (landmark 0.5 0.5)
                   (landmark 0.5 0.5) (landmark 0.75 0.5) (landmark 0.75 0.5))
            _).
  reflexivity.
Defined.

(** ** The scores the validators compute *)

Lemma score_range (u : Q) : 0 <= Qmin 1 (Qmax 0 u) <= 1.
Proof.
  split; [apply Q.min_glb; [discriminate | apply Q.le_max_l]
         | apply Q.le_min_l].
Qed.

(** X14: the scores that are computed from the coordinates of the landmarks
    by sums, differences, absolute values, quotients by a constant or by a
    count that is not 0, and a clamp, are between 0 and 1, as their
    documentation says: the alignment score of the push-up, the position
    and chin-over-bar scores of the chin-up, the elbow score of the plank
    and the pose stability, whatever [Math.sqrt] returns.  The scores that
    go through an angle are left out: on doubles the angle, and the score
    with it, can be NaN. *)
Theorem scores_between_0_and_1 Math (a b c d e f : Landmark3D)
    (poses : list PoseResult) :
  0 <= PushUpValidator.checkBodyAlignment a b c d <= 1
  /\ 0 <= ChinUpValidator.checkBodyPosition a b c d <= 1
  /\ 0 <= ChinUpValidator.checkChinOverBar a b c <= 1
  /\ 0 <= PlankValidator.checkElbowPosition a b c d e f <= 1
  /\ 0 <= FormChecker.calculatePoseStability Math poses <= 1.
Proof.
  repeat match goal with |- _ /\ _ => split end.
  - apply score_range.
  - apply score_range.
  - apply score_range.
  - apply score_range.
  - unfold ChinUpValidator.checkChinOverBar. cbv zeta.
    destruct (Qltb_reflect (y a) ((y b + y c) / 2)) as [Habove | _];
      cbn [negb]; [| discriminate].
    apply Q.min_glb; [discriminate |].
    unfold ChinUpValidator.chinOverBarThreshold.
    setoid_replace (((y b + y c) / 2 - y a) / 0.05)
      with (((y b + y c) / 2 - y a) * 20) by (field; lra).
    lra.
  - unfold ChinUpValidator.checkChinOverBar. cbv zeta.
    destruct (negb _); [discriminate | apply Q.le_min_l].
  - unfold PlankValidator.checkElbowPosition. cbv zeta.
    pose proof (Q.le_max_l 0 (1 - Qabs (x b - x a) / 0.1)).
    pose proof (Q.le_max_l 0 (1 - Qabs (x e - x d) / 0.1)).
    setoid_replace ((Qmax 0 (1 - Qabs (x b - x a) / 0.1)
                     + Qmax 0 (1 - Qabs (x e - x d) / 0.1)) / 2)
      with ((Qmax 0 (1 - Qabs (x b - x a) / 0.1)
             + Qmax 0 (1 - Qabs (x e - x d) / 0.1)) * 0.5) by field.
    lra.
  - unfold PlankValidator.checkElbowPosition. cbv zeta.
    assert (Hle : forall u, 0 <= u -> Qmax 0 (1 - u / 0.1) <= 1).
    { intros u Hu. apply Q.max_lub; [discriminate |].
      setoid_replace (u / 0.1) with (u * 10) by (field; lra). lra. }
    pose proof (Hle _ (Qabs_nonneg (x b - x a))).
    pose proof (Hle _ (Qabs_nonneg (x e - x d))).
    setoid_replace ((Qmax 0 (1 - Qabs (x b - x a) / 0.1)
                     + Qmax 0 (1 - Qabs (x e - x d) / 0.1)) / 2)
      with ((Qmax 0 (1 - Qabs (x b - x a) / 0.1)
             + Qmax 0 (1 - Qabs (x e - x d) / 0.1)) * 0.5) by field.
    lra.
  - unfold FormChecker.calculatePoseStability.
    destruct (_ <? 2)%nat; [discriminate |].
    destruct poses as [| first rest]; [discriminate |].
    destruct (FormChecker.compareConsecutive _ _ _ _) as [total count].
    destruct (count =? 0)%nat; [discriminate | apply score_range].
  - unfold FormChecker.calculatePoseStability.
    destruct (_ <? 2)%nat; [discriminate |].
    destruct poses as [| first rest]; [discriminate |].
    destruct (FormChecker.compareConsecutive _ _ _ _) as [total count].
    destruct (count =? 0)%nat; [discriminate | apply score_range].
Qed.

Lemma plankScores_stability Math p s a e h s' :
  plankScores Math p s = inr (a, e, h, s') -> s' = s.
Proof.
  unfold plankScores.
  destruct (confidence p <? 0.6); [discriminate |].
  cbv zeta. destruct (negb _); [discriminate |].
  repeat match goal with
         | |- context [match ?o with Some _ => _ | None => _ end] =>
             destruct o
         end; try discriminate.
  now intros [= _ _ _ ->].
Qed.

(** X15: the first frame a plank validator is given, at the start or after
    a reset, is the only pose it has to compare: the stability score it
    computes is 0, the stability criterion fails and the form score is at
    most 0.75; the frame is judged valid exactly when it passes the checks
    and its alignment, elbow and hip scores are all above 0.7, and its form
    score is then 0.75. *)
Theorem plank_first_frame Math clk this p :
  PlankValidator.recentPoses this = [] ->
  let compared :=
    PlankValidator.recentPoses (PlankValidator.addToRecentPoses p this) in
  let stability := FormChecker.calculatePoseStability Math compared in
  let result := snd (PlankValidator.validate Math clk this p) in
  compared = [p]
  /\ stability = 0
  /\ formScore result <= 0.75
  /\ (validForm result = true <->
      exists alignment elbows hips,
        plankScores Math p stability
        = inr (alignment, elbows, hips, stability)
        /\ 0.7 < alignment /\ 0.7 < elbows /\ 0.7 < hips)
  /\ (validForm result = true -> formScore result == 0.75).
Proof.
  intros Hempty. cbv zeta. rewrite plank_validate_scores.
  unfold PlankValidator.addToRecentPoses. rewrite Hempty.
  cbn [app List.length Nat.ltb Nat.leb PlankValidator.maxRecentPoses
       PlankValidator.set_recentPoses PlankValidator.recentPoses].
  change (FormChecker.calculatePoseStability Math [p]) with 0.
  split; [reflexivity |]. split; [reflexivity |].
  destruct (plankScores Math p 0) as [message | [[[a e] h] s]] eqn:Hscores.
  - cbn [snd rejected formScore validForm].
    split; [discriminate |]. split; [| discriminate].
    split; [discriminate |]. intros (? & ? & ? & Hcontra & _). discriminate.
  - pose proof (plankScores_stability _ _ _ _ _ _ _ Hscores). subst s.
    unfold validForm. rewrite plank_validateForm_formScore.
    unfold PlankValidator.formCriteria.
    change (0 >? PlankValidator.stabilityThreshold) with false.
    destruct (Qltb_reflect 0.7 a) as [Ha | Ha],
      (Qltb_reflect 0.7 e) as [He | He],
      (Qltb_reflect 0.7 h) as [Hh | Hh];
      (split; [vm_compute; discriminate |]);
      (split; [| vm_compute; intros; reflexivity || discriminate]);
      (split;
       [ vm_compute; intros Hvalid;
         try discriminate Hvalid; eauto 10
       | intros (a' & e' & h' & [= <- <- <-] & Ha' & He' & Hh');
         try contradiction; reflexivity ]).
Qed.

Lemma plank_first_frame_witness :
  FormChecker.calculatePoseStability exampleMath
    (PlankValidator.recentPoses
       (PlankValidator.addToRecentPoses goodPlank
          (PlankValidator.reset PlankValidator.init))) = 0
  /\ formScore (snd (PlankValidator.validate exampleMath (at_time 0)
                       (PlankValidator.reset PlankValidator.init) goodPlank))
     <= 0.75.
Proof.
  pose proof (plank_first_frame exampleMath (at_time 0)
                (PlankValidator.reset PlankValidator.init) goodPlank eq_refl)
    as (_ & Hstability & Hscore & _).
  split; [exact Hstability | exact Hscore].
Defined.

(** * The game: repetitions, milestones and rescues *)

(** ** The game manager *)

Lemma includes_spec count milestones :
  constants.includes count milestones = true <-> In count milestones.
Proof.
  unfold constants.includes. rewrite existsb_exists. split.
  - intros (m & Hin & Heq). apply Z.eqb_eq in Heq. now subst.
  - intros Hin. exists count. split; [exact Hin | apply Z.eqb_refl].
Qed.

(** One more repetition reaches at most the milestone at the new count. *)
Lemma filter_between_next (milestones : list Z) (low high : Z) :
  NoDup milestones ->
  (low + 1 <= high)%Z ->
  List.length
    (filter (fun m => (low <? m)%Z && (m <=? high)%Z) milestones)
  = ((if constants.includes (low + 1) milestones then 1 else 0)
     + List.length
         (filter (fun m => (low + 1 <? m)%Z && (m <=? high)%Z)
            milestones))%nat.
Proof.
  intros Hnodup Hhigh.
  induction milestones as [| m milestones IH]; [reflexivity |].
  inversion Hnodup as [| ? ? Hnotin Hrest]; subst.
  specialize (IH Hrest). cbn [filter].
  unfold constants.includes in *. cbn [existsb].
  destruct (Z.eqb_spec (low + 1) m) as [Heq | Hneq].
  - subst m. cbn [orb].
    assert (Hout : existsb (Z.eqb (low + 1)) milestones = false).
    { apply not_true_iff_false. intros Hin.
      apply Hnotin. now apply includes_spec. }
    rewrite Hout in IH.
    replace (low <? low + 1)%Z with true by (symmetry; apply Z.ltb_lt; lia).
    replace (low + 1 <=? high)%Z with true
      by (symmetry; apply Z.leb_le; lia).
    replace (low + 1 <? low + 1)%Z with false
      by (symmetry; apply Z.ltb_ge; lia).
    cbn [andb List.length]. lia.
  - cbn [orb].
    replace (low + 1 <? m)%Z with (low <? m)%Z.
    + destruct ((low <? m)%Z && (m <=? high)%Z); cbn [List.length]; lia.
    + destruct (Z.ltb_spec low m), (Z.ltb_spec (low + 1) m);
        reflexivity || lia.
Qed.

Lemma filter_none {A : Type} (f : A -> bool) (l : list A) :
  (forall a, In a l -> f a = false) -> filter f l = [].
Proof.
  induction l as [| a l IH]; intros Hnone; [reflexivity |].
  cbn [filter]. rewrite (Hnone a (or_introl eq_refl)).
  apply IH. intros b Hb. apply Hnone. now right.
Qed.

Lemma milestones_NoDup exerciseType :
  NoDup (constants.milestones (constants.EXERCISE_CONFIG exerciseType)).
Proof.
  destruct exerciseType; cbn;
    repeat (constructor; [cbn; intuition discriminate |]); constructor.
Qed.

Lemma ExerciseType_eqb_refl exerciseType :
  ExerciseType_eqb exerciseType exerciseType = true.
Proof. now destruct exerciseType. Qed.

Lemma ExerciseType_eqb_eq a b : ExerciseType_eqb a b = true <-> a = b.
Proof. destruct a, b; cbn; split; congruence. Qed.

(** Repetitions recorded while the exercise is the one in progress. *)
Lemma recordRepetitions_active exerciseType nows : forall this,
  GameManager.isActive this = true ->
  GameManager.currentExercise this = Some exerciseType ->
  let final := recordRepetitions exerciseType nows this in
  let n := Z.of_nat (List.length nows) in
  GameManager.repCount final = (GameManager.repCount this + n)%Z
  /\ GameManager.animalsRescued final
     = (GameManager.animalsRescued this
        + Z.of_nat (milestonesBetween exerciseType
                      (GameManager.repCount this)
                      (GameManager.repCount this + n)))%Z
  /\ GameManager.isActive final = true
  /\ GameManager.currentExercise final = Some exerciseType.
Proof.
  induction nows as [| now nows IH]; intros this Hactive Hcurrent; cbv zeta.
  - cbn [recordRepetitions fold_left List.length Z.of_nat].
    rewrite Z.add_0_r. repeat split; try assumption.
    unfold milestonesBetween.
    rewrite filter_none; [cbn; lia |].
    intros m _. apply andb_false_iff.
    destruct (Z.ltb_spec (GameManager.repCount this) m); [right | now left].
    apply Z.leb_gt. lia.
  - cbn [recordRepetitions fold_left].
    fold (recordRepetitions exerciseType nows
            (fst (GameManager.recordRepetition now exerciseType this))).
    set (next := fst (GameManager.recordRepetition now exerciseType this)).
    assert (Hnext : GameManager.repCount next
                    = (GameManager.repCount this + 1)%Z
                    /\ GameManager.animalsRescued next
                       = (GameManager.animalsRescued this
                          + if constants.includes
                                 (GameManager.repCount this + 1)
                                 (constants.milestones
                                    (constants.EXERCISE_CONFIG exerciseType))
                            then 1 else 0)%Z
                    /\ GameManager.isActive next = true
                    /\ GameManager.currentExercise next = Some exerciseType).
    { subst next. unfold GameManager.recordRepetition.
      rewrite Hactive, Hcurrent, ExerciseType_eqb_refl. cbn [negb orb].
      cbv zeta. unfold GameManager.checkMilestone.
      cbn [GameManager.set_repCount GameManager.repCount].
      destruct (constants.includes _ _); cbn; repeat split;
        try assumption; lia. }
    destruct Hnext as (Hcount & Hanimals & Hactive' & Hcurrent').
    destruct (IH next Hactive' Hcurrent') as (-> & -> & -> & ->).
    rewrite Hcount, Hanimals. cbn [List.length]. rewrite Nat2Z.inj_succ.
    split; [lia |]. split; [| now split].
    unfold milestonesBetween.
    rewrite (filter_between_next _ (GameManager.repCount this)
               (GameManager.repCount this + Z.succ (Z.of_nat (List.length nows)))
               (milestones_NoDup exerciseType)) by lia.
    replace (GameManager.repCount this + 1 + Z.of_nat (List.length nows))%Z
      with (GameManager.repCount this
            + Z.succ (Z.of_nat (List.length nows)))%Z by lia.
    destruct (constants.includes _ _); lia.
Qed.

(** X16: [n] repetitions of an exercise recorded in a row (one at least)
    leave the game manager in that exercise, with a count of [k + n], [k]
    being the count before if the exercise was already the one in
    progress and 0 if it was not (the first repetition then starts it);
    and the animals rescued have grown by the number of milestones of the
    exercise above [k] and up to [k + n]. *)
Theorem recordRepetitions_count exerciseType now nows this :
  let inProgress :=
    GameManager.isActive this
    && match GameManager.currentExercise this with
       | Some current => ExerciseType_eqb current exerciseType
       | None => false
       end in
  let k := if inProgress then GameManager.repCount this else 0%Z in
  let n := Z.of_nat (List.length (now :: nows)) in
  let final := recordRepetitions exerciseType (now :: nows) this in
  GameManager.repCount final = (k + n)%Z
  /\ GameManager.animalsRescued final
     = (GameManager.animalsRescued this
        + Z.of_nat (milestonesBetween exerciseType k (k + n)))%Z
  /\ GameManager.isActive final = true
  /\ GameManager.currentExercise final = Some exerciseType.
Proof.
  cbv zeta.
  destruct (GameManager.isActive this
            && match GameManager.currentExercise this with
               | Some current => ExerciseType_eqb current exerciseType
               | None => false
               end) eqn:Hprogress.
  - apply andb_true_iff in Hprogress. destruct Hprogress as [Hactive Hsame].
    destruct (GameManager.currentExercise this) as [current |] eqn:Hcurrent;
      [| discriminate].
    apply ExerciseType_eqb_eq in Hsame. subst current.
    now apply recordRepetitions_active.
  - assert (Hstart : recordRepetitions exerciseType (now :: nows) this
                     = recordRepetitions exerciseType (now :: nows)
                         (GameManager.startExercise now exerciseType this)).
    { cbn [recordRepetitions fold_left]. f_equal. f_equal.
      unfold GameManager.recordRepetition.
      cbn [GameManager.startExercise GameManager.isActive
           GameManager.currentExercise].
      rewrite ExerciseType_eqb_refl. cbn [negb orb].
      replace (negb (GameManager.isActive this)
               || negb match GameManager.currentExercise this with
                       | Some current => ExerciseType_eqb current exerciseType
                       | None => false
                       end) with true; [reflexivity |].
      symmetry. rewrite <- negb_andb. now rewrite Hprogress. }
    rewrite Hstart.
    exact (recordRepetitions_active exerciseType (now :: nows)
             (GameManager.startExercise now exerciseType this)
             eq_refl eq_refl).
Qed.

(** ** From the validators to the game manager *)

Lemma appInvariant_init stored : appInvariant (AppService.init stored).
Proof.
  split; [| split].
  - intros []; cbn; lia.
  - split; [reflexivity | cbn; lia].
  - destruct stored; discriminate.
Qed.

(** A repetition recorded, the count of the validator having grown. *)
Lemma recordRepetition_bounded now exerciseType this (count : Z) :
  (0 <= count)%Z ->
  (GameManager.isActive this = true ->
   GameManager.currentExercise this = Some exerciseType ->
   (0 <= GameManager.repCount this <= count)%Z) ->
  let this' := fst (GameManager.recordRepetition now exerciseType this) in
  GameManager.isActive this' = true
  /\ GameManager.currentExercise this' = Some exerciseType
  /\ (0 <= GameManager.repCount this' <= count + 1)%Z.
Proof.
  intros Hcount Hbound. cbv zeta. unfold GameManager.recordRepetition.
  destruct (GameManager.isActive this) eqn:Hactive; cbn [negb orb].
  - destruct (GameManager.currentExercise this) as [current |] eqn:Hcurrent.
    + destruct (ExerciseType_eqb current exerciseType) eqn:Hsame;
        cbn [negb]; cbv zeta.
      * apply ExerciseType_eqb_eq in Hsame. subst current.
        specialize (Hbound eq_refl eq_refl).
        destruct (GameManager.checkMilestone _ _); cbn;
          rewrite ?Hactive, ?Hcurrent; repeat split; lia.
      * destruct (GameManager.checkMilestone _ _); cbn;
          repeat split; lia.
    + cbn [negb]. cbv zeta.
      destruct (GameManager.checkMilestone _ _); cbn; repeat split; lia.
  - cbv zeta.
    destruct (GameManager.checkMilestone _ _); cbn; repeat split; lia.
Qed.

Lemma recordRepetition_animals now exerciseType this :
  let this' := fst (GameManager.recordRepetition now exerciseType this) in
  GameManager.animalsRescued this'
  = (GameManager.animalsRescued this
     + if constants.includes (GameManager.repCount this')
            (constants.milestones (constants.EXERCISE_CONFIG exerciseType))
       then 1 else 0)%Z.
Proof.
  cbv zeta. unfold GameManager.recordRepetition, GameManager.checkMilestone.
  cbv zeta. destruct (_ || _);
    cbn [GameManager.set_repCount GameManager.repCount
         GameManager.startExercise];
    destruct (constants.includes _ _) eqn:Hincludes; cbn;
    change (0 + 1)%Z with 1%Z in Hincludes;
    rewrite ?Hincludes; lia.
Qed.

Lemma record_invariant now exerciseType validation app (count : Z) :
  (0 <= count)%Z ->
  (GameManager.isActive (AppService.gameManager app) = true ->
   forall current,
     GameManager.currentExercise (AppService.gameManager app) = Some current ->
     (0 <= GameManager.repCount (AppService.gameManager app)
        <= if ExerciseType_eqb current exerciseType
           then count else validatorCount current app)%Z) ->
  validatorCount exerciseType app
  = (count + if completedRep validation then 1 else 0)%Z ->
  let app' := AppService.record now exerciseType validation app in
  GameManager.isActive (AppService.gameManager app') = true ->
  forall current,
    GameManager.currentExercise (AppService.gameManager app') = Some current ->
    (0 <= GameManager.repCount (AppService.gameManager app')
       <= validatorCount current app')%Z.
Proof.
  intros Hcount Hbound Hgrown. cbv zeta. unfold AppService.record.
  destruct (completedRep validation).
  - pose proof (recordRepetition_bounded now exerciseType
                  (AppService.gameManager app) count Hcount) as Hrecorded.
    cbv zeta in Hrecorded.
    destruct Hrecorded as (_ & Hcurrent & Hrange).
    { intros Hactive Hsame.
      specialize (Hbound Hactive _ Hsame).
      now rewrite ExerciseType_eqb_refl in Hbound. }
    cbn [AppService.set_gameManager AppService.gameManager].
    intros _ current Hcurrent'. rewrite Hcurrent in Hcurrent'.
    injection Hcurrent' as <-.
    replace (validatorCount exerciseType
               (AppService.set_gameManager _ app))
      with (validatorCount exerciseType app)
      by (destruct exerciseType; reflexivity).
    lia.
  - intros Hactive current Hcurrent.
    specialize (Hbound Hactive _ Hcurrent).
    destruct (ExerciseType_eqb current exerciseType) eqn:Hsame; [| exact Hbound].
    apply ExerciseType_eqb_eq in Hsame. subst current. lia.
Qed.

Lemma appInvariant_handle Math app event :
  appInvariant app -> appInvariant (AppService.handle Math app event).
Proof.
  intros (Hcounts & Hplank & Hgame).
  destruct event as [clk now [[| |] |] result | written | written];
    cbn [AppService.handle AppService.handlePoseResult].
  - (* a push-up frame *)
    unfold AppService.validatePushUp.
    pose proof (pushup_validate_repCount Math clk
                  (AppService.pushUpValidator app) result) as Hgrown.
    destruct (PushUpValidator.validate Math clk _ result)
      as [validator validation].
    cbn [fst snd] in Hgrown.
    set (seen := {| AppService.pushUpValidator := validator;
                    AppService.chinUpValidator := _ |}).
    assert (Hrecordless : forall exerciseType,
              validatorCount exerciseType
                (AppService.record now Pushup validation seen)
              = validatorCount exerciseType seen).
    { intros e. unfold AppService.record.
      destruct (completedRep validation); destruct e; reflexivity. }
    pose proof (Hcounts Pushup) as Hpush. cbn [validatorCount] in Hpush.
    split; [| split].
    + intros e. rewrite Hrecordless.
      destruct e; [| exact (Hcounts Chinup) | exact (Hcounts Plank)].
      cbn [validatorCount seen AppService.pushUpValidator]. rewrite Hgrown.
      destruct (completedRep validation); lia.
    + unfold AppService.record.
      destruct (completedRep validation); exact Hplank.
    + apply (record_invariant now Pushup validation seen
               (PushUpValidator.getRepCount (AppService.pushUpValidator app)));
        [exact Hpush | | exact Hgrown].
      intros Hactive current Hcurrent.
      specialize (Hgame Hactive current Hcurrent).
      destruct current; exact Hgame.
  - (* a chin-up frame *)
    unfold AppService.validateChinUp.
    pose proof (chinup_validate_repCount Math clk
                  (AppService.chinUpValidator app) result) as Hgrown.
    destruct (ChinUpValidator.validate Math clk _ result)
      as [validator validation].
    cbn [fst snd] in Hgrown.
    set (seen := {| AppService.pushUpValidator := _;
                    AppService.chinUpValidator := validator |}).
    assert (Hrecordless : forall exerciseType,
              validatorCount exerciseType
                (AppService.record now Chinup validation seen)
              = validatorCount exerciseType seen).
    { intros e. unfold AppService.record.
      destruct (completedRep validation); destruct e; reflexivity. }
    pose proof (Hcounts Chinup) as Hchin. cbn [validatorCount] in Hchin.
    split; [| split].
    + intros e. rewrite Hrecordless.
      destruct e; [exact (Hcounts Pushup) | | exact (Hcounts Plank)].
      cbn [validatorCount seen AppService.chinUpValidator]. rewrite Hgrown.
      destruct (completedRep validation); lia.
    + unfold AppService.record.
      destruct (completedRep validation); exact Hplank.
    + apply (record_invariant now Chinup validation seen
               (ChinUpValidator.getRepCount (AppService.chinUpValidator app)));
        [exact Hchin | | exact Hgrown].
      intros Hactive current Hcurrent.
      specialize (Hgame Hactive current Hcurrent).
      destruct current; exact Hgame.
  - (* a plank frame *)
    unfold AppService.validatePlank.
    pose proof (plank_validate_milestone Math clk
                  (AppService.plankValidator app) result)
      as (_ & Hgrown & _).
    pose proof (plank_perform_index Math (AppService.plankValidator app)
                  (Validate clk result) (proj1 Hplank) (proj2 Hplank))
      as Hindex.
    cbv zeta in Hindex. cbn [perform] in Hindex.
    change (validate plank) with PlankValidator.validate in Hindex.
    destruct (PlankValidator.validate Math clk _ result)
      as [validator validation].
    cbn [fst snd] in Hgrown, Hindex.
    set (seen := {| AppService.pushUpValidator := _;
                    AppService.plankValidator := validator |}).
    assert (Hrecordless : forall exerciseType,
              validatorCount exerciseType
                (AppService.record now Plank validation seen)
              = validatorCount exerciseType seen).
    { intros e. unfold AppService.record.
      destruct (completedRep validation); destruct e; reflexivity. }
    pose proof (Hcounts Plank) as Hheld. cbn [validatorCount] in Hheld.
    split; [| split].
    + intros e. rewrite Hrecordless.
      destruct e; [exact (Hcounts Pushup) | exact (Hcounts Chinup) |].
      cbn [validatorCount seen AppService.plankValidator]. rewrite Hgrown.
      destruct (completedRep validation); lia.
    + unfold AppService.record.
      destruct (completedRep validation); exact Hindex.
    + apply (record_invariant now Plank validation seen
               (PlankValidator.getRepCount (AppService.plankValidator app)));
        [exact Hheld | | exact Hgrown].
      intros Hactive current Hcurrent.
      specialize (Hgame Hactive current Hcurrent).
      destruct current; exact Hgame.
  - (* no exercise selected *)
    now split.
  - (* the Escape key *)
    unfold AppService.escapeKey, GameManager.endExercise.
    destruct (GameManager.isActive (AppService.gameManager app)) eqn:Hactive;
      cbn [negb]; (split; [intros e; exact (Hcounts e) | split]);
      try exact Hplank.
    + cbn. discriminate.
    + cbn. rewrite Hactive. discriminate.
  - (* the save timer *)
    now split.
Qed.

Lemma appInvariant_run Math events : forall app,
  appInvariant app -> appInvariant (AppService.run Math app events).
Proof.
  unfold AppService.run.
  induction events as [| event events IH]; intros app Hinv; [exact Hinv |].
  cbn [fold_left]. apply IH. now apply appInvariant_handle.
Qed.

(** X17: whatever happened to the application since it started, while an
    exercise is in progress the count of the game manager, which decides
    on the milestones, is at most the count of the validator of that
    exercise, which the page shows; and neither is negative. *)
Theorem game_count_at_most_validator_count Math stored events exerciseType :
  let app := AppService.run Math (AppService.init stored) events in
  GameManager.isActive (AppService.gameManager app) = true ->
  GameManager.currentExercise (AppService.gameManager app)
  = Some exerciseType ->
  (0 <= GameManager.repCount (AppService.gameManager app)
     <= validatorCount exerciseType app)%Z.
Proof.
  cbv zeta. intros Hactive Hcurrent.
  destruct (appInvariant_run Math events _ (appInvariant_init stored))
    as (_ & _ & Hgame).
  now apply Hgame.
Qed.

(** X18: in the application a plank never rescues an animal: the plank
    validator reports five milestones at most and is never reset, the game
    manager counts those reports, and the first milestone of the plank in
    [EXERCISE_CONFIG] is at a count of 30.  So whatever happened before, a
    frame handled with the plank selected leaves the animals rescued as
    they were. *)
Theorem plank_never_rescues Math stored events clk now result :
  let app := AppService.run Math (AppService.init stored) events in
  GameManager.animalsRescued
    (AppService.gameManager
       (AppService.handlePoseResult Math clk now (Some Plank) result app))
  = GameManager.animalsRescued (AppService.gameManager app).
Proof.
  cbv zeta.
  set (app := AppService.run Math (AppService.init stored) events).
  pose proof (appInvariant_run Math events _ (appInvariant_init stored))
    as Hinv.
  fold app in Hinv.
  pose proof (appInvariant_handle Math app
                (AppService.PoseDetected clk now (Some Plank) result) Hinv)
    as (Hcounts' & [Hcount' Hindex'] & _).
  destruct Hinv as (Hcounts & _ & Hgame).
  cbn [AppService.handle] in Hcounts', Hcount', Hindex'.
  cbn [AppService.handlePoseResult] in *.
  unfold AppService.validatePlank in *.
  pose proof (plank_validate_milestone Math clk
                (AppService.plankValidator app) result)
    as (_ & Hgrown & _).
  destruct (PlankValidator.validate Math clk _ result)
    as [validator validation].
  cbn [fst snd] in Hgrown.
  unfold AppService.record in *.
  destruct (completedRep validation); [| reflexivity].
  cbn [AppService.set_gameManager AppService.gameManager
       AppService.plankValidator] in *.
  pose proof (Hcounts Plank) as Hheld. cbn [validatorCount] in Hheld.
  pose proof (recordRepetition_bounded now Plank (AppService.gameManager app)
                (PlankValidator.getRepCount (AppService.plankValidator app))
                Hheld) as Hrecorded.
  cbv zeta in Hrecorded. destruct Hrecorded as (_ & _ & Hrange).
  { intros Hactive Hcurrent. exact (Hgame Hactive Plank Hcurrent). }
  cbn [List.length PlankValidator.milestoneDurations] in Hindex'.
  pose proof (recordRepetition_animals now Plank (AppService.gameManager app))
    as Hanimals.
  cbv zeta in Hanimals. rewrite Hanimals.
  destruct (constants.includes _ _) eqn:Hincludes; [| lia].
  apply includes_spec in Hincludes. cbn [In constants.EXERCISE_CONFIG
                                         constants.milestones] in Hincludes.
  lia.
Qed.

Lemma game_count_at_most_validator_count_witness :
  let app :=
    AppService.run exampleMath (AppService.init None)
      [ AppService.PoseDetected (at_time 1000) 1000 (Some Pushup) pushUpDown;
        AppService.PoseDetected (at_time 2000) 2000 (Some Pushup) pushUpUp ] in
  (0 <= GameManager.repCount (AppService.gameManager app)
     <= validatorCount Pushup app)%Z.
Proof.
  apply (game_count_at_most_validator_count exampleMath None
           [ AppService.PoseDetected (at_time 1000) 1000 (Some Pushup)
               pushUpDown;
             AppService.PoseDetected (at_time 2000) 2000 (Some Pushup)
               pushUpUp ] Pushup).
  - vm_compute. reflexivity.
  - vm_compute. reflexivity.
Defined.

(** ** The animal rescue manager *)

(** The milestones of an exercise up to a count. *)
Lemma milestonesUpTo_step (milestones : list Z) (last repCount : Z) :
  In repCount milestones ->
  (last < repCount)%Z ->
  (List.length (filter (fun m => (m <=? last)%Z) milestones) + 1
   <= List.length (filter (fun m => (m <=? repCount)%Z) milestones))%nat.
Proof.
  intros Hin Hlast.
  assert (Hmono : forall l,
            (List.length (filter (fun m => (m <=? last)%Z) l)
             <= List.length (filter (fun m => (m <=? repCount)%Z) l))%nat).
  { induction l as [| m l IH]; [reflexivity |]. cbn [filter].
    destruct (Z.leb_spec m last), (Z.leb_spec m repCount);
      cbn [List.length]; lia. }
  induction milestones as [| m milestones IH]; [destruct Hin |].
  cbn [filter]. destruct Hin as [-> | Hin].
  - specialize (Hmono milestones).
    destruct (Z.leb_spec repCount last), (Z.leb_spec repCount repCount);
      cbn [List.length]; lia.
  - specialize (IH Hin).
    destruct (Z.leb_spec m last), (Z.leb_spec m repCount);
      cbn [List.length]; lia.
Qed.

Lemma recordRepetition_cases written exerciseType repCount this stored :
  let animalType :=
    constants.animalTheme (constants.EXERCISE_CONFIG exerciseType) in
  let milestones :=
    constants.milestones (constants.EXERCISE_CONFIG exerciseType) in
  let last :=
    AnimalRescueManager.lastMilestoneOf exerciseType
      (AnimalRescueManager.lastMilestone this) in
  (AnimalRescueManager.recordRepetition written exerciseType repCount
     this stored = (this, stored, false, None)
   /\ ~ (In repCount milestones /\ (last < repCount)%Z))
  \/ (In repCount milestones /\ (last < repCount)%Z
      /\ exists this',
           AnimalRescueManager.recordRepetition written exerciseType repCount
             this stored
           = (this', AnimalRescueManager.saveRescueData written this' stored,
              true,
              Some (animalType,
                    AnimalRescueManager.count animalType this', true))
           /\ AnimalRescueManager.count animalType this'
              = (AnimalRescueManager.count animalType this + 1)%Z
           /\ (forall other,
                 other <> animalType ->
                 AnimalRescueManager.count other this'
                 = AnimalRescueManager.count other this)
           /\ AnimalRescueManager.totalRescued this'
              = (AnimalRescueManager.totalRescued this + 1)%Z
           /\ AnimalRescueManager.lastMilestoneOf exerciseType
                (AnimalRescueManager.lastMilestone this') = repCount
           /\ (forall other,
                 other <> exerciseType ->
                 AnimalRescueManager.lastMilestoneOf other
                   (AnimalRescueManager.lastMilestone this')
                 = AnimalRescueManager.lastMilestoneOf other
                     (AnimalRescueManager.lastMilestone this))).
Proof.
  cbv zeta. unfold AnimalRescueManager.recordRepetition.
  cbn [AnimalRescueManager.getAnimalTypeForExercise].
  unfold AnimalRescueManager.checkMilestone.
  destruct (constants.includes _ _) eqn:Hincludes; cbn [andb].
  - apply includes_spec in Hincludes.
    destruct (Z.gtb_spec repCount
                (AnimalRescueManager.lastMilestoneOf exerciseType
                   (AnimalRescueManager.lastMilestone this)))
      as [Habove | Hbelow].
    + right. split; [exact Hincludes |]. split; [lia |].
      eexists. split; [reflexivity |].
      destruct exerciseType; cbn; repeat split; try reflexivity;
        intros [] Hother; try reflexivity; congruence.
    + left. split; [reflexivity |]. intros [_ Hlast]. lia.
  - left. split; [reflexivity |]. intros [Hin _].
    apply includes_spec in Hin. congruence.
Qed.

Lemma rescueInvariant_step state call :
  rescueInvariant (fst state) -> rescueInvariant (fst (rescueStep state call)).
Proof.
  unfold rescueInvariant, milestonesUpTo. intros [Htotal Hcounts].
  destruct state as [this stored].
  destruct call as [written exerciseType repCount | written];
    cbn [rescueStep fst snd] in *.
  - destruct (recordRepetition_cases written exerciseType repCount
                this stored)
      as [[-> _] | (Hin & Hlast & this' & -> & Hcount & Hothers & Htotal'
                    & Hlast' & Hlasts)];
      cbn [fst]; [now split |].
    split.
    + rewrite Htotal', Htotal.
      destruct exerciseType; cbn in Hcount;
        [ pose proof (Hothers Cats) as Hc; pose proof (Hothers Penguins) as Hp
        | pose proof (Hothers Dogs) as Hc; pose proof (Hothers Penguins) as Hp
        | pose proof (Hothers Dogs) as Hc; pose proof (Hothers Cats) as Hp ];
        cbn in Hc, Hp; rewrite Hc, Hp by discriminate; lia.
    + intros e.
      destruct (ExerciseType_eqb e exerciseType) eqn:Hsame.
      * apply ExerciseType_eqb_eq in Hsame. subst e.
        rewrite Hcount, Hlast'.
        pose proof (milestonesUpTo_step _ _ _ Hin Hlast).
        specialize (Hcounts exerciseType). lia.
      * assert (Hneq : e <> exerciseType).
        { intros ->. now rewrite ExerciseType_eqb_refl in Hsame. }
        rewrite (Hlasts e Hneq), Hothers; [apply Hcounts |].
        destruct e, exerciseType; cbn; congruence.
  - split; [reflexivity |]. intros []; cbn; lia.
Qed.

Lemma rescueInvariant_session calls : forall state,
  rescueInvariant (fst state) ->
  rescueInvariant (fst (fold_left rescueStep calls state)).
Proof.
  induction calls as [| call calls IH]; intros state Hstate; [exact Hstate |].
  cbn [fold_left]. apply IH. now apply rescueInvariant_step.
Qed.

(** X19: from the default data (nothing saved), whatever repetitions are
    recorded and however often the data is reset, the total is the sum of
    the dogs, cats and penguins rescued, and no kind of animal is rescued
    more than five times, once for each milestone of its exercise at
    most. *)
Theorem rescue_totals calls :
  let this := fst (rescueSession None calls) in
  AnimalRescueManager.getTotalRescueCount this
  = (AnimalRescueManager.dogs this + AnimalRescueManager.cats this
     + AnimalRescueManager.penguins this)%Z
  /\ forall animalType,
       (0 <= AnimalRescueManager.getRescueCount animalType this <= 5)%Z.
Proof.
  cbv zeta. unfold rescueSession.
  destruct (rescueInvariant_session calls (AnimalRescueManager.new None, None))
    as [Htotal Hcounts].
  { split; [reflexivity |]. intros []; cbn; lia. }
  split; [exact Htotal |].
  intros animalType.
  assert (Hfive : forall exerciseType count,
            (milestonesUpTo exerciseType count <= 5)%nat).
  { intros e count. unfold milestonesUpTo.
    pose proof (filter_length_le (fun m => (m <=? count)%Z)
                  (constants.milestones (constants.EXERCISE_CONFIG e))).
    destruct e; cbn in *; lia. }
  unfold AnimalRescueManager.getRescueCount.
  destruct animalType;
    [ specialize (Hcounts Pushup);
      pose proof (Hfive Pushup
                    (AnimalRescueManager.lastMilestoneOf Pushup
                       (AnimalRescueManager.lastMilestone
                          (fst (fold_left rescueStep calls
                                  (AnimalRescueManager.new None, None))))))
    | specialize (Hcounts Chinup);
      pose proof (Hfive Chinup
                    (AnimalRescueManager.lastMilestoneOf Chinup
                       (AnimalRescueManager.lastMilestone
                          (fst (fold_left rescueStep calls
                                  (AnimalRescueManager.new None, None))))))
    | specialize (Hcounts Plank);
      pose proof (Hfive Plank
                    (AnimalRescueManager.lastMilestoneOf Plank
                       (AnimalRescueManager.lastMilestone
                          (fst (fold_left rescueStep calls
                                  (AnimalRescueManager.new None, None)))))) ];
    cbn [constants.animalTheme constants.EXERCISE_CONFIG] in Hcounts; lia.
Qed.

Lemma rescueStep_lastMilestone state call exerciseType :
  isRecord call = true ->
  (AnimalRescueManager.lastMilestoneOf exerciseType
     (AnimalRescueManager.lastMilestone (fst state))
   <= AnimalRescueManager.lastMilestoneOf exerciseType
        (AnimalRescueManager.lastMilestone (fst (rescueStep state call))))%Z.
Proof.
  destruct state as [this stored].
  destruct call as [written e repCount | written]; [intros _ | discriminate].
  cbn [rescueStep fst snd].
  destruct (recordRepetition_cases written e repCount this stored)
    as [[-> _] | (_ & Hlast & this' & -> & _ & _ & _ & Hlast' & Hlasts)];
    cbn [fst]; [lia |].
  destruct (ExerciseType_eqb exerciseType e) eqn:Hsame.
  - apply ExerciseType_eqb_eq in Hsame. subst e. lia.
  - rewrite Hlasts; [lia |].
    intros ->. now rewrite ExerciseType_eqb_refl in Hsame.
Qed.

(** X20: a count that rescued an animal rescues none again: once
    [recordRepetition] has returned [true] for an exercise at some count,
    every later call for that exercise with this count or a lower one
    returns [false], notifies nobody and leaves the data and the storage as
    they are, as long as the data is not reset. *)
Theorem rescue_once written exerciseType repCount this stored
    calls written' repCount' :
  snd (fst (AnimalRescueManager.recordRepetition written exerciseType
              repCount this stored)) = true ->
  forallb isRecord calls = true ->
  (repCount' <= repCount)%Z ->
  let later :=
    fold_left rescueStep calls
      (fst (fst (AnimalRescueManager.recordRepetition written exerciseType
                   repCount this stored))) in
  AnimalRescueManager.recordRepetition written' exerciseType repCount'
    (fst later) (snd later)
  = (fst later, snd later, false, None).
Proof.
  intros Hrescued Hcalls Hlower. cbv zeta.
  destruct (recordRepetition_cases written exerciseType repCount this stored)
    as [[Hnone _] | (_ & _ & this' & Hsome & _ & _ & _ & Hlast & _)];
    [rewrite Hnone in Hrescued; discriminate |].
  rewrite Hsome. cbn [fst].
  set (state := (this', AnimalRescueManager.saveRescueData written this' stored)).
  assert (Hstate : (repCount
                    <= AnimalRescueManager.lastMilestoneOf exerciseType
                         (AnimalRescueManager.lastMilestone (fst state)))%Z)
    by (cbn [state fst]; lia).
  clearbody state. clear Hsome Hlast Hrescued.
  revert state Hstate.
  induction calls as [| call calls IH]; intros state Hstate.
  - cbn [fold_left].
    destruct (recordRepetition_cases written' exerciseType repCount'
                (fst state) (snd state)) as [[-> _] | (_ & Hlast & _)];
      [reflexivity | lia].
  - cbn [forallb] in Hcalls. apply andb_true_iff in Hcalls.
    destruct Hcalls as [Hcall Hcalls]. cbn [fold_left].
    apply (IH Hcalls).
    exact (Z.le_trans _ _ _ Hstate
             (rescueStep_lastMilestone state call exerciseType Hcall)).
Qed.

Lemma rescue_once_witness :
  let later :=
    fold_left rescueStep
      [RecordRepetition true Pushup 4; RecordRepetition true Chinup 5]
      (fst (fst (AnimalRescueManager.recordRepetition true Pushup 10
                   AnimalRescueManager.default None))) in
  AnimalRescueManager.recordRepetition true Pushup 5 (fst later) (snd later)
  = (fst later, snd later, false, None).
Proof.
  apply (rescue_once true Pushup 10 AnimalRescueManager.default None
           [RecordRepetition true Pushup 4; RecordRepetition true Chinup 5]
           true 5).
  - reflexivity.
  - reflexivity.
  - lia.
Defined.

(** X21: the rescue data survives a reload: as long as the writes to the
    storage go through, after any calls on a manager built from the storage
    a manager built anew from the storage has the same data. *)
Theorem rescue_data_reloads stored calls :
  forallb isWritten calls = true ->
  AnimalRescueManager.new (snd (rescueSession stored calls))
  = fst (rescueSession stored calls).
Proof.
  unfold rescueSession. intros Hwritten.
  assert (Hgen : forall state,
            AnimalRescueManager.new (snd state) = fst state ->
            AnimalRescueManager.new (snd (fold_left rescueStep calls state))
            = fst (fold_left rescueStep calls state)).
  { induction calls as [| call calls IH]; intros state Hstate;
      [exact Hstate |].
    cbn [forallb] in Hwritten. apply andb_true_iff in Hwritten.
    destruct Hwritten as [Hcall Hcalls]. cbn [fold_left].
    apply (IH Hcalls). destruct state as [this slot].
    destruct call as [written e repCount | written];
      cbn [isWritten] in Hcall; subst written; cbn [rescueStep fst snd] in *.
    - destruct (recordRepetition_cases true e repCount this slot)
        as [[-> _] | (_ & _ & this' & -> & _)]; cbn [fst snd];
        [exact Hstate | reflexivity].
    - reflexivity. }
  now apply Hgen.
Qed.

Lemma rescue_data_reloads_witness :
  AnimalRescueManager.new
    (snd (rescueSession None
            [RecordRepetition true Pushup 5; RecordRepetition true Plank 60]))
  = fst (rescueSession None
           [RecordRepetition true Pushup 5; RecordRepetition true Plank 60]).
Proof.
  apply (rescue_data_reloads None
           [RecordRepetition true Pushup 5; RecordRepetition true Plank 60]).
  reflexivity.
Defined.

(** * Workout sessions *)

Lemma rescuedOf_addRescued animalType count entries theme :
  rescuedOf theme
    (WorkoutSessionManager.addRescued animalType count entries)
  = ((if String.eqb animalType theme then count else 0)
     + rescuedOf theme entries)%Z.
Proof.
  induction entries as [| [entry rescued] entries IH].
  - cbn. lia.
  - cbn [WorkoutSessionManager.addRescued].
    destruct (String.eqb_spec entry animalType) as [-> | Hneq].
    + cbn [rescuedOf]. destruct (String.eqb animalType theme); lia.
    + cbn [rescuedOf]. rewrite IH. lia.
Qed.

Lemma addRescued_types animalType count entries :
  map fst (WorkoutSessionManager.addRescued animalType count entries)
  = if existsb (String.eqb animalType) (map fst entries)
    then map fst entries
    else map fst entries ++ [animalType].
Proof.
  induction entries as [| [entry rescued] entries IH]; [reflexivity |].
  cbn [WorkoutSessionManager.addRescued map fst existsb].
  rewrite (String.eqb_sym animalType entry).
  destruct (String.eqb entry animalType); cbn [orb map fst]; [reflexivity |].
  rewrite IH. now destruct (existsb _ _).
Qed.

Lemma addRescued_NoDup animalType count entries :
  NoDup (map fst entries) ->
  NoDup (map fst (WorkoutSessionManager.addRescued animalType count entries)).
Proof.
  intros Hnodup. rewrite addRescued_types.
  destruct (existsb _ _) eqn:Hin; [exact Hnodup |].
  apply NoDup_app; [exact Hnodup | repeat constructor; intros [] |].
  intros entry Hentry [-> | []].
  assert (Hex : existsb (String.eqb entry) (map fst entries) = true).
  { apply existsb_exists. exists entry. split; [exact Hentry |].
    apply String.eqb_refl. }
  congruence.
Qed.

(** What the records of a session leave of it. *)
Lemma recordInSession_fold records : forall this session,
  WorkoutSessionManager.currentSession this = Some session ->
  let final := fold_left recordInSession records this in
  WorkoutSessionManager.currentSession final
  = Some {| UserProgress.sessionId := UserProgress.sessionId session;
            UserProgress.exerciseType := UserProgress.exerciseType session;
            UserProgress.startTime := UserProgress.startTime session;
            UserProgress.endTime := UserProgress.endTime session;
            UserProgress.totalReps :=
              (UserProgress.totalReps session
               + Z.of_nat (List.length (scoresRecorded records)))%Z;
            UserProgress.duration := UserProgress.duration session;
            UserProgress.averageFormScore :=
              UserProgress.averageFormScore session;
            UserProgress.animalsRescued :=
              UserProgress.animalsRescued session |}
  /\ WorkoutSessionManager.formScores final
     = WorkoutSessionManager.formScores this ++ scoresRecorded records
  /\ WorkoutSessionManager.suspended final
     = WorkoutSessionManager.suspended this
  /\ (NoDup (map fst (WorkoutSessionManager.animalsRescued this)) ->
      NoDup (map fst (WorkoutSessionManager.animalsRescued final)))
  /\ forall theme,
       rescuedOf theme (WorkoutSessionManager.animalsRescued final)
       = (rescuedOf theme (WorkoutSessionManager.animalsRescued this)
          + animalsRecorded theme records)%Z.
Proof.
  induction records as [| record records IH]; intros this session Hsession;
    cbv zeta.
  - cbn [fold_left scoresRecorded animalsRecorded List.length Z.of_nat].
    rewrite Hsession, app_nil_r, Z.add_0_r.
    destruct session. cbn. repeat split; auto. intros; lia.
  - cbn [fold_left].
    destruct record as [formScore | animalType count];
      cbn [recordInSession scoresRecorded animalsRecorded].
    + unfold WorkoutSessionManager.recordRepetition. rewrite Hsession.
      edestruct IH as (-> & -> & -> & Hnodup & Hrescued); [reflexivity |].
      cbn [UserProgress.sessionId UserProgress.exerciseType
           UserProgress.startTime UserProgress.endTime UserProgress.totalReps
           UserProgress.duration UserProgress.averageFormScore
           UserProgress.animalsRescued WorkoutSessionManager.formScores
           WorkoutSessionManager.suspended
           WorkoutSessionManager.animalsRescued] in *.
      rewrite <- app_assoc. cbn [app List.length].
      split; [f_equal; f_equal; lia |]. repeat split; auto.
    + unfold WorkoutSessionManager.recordRescuedAnimals. rewrite Hsession.
      edestruct IH as (-> & -> & -> & Hnodup & Hrescued); [reflexivity |].
      cbn [WorkoutSessionManager.formScores WorkoutSessionManager.suspended
           WorkoutSessionManager.animalsRescued] in *.
      split; [reflexivity |]. split; [reflexivity |].
      split; [reflexivity |]. split.
      * intros Hthis. apply Hnodup. now apply addRescued_NoDup.
      * intros theme. rewrite Hrescued, rescuedOf_addRescued. lia.
Qed.


(** X23: a session started while another is in progress does not last:
    [startSession] calls [endSession] without awaiting it, and what
    [endSession] does after its [await], clearing the current session,
    happens once the new session is in place.  From then on no session is
    in progress, what was recorded for the new session is gone, and
    records are ignored. *)
Theorem session_started_during_another_is_cleared
    uuid ended started exerciseType this records :
  WorkoutSessionManager.isSessionInProgress this = true ->
  let restarted :=
    WorkoutSessionManager.startSession uuid ended started exerciseType this
  in
  let used := fold_left recordInSession records restarted in
  let settled := WorkoutSessionManager.resume used in
  (exists session,
     WorkoutSessionManager.getCurrentSession used = Some session
     /\ UserProgress.sessionId session = uuid
     /\ UserProgress.totalReps session
        = Z.of_nat (List.length (scoresRecorded records)))
  /\ WorkoutSessionManager.isSessionInProgress settled = false
  /\ WorkoutSessionManager.formScores settled = []
  /\ WorkoutSessionManager.animalsRescued settled = []
  /\ forall record, recordInSession settled record = settled.
Proof.
  intros Hprogress. cbv zeta.
  set (restarted := WorkoutSessionManager.startSession uuid ended started
                      exerciseType this).
  destruct (recordInSession_fold records restarted _ eq_refl)
    as (Hsession & _ & Hsuspended & _).
  assert (Hwaiting : exists waiting,
            WorkoutSessionManager.suspended restarted = S waiting).
  { unfold restarted, WorkoutSessionManager.startSession,
      WorkoutSessionManager.isSessionInProgress,
      WorkoutSessionManager.endSession in *.
    destruct (WorkoutSessionManager.currentSession this);
      [| discriminate].
    cbn. eauto. }
  destruct Hwaiting as [waiting Hwaiting].
  split.
  - eexists. split; [exact Hsession |]. cbn. split; [reflexivity | lia].
  - unfold WorkoutSessionManager.resume.
    rewrite Hsuspended, Hwaiting. cbn.
    repeat split. now intros [].
Qed.

Lemma session_started_during_another_is_cleared_witness :
  let first :=
    WorkoutSessionManager.startSession "a" 0 1000 Pushup
      WorkoutSessionManager.new in
  let second :=
    WorkoutSessionManager.startSession "b" 5000 5000 Chinup first in
  WorkoutSessionManager.isSessionInProgress
    (WorkoutSessionManager.resume
       (fold_left recordInSession [Repetition 1] second))
  = false.
Proof.
  refine (proj1 (proj2
            (session_started_during_another_is_cleared "b" 5000 5000 Chinup
               (WorkoutSessionManager.startSession "a" 0 1000 Pushup
                  WorkoutSessionManager.new)
               [Repetition 1] _))).
  reflexivity.
Defined.

(** * The validators again: phases and short input *)

(** ** The phases of a push-up and of a chin-up *)

Lemma pushup_validate_flags Math clk this p :
  implb (PushUpValidator.isInUpPosition this)
    (PushUpValidator.isInDownPosition this) = true ->
  let this' := fst (PushUpValidator.validate Math clk this p) in
  implb (PushUpValidator.isInUpPosition this')
    (PushUpValidator.isInDownPosition this') = true.
Proof.
  intros Hflags. cbv zeta.
  destruct (pushup_validate_cases Math clk this p)
    as [-> | [-> | (l & r & a & ->)]]; [exact Hflags | exact Hflags |].
  destruct (pushup_validateForm_unfold clk this l r a) as (-> & _).
  cbn [PushUpValidator.isInUpPosition PushUpValidator.isInDownPosition].
  unfold PushUpValidator.countRepetition. rewrite hasEnoughTimePassed_spec.
  cbv zeta.
  destruct (_ && _ && _); [reflexivity |].
  destruct (_ && _ && _ && _) eqn:Hup; [| exact Hflags].
  destruct (_ >=? _)%Z; [reflexivity |]. cbn.
  apply andb_true_iff in Hup. destruct Hup as [Hup _].
  apply andb_true_iff in Hup. destruct Hup as [Hup _].
  apply andb_true_iff in Hup. destruct Hup as [_ ->]. reflexivity.
Qed.

Lemma chinup_validate_flags Math clk this p :
  implb (ChinUpValidator.isInUpPosition this)
    (ChinUpValidator.isInDownPosition this) = true ->
  let this' := fst (ChinUpValidator.validate Math clk this p) in
  implb (ChinUpValidator.isInUpPosition this')
    (ChinUpValidator.isInDownPosition this') = true.
Proof.
  intros Hflags. cbv zeta.
  destruct (chinup_validate_cases Math clk this p)
    as [-> | [-> | (l & r & b & c & ->)]]; [exact Hflags | exact Hflags |].
  destruct (chinup_validateForm_unfold clk this l r b c) as (-> & _).
  cbn [ChinUpValidator.isInUpPosition ChinUpValidator.isInDownPosition].
  unfold ChinUpValidator.countRepetition. rewrite hasEnoughTimePassed_spec.
  cbv zeta.
  destruct (ChinUpValidator.isInDownPosition this) eqn:Hdown,
    (ChinUpValidator.isInUpPosition this) eqn:Hup; try discriminate Hflags;
    cbn [negb]; rewrite ?andb_false_r, ?andb_true_r; cbn [andb];
    repeat match goal with
           | |- context [if ?cond then _ else _] => destruct cond
           end; cbn; rewrite ?Hdown, ?Hup; reflexivity.
Qed.

Lemma pushup_session_flags Math calls : forall this,
  implb (PushUpValidator.isInUpPosition this)
    (PushUpValidator.isInDownPosition this) = true ->
  implb (PushUpValidator.isInUpPosition (session pushUp Math this calls))
    (PushUpValidator.isInDownPosition (session pushUp Math this calls))
  = true.
Proof.
  unfold session.
  induction calls as [| call calls IH]; intros this Hflags; [exact Hflags |].
  cbn [fold_left]. apply IH. destruct call as [clk p |]; cbn [perform].
  - now apply pushup_validate_flags.
  - reflexivity.
Qed.

Lemma chinup_session_flags Math calls : forall this,
  implb (ChinUpValidator.isInUpPosition this)
    (ChinUpValidator.isInDownPosition this) = true ->
  implb (ChinUpValidator.isInUpPosition (session chinUp Math this calls))
    (ChinUpValidator.isInDownPosition (session chinUp Math this calls))
  = true.
Proof.
  unfold session.
  induction calls as [| call calls IH]; intros this Hflags; [exact Hflags |].
  cbn [fold_left]. apply IH. destruct call as [clk p |]; cbn [perform].
  - now apply chinup_validate_flags.
  - reflexivity.
Qed.

(** X24: in any sequence of [validate] and [reset] calls from a fresh
    validator, the up flag of the push-up validator and of the chin-up
    validator is set only with the down flag set.  As [getCurrentPhase] of
    the push-up validator looks at the down flag first, it never answers
    "Up Position": it answers "Down Position" with the down flag set and
    "Transitioning" without. *)
Theorem pushup_phase_never_up Math calls :
  let pushUps := session pushUp Math PushUpValidator.init calls in
  let chinUps := session chinUp Math ChinUpValidator.init calls in
  implb (PushUpValidator.isInUpPosition pushUps)
    (PushUpValidator.isInDownPosition pushUps) = true
  /\ implb (ChinUpValidator.isInUpPosition chinUps)
       (ChinUpValidator.isInDownPosition chinUps) = true
  /\ PushUpValidator.getCurrentPhase pushUps
     = (if PushUpValidator.isInDownPosition pushUps
        then "Down Position" else "Transitioning")
  /\ PushUpValidator.getCurrentPhase pushUps <> "Up Position".
Proof.
  cbv zeta.
  pose proof (pushup_session_flags Math calls PushUpValidator.init eq_refl)
    as Hpush.
  pose proof (chinup_session_flags Math calls ChinUpValidator.init eq_refl)
    as Hchin.
  split; [exact Hpush |]. split; [exact Hchin |].
  unfold PushUpValidator.getCurrentPhase.
  change (state pushUp) with PushUpValidator.t in *.
  destruct (PushUpValidator.isInDownPosition
              (session pushUp Math PushUpValidator.init calls));
    [split; [reflexivity | discriminate] |].
  destruct (PushUpValidator.isInUpPosition
              (session pushUp Math PushUpValidator.init calls));
    [discriminate | split; [reflexivity | discriminate]].
Qed.

(** ** FormChecker on what it was not meant for *)

(** X25: the checks of [FormChecker] answer rather than fail on short
    input: with fewer landmarks than the index of the last one they look
    at, [isInPlankPosition], [areArmsInPushUpPosition] and [isFacingCamera]
    are [false]; with fewer than three landmarks [areLandmarksAligned] is
    [true], there being nothing between the first and the last; and with
    fewer than two poses, or poses without landmarks,
    [calculatePoseStability] is 0. *)
Theorem FormChecker_short_input Math (poseResult : PoseResult)
    (points : list Landmark3D) (threshold : Q) (poses : list PoseResult) :
  ((List.length (landmarks poseResult) <= 28)%nat ->
   FormChecker.isInPlankPosition poseResult = false)
  /\ ((List.length (landmarks poseResult) <= 16)%nat ->
      FormChecker.areArmsInPushUpPosition poseResult = false)
  /\ ((List.length (landmarks poseResult) <= 12)%nat ->
      FormChecker.isFacingCamera poseResult = false)
  /\ ((List.length points <= 2)%nat ->
      FormChecker.areLandmarksAligned Math points threshold = true)
  /\ ((List.length poses <= 1)%nat ->
      FormChecker.calculatePoseStability Math poses = 0)
  /\ (Forall (fun pose => landmarks pose = []) poses ->
      FormChecker.calculatePoseStability Math poses = 0).
Proof.
  assert (Hnone : forall n,
            (List.length (landmarks poseResult) <= n)%nat ->
            nth_error (landmarks poseResult) n = None)
    by (intros n; apply nth_error_None).
  split; [| split; [| split; [| split; [| split]]]].
  - intros Hshort. unfold FormChecker.isInPlankPosition. cbv zeta.
    rewrite (Hnone 28%nat Hshort).
    repeat match goal with
           | |- context [match ?o with Some _ => _ | None => _ end] =>
               destruct o
           end; reflexivity.
  - intros Hshort. unfold FormChecker.areArmsInPushUpPosition. cbv zeta.
    rewrite (Hnone 16%nat Hshort).
    repeat match goal with
           | |- context [match ?o with Some _ => _ | None => _ end] =>
               destruct o
           end; reflexivity.
  - intros Hshort. unfold FormChecker.isFacingCamera. cbv zeta.
    rewrite (Hnone 12%nat Hshort).
    repeat match goal with
           | |- context [match ?o with Some _ => _ | None => _ end] =>
               destruct o
           end; reflexivity.
  - intros Hshort.
    destruct points as [| a [| b [| c points]]]; try reflexivity.
    cbn in Hshort. lia.
  - intros Hshort.
    destruct poses as [| a [| b poses]]; try reflexivity.
    cbn in Hshort. lia.
  - intros Hempty. unfold FormChecker.calculatePoseStability.
    destruct (_ <? 2)%nat; [reflexivity |].
    destruct poses as [| first rest]; [reflexivity |].
    inversion Hempty as [| ? ? Hfirst Hrest]; subst.
    assert (Hcount : forall rest prev acc,
              landmarks prev = [] ->
              Forall (fun pose => landmarks pose = []) rest ->
              FormChecker.compareConsecutive Math prev rest acc = acc).
    { clear. induction rest as [| curr rest IH]; intros prev acc Hprev Hrest;
        [reflexivity |].
      inversion Hrest as [| ? ? Hcurr Hrest']; subst.
      cbn [FormChecker.compareConsecutive]. rewrite IH by assumption.
      unfold FormChecker.keyLandmarks, FormChecker.addMovement.
      cbn [fold_left]. rewrite Hprev. reflexivity. }
    rewrite (Hcount rest first (0, 0%nat) Hfirst Hrest). reflexivity.
Qed.

Lemma FormChecker_short_input_witness :
  FormChecker.isInPlankPosition
    {| landmarks := []; worldLandmarks := [];
       confidence := 0.9; timestamp := 0 |} = false.
Proof.
  refine (proj1 (FormChecker_short_input exampleMath
                   {| landmarks := []; worldLandmarks := [];
                      confidence := 0.9; timestamp := 0 |} [] 0 []) _).
  cbn. lia.
Defined.
